(** * services/listen_dnsport.c: listening sockets of the resolver

    A shallow embedding of [services/listen_dnsport.c].  The C functions
    run against an explicit model of the operating system (descriptor
    table, allocator, log) and are written in a state monad over that
    model; every call that can fail in C consults a failure script held
    in the state, so that every error path of the source can be taken. *)

From Stdlib Require Import ZArith Ascii String List Bool Lia.
From stdpp Require Import gmap strings pretty list.

Local Open Scope Z_scope.

(** ** Data of the C program *)

Inductive family := AF_UNSPEC | AF_INET | AF_INET6.
Inductive socktype := SOCK_UNSPEC | SOCK_DGRAM | SOCK_STREAM.

(** [enum listen_type] of services/listen_dnsport.h. *)
Inductive listen_type := listen_type_udp | listen_type_tcp | listen_type_udpancil.

(** Socket options this file issues through [setsockopt]. *)
Inductive sockopt :=
| SO_REUSEADDR | IPV6_V6ONLY | IPV6_USE_MIN_MTU
| IPV6_RECVPKTINFO | IPV6_PKTINFO | IP_RECVDSTADDR | IP_PKTINFO.

#[global] Instance family_eq_dec : EqDecision family.
Proof. solve_decision. Defined.
#[global] Instance socktype_eq_dec : EqDecision socktype.
Proof. solve_decision. Defined.
#[global] Instance listen_type_eq_dec : EqDecision listen_type.
Proof. solve_decision. Defined.
#[global] Instance sockopt_eq_dec : EqDecision sockopt.
Proof. solve_decision. Defined.

(** A numeric socket address: host literal and port, both as text, the
    way they are handed to [getaddrinfo]. *)
Record sockaddr := { sa_host : string; sa_port : string }.

(** The fields of [struct addrinfo] the file reads or writes. *)
Record addrinfo := {
  ai_flags : Z;
  ai_family : family;
  ai_socktype : socktype;
  ai_addr : sockaddr }.

Definition AI_PASSIVE : Z := 1.
Definition AI_NUMERICHOST : Z := 4.

(** [struct listen_port]: one node of the list of open ports; the [next]
    pointer is the tail of the Rocq list. *)
Record listen_port := { fd : Z; ftype : listen_type }.

(** The fields of [struct config_file] read by [listening_ports_open].
    [ifs] is the array [cfg->ifs]; [cfg->num_ifs] is its length. *)
Record config_file := {
  port : Z;
  do_ip4 : Z;
  do_ip6 : Z;
  do_udp : Z;
  do_tcp : Z;
  incoming_num_tcp : Z;
  if_automatic : Z;
  ifs : list string }.

Definition num_ifs (cfg : config_file) : Z := Z.of_nat (length (ifs cfg)).

(** C truth value of an [int]. *)
Definition truthy (z : Z) : bool := negb (z =? 0).

(** What the preprocessor sees: one boolean per [#if defined(...)] of the
    file. *)
Record platform := {
  HAVE_INET6 : bool;
  HAVE_SO_REUSEADDR : bool;
  HAVE_IPV6_V6ONLY : bool;
  HAVE_IPV6_USE_MIN_MTU : bool;
  HAVE_IPV6_RECVPKTINFO : bool;
  HAVE_IPV6_PKTINFO : bool;
  HAVE_IP_RECVDSTADDR : bool;
  HAVE_IP_PKTINFO : bool }.

(** ** The operating system model *)

(** Kernel state of one socket.  A closed socket stays in the table with
    [so_open = false], so that leaks and closes can be told apart. *)
Record sock := {
  so_family : family;
  so_type : socktype;
  so_opts : list (sockopt * Z);
  so_bound : option sockaddr;
  so_nonblock : bool;
  so_backlog : option Z;
  so_open : bool }.

Inductive log_level := LOG_ERR | LOG_WARN | LOG_VERBOSE.

(** [enum comm_point_type] of util/netevent.h, as far as this file
    distinguishes its values. *)
Inductive comm_point_type := comm_udp | comm_tcp_accept | comm_tcp | comm_local.

#[global] Instance comm_point_type_eq_dec : EqDecision comm_point_type.
Proof. solve_decision. Defined.

(** The fields of [struct comm_point] this file touches, and whether the
    event loop currently delivers readiness events for it. *)
Record comm_point := {
  cp_type : comm_point_type;
  cp_fd : Z;
  cp_do_not_close : Z;
  cp_ancil : bool;
  cp_max_tcp : Z;
  cp_listening : bool }.

(** [struct listen_dnsport]: [cps] is the linked list of [struct
    listen_list], each node holding a pointer to a comm point;
    [udp_buff] points to the shared buffer. *)
Record listen_dnsport := { cps : list nat; udp_buff : nat }.

Record world := {
  w_fds : gmap Z sock;          (* descriptor table *)
  w_next_fd : nat;               (* next descriptor handed out *)
  w_script : list bool;          (* outcome of the coming fallible calls *)
  w_log : list (log_level * string);
  w_verbose : bool;              (* verbosity >= VERB_ALGO *)
  w_nodes : nat;                 (* live list nodes from malloc *)
  w_next_ptr : nat;              (* next heap address *)
  w_bufs : gmap nat Z;           (* live ldns buffers, with capacity *)
  w_cps : gmap nat comm_point;   (* live comm points *)
  w_fronts : gmap nat listen_dnsport (* live listen_dnsport structs *) }.

Definition set_fds (f : gmap Z sock → gmap Z sock) (w : world) : world :=
  {| w_fds := f (w_fds w); w_next_fd := w_next_fd w; w_script := w_script w;
     w_log := w_log w; w_verbose := w_verbose w; w_nodes := w_nodes w;
     w_next_ptr := w_next_ptr w; w_bufs := w_bufs w; w_cps := w_cps w;
     w_fronts := w_fronts w |}.
Definition set_next_fd (n : nat) (w : world) : world :=
  {| w_fds := w_fds w; w_next_fd := n; w_script := w_script w;
     w_log := w_log w; w_verbose := w_verbose w; w_nodes := w_nodes w;
     w_next_ptr := w_next_ptr w; w_bufs := w_bufs w; w_cps := w_cps w;
     w_fronts := w_fronts w |}.
Definition set_script (s : list bool) (w : world) : world :=
  {| w_fds := w_fds w; w_next_fd := w_next_fd w; w_script := s;
     w_log := w_log w; w_verbose := w_verbose w; w_nodes := w_nodes w;
     w_next_ptr := w_next_ptr w; w_bufs := w_bufs w; w_cps := w_cps w;
     w_fronts := w_fronts w |}.
Definition set_log (l : list (log_level * string)) (w : world) : world :=
  {| w_fds := w_fds w; w_next_fd := w_next_fd w; w_script := w_script w;
     w_log := l; w_verbose := w_verbose w; w_nodes := w_nodes w;
     w_next_ptr := w_next_ptr w; w_bufs := w_bufs w; w_cps := w_cps w;
     w_fronts := w_fronts w |}.
Definition set_nodes (n : nat) (w : world) : world :=
  {| w_fds := w_fds w; w_next_fd := w_next_fd w; w_script := w_script w;
     w_log := w_log w; w_verbose := w_verbose w; w_nodes := n;
     w_next_ptr := w_next_ptr w; w_bufs := w_bufs w; w_cps := w_cps w;
     w_fronts := w_fronts w |}.
Definition set_next_ptr (n : nat) (w : world) : world :=
  {| w_fds := w_fds w; w_next_fd := w_next_fd w; w_script := w_script w;
     w_log := w_log w; w_verbose := w_verbose w; w_nodes := w_nodes w;
     w_next_ptr := n; w_bufs := w_bufs w; w_cps := w_cps w;
     w_fronts := w_fronts w |}.
Definition set_bufs (f : gmap nat Z → gmap nat Z) (w : world) : world :=
  {| w_fds := w_fds w; w_next_fd := w_next_fd w; w_script := w_script w;
     w_log := w_log w; w_verbose := w_verbose w; w_nodes := w_nodes w;
     w_next_ptr := w_next_ptr w; w_bufs := f (w_bufs w); w_cps := w_cps w;
     w_fronts := w_fronts w |}.
Definition set_cps (f : gmap nat comm_point → gmap nat comm_point) (w : world) : world :=
  {| w_fds := w_fds w; w_next_fd := w_next_fd w; w_script := w_script w;
     w_log := w_log w; w_verbose := w_verbose w; w_nodes := w_nodes w;
     w_next_ptr := w_next_ptr w; w_bufs := w_bufs w; w_cps := f (w_cps w);
     w_fronts := w_fronts w |}.
Definition set_fronts (f : gmap nat listen_dnsport → gmap nat listen_dnsport)
    (w : world) : world :=
  {| w_fds := w_fds w; w_next_fd := w_next_fd w; w_script := w_script w;
     w_log := w_log w; w_verbose := w_verbose w; w_nodes := w_nodes w;
     w_next_ptr := w_next_ptr w; w_bufs := w_bufs w; w_cps := w_cps w;
     w_fronts := f (w_fronts w) |}.

(** ** The state monad of the embedding *)

Definition M (A : Type) : Type := world → A * world.

Definition ret {A} (a : A) : M A := fun w => (a, w).
Definition bind {A B} (m : M A) (k : A → M B) : M B :=
  fun w => let (a, w') := m w in k a w'.

Notation "'do' x <- m ; k" := (bind m (fun x => k))
  (at level 10, x name, m at level 100, k at level 200).
Notation "m >> k" := (bind m (fun _ => k))
  (at level 100, k at level 200, right associativity).

(** The next entry of the failure script: [true] makes the coming call
    fail.  An exhausted script lets every call succeed. *)
Definition fails : M bool := fun w =>
  match w_script w with
  | [] => (false, w)
  | b :: r => (b, set_script r w)
  end.

Definition log (lv : log_level) (msg : string) : M unit := fun w =>
  (tt, set_log (w_log w ++ [(lv, msg)]) w).
Definition log_err := log LOG_ERR.
Definition log_warn := log LOG_WARN.

(** [socket(2)]: a fresh descriptor, or -1. *)
Definition sys_socket (fam : family) (ty : socktype) : M Z :=
  do b <- fails;
  if b : bool then ret (-1)
  else fun w =>
    let s := Z.of_nat (w_next_fd w) in
    (s, set_next_fd (S (w_next_fd w))
          (set_fds (insert s {| so_family := fam; so_type := ty; so_opts := [];
                                so_bound := None; so_nonblock := false;
                                so_backlog := None; so_open := true |}) w)).

Definition upd_sock (s : Z) (f : sock → sock) : M unit := fun w =>
  (tt, set_fds (alter f s) w).

(** [setsockopt(2)]: 0, or a negative value. *)
Definition sys_setsockopt (s : Z) (o : sockopt) (val : Z) : M Z :=
  do b <- fails;
  if b : bool then ret (-1)
  else upd_sock s (fun k =>
         {| so_family := so_family k; so_type := so_type k;
            so_opts := (o, val) :: so_opts k; so_bound := so_bound k;
            so_nonblock := so_nonblock k; so_backlog := so_backlog k;
            so_open := so_open k |}) >> ret 0.

(** [bind(2)]. *)
Definition sys_bind (s : Z) (a : sockaddr) : M Z :=
  do b <- fails;
  if b : bool then ret (-1)
  else upd_sock s (fun k =>
         {| so_family := so_family k; so_type := so_type k;
            so_opts := so_opts k; so_bound := Some a;
            so_nonblock := so_nonblock k; so_backlog := so_backlog k;
            so_open := so_open k |}) >> ret 0.

Definition O_NONBLOCK : Z := 2048.

(** [fcntl(s, F_GETFL)]: the status flags, or -1. *)
Definition sys_fcntl_getfl (s : Z) : M Z :=
  do b <- fails;
  if b : bool then ret (-1)
  else fun w =>
    (match w_fds w !! s with
     | Some k => if so_nonblock k then O_NONBLOCK else 0
     | None => 0
     end, w).

(** [fcntl(s, F_SETFL, flag)]. *)
Definition sys_fcntl_setfl (s : Z) (flag : Z) : M Z :=
  do b <- fails;
  if b : bool then ret (-1)
  else upd_sock s (fun k =>
         {| so_family := so_family k; so_type := so_type k;
            so_opts := so_opts k; so_bound := so_bound k;
            so_nonblock := negb (Z.land flag O_NONBLOCK =? 0);
            so_backlog := so_backlog k; so_open := so_open k |}) >> ret 0.

(** [listen(2)]. *)
Definition sys_listen (s : Z) (backlog : Z) : M Z :=
  do b <- fails;
  if b : bool then ret (-1)
  else upd_sock s (fun k =>
         {| so_family := so_family k; so_type := so_type k;
            so_opts := so_opts k; so_bound := so_bound k;
            so_nonblock := so_nonblock k; so_backlog := Some backlog;
            so_open := so_open k |}) >> ret 0.

(** [close(2)]; the file never looks at its result. *)
Definition sys_close (s : Z) : M unit :=
  upd_sock s (fun k =>
    {| so_family := so_family k; so_type := so_type k;
       so_opts := so_opts k; so_bound := so_bound k;
       so_nonblock := so_nonblock k; so_backlog := so_backlog k;
       so_open := false |}).

(** [malloc] and [free] of one list node. *)
Definition malloc_node : M bool :=
  do b <- fails;
  if b : bool then ret false
  else fun w => (true, set_nodes (S (w_nodes w)) w).
Definition free_node : M unit := fun w => (tt, set_nodes (Nat.pred (w_nodes w)) w).

(** [getaddrinfo(3)] on a numeric host: one result carrying the hinted
    family and socket type, or an error code. *)
Definition getaddrinfo (ifname portstr : string) (hints : addrinfo)
    : M (Z * option addrinfo) :=
  do b <- fails;
  if b : bool then ret (-2, None)
  else ret (0, Some {| ai_flags := ai_flags hints; ai_family := ai_family hints;
                       ai_socktype := ai_socktype hints;
                       ai_addr := {| sa_host := ifname; sa_port := portstr |} |}).

(** ** The functions of services/listen_dnsport.c *)

Definition TCP_BACKLOG : Z := 5.

(** Modelled from the spec: [fd_set_nonblock] of util/net_help.c is not
    part of the sources at hand.  It sets the socket non-blocking and
    reports failure (0) when the mode cannot be set. *)
Definition fd_set_nonblock (s : Z) : M bool :=
  do r <- sys_fcntl_setfl s O_NONBLOCK;
  if r =? -1 then log_err "can't fcntl F_SETFL" >> ret false
  else ret true.

(** Modelled from the spec: [str_is_ip6] of util/net_help.c is not part
    of the sources at hand.  It classifies an interface literal as IPv6
    or IPv4; a literal is IPv6 when it holds a colon. *)
Fixpoint str_is_ip6 (str : string) : bool :=
  match str with
  | EmptyString => false
  | String c r => if Ascii.eqb c ":"%char then true else str_is_ip6 r
  end.

Definition verbose_print_addr (addr : addrinfo) : M unit := fun w =>
  if w_verbose w then
    log LOG_VERBOSE
      ("creating "
       +:+ (match ai_socktype addr with
            | SOCK_DGRAM => "udp" | SOCK_STREAM => "tcp"
            | SOCK_UNSPEC => "otherproto" end)
       +:+ (match ai_family addr with
            | AF_INET => "4" | AF_INET6 => "6" | AF_UNSPEC => "_otherfam" end)
       +:+ " socket " +:+ sa_host (ai_addr addr) +:+ " "
       +:+ sa_port (ai_addr addr)) w
  else (tt, w).

Section Platform.

Variable plat : platform.

(** The IPv6 block of [create_udp_sock] (source lines 102-130); [false]
    stands for the [return -1] inside it. *)
Definition udp_ip6_options (s : Z) (v6only : Z) : M bool :=
  do ok <-
    (if HAVE_IPV6_V6ONLY plat && truthy v6only then
       let val := if v6only =? 2 then 0 else 1 in
       do r <- sys_setsockopt s IPV6_V6ONLY val;
       if r <? 0 then log_err "setsockopt(..., IPV6_V6ONLY, ...) failed" >> ret false
       else ret true
     else ret true);
  if negb ok then ret false
  else if HAVE_IPV6_USE_MIN_MTU plat then
    do r <- sys_setsockopt s IPV6_USE_MIN_MTU 1;
    if r <? 0 then log_err "setsockopt(..., IPV6_USE_MIN_MTU, ...) failed" >> ret false
    else ret true
  else ret true.

Definition create_udp_sock (addr : addrinfo) (v6only : Z) : M Z :=
  verbose_print_addr addr >>
  do s <- sys_socket (ai_family addr) (ai_socktype addr);
  if s =? -1 then log_err "can't create socket" >> ret (-1)
  else
    do ok <- (if decide (ai_family addr = AF_INET6) then udp_ip6_options s v6only
              else ret true);
    if negb ok then ret (-1)
    else
      do r <- sys_bind s (ai_addr addr);
      if negb (r =? 0) then log_err "can't bind socket" >> ret (-1)
      else
        do nb <- fd_set_nonblock s;
        if negb nb then ret (-1)
        else ret s.

Definition create_tcp_accept_sock (addr : addrinfo) (v6only : Z) : M Z :=
  let on := 1 in
  verbose_print_addr addr >>
  do s <- sys_socket (ai_family addr) (ai_socktype addr);
  if s =? -1 then log_err "can't create socket" >> ret (-1)
  else
    do ok <- (if HAVE_SO_REUSEADDR plat then
                do r <- sys_setsockopt s SO_REUSEADDR on;
                if r <? 0 then log_err "setsockopt(.. SO_REUSEADDR ..) failed" >> ret false
                else ret true
              else ret true);
    if negb ok then ret (-1)
    else
      do ok <- (if HAVE_IPV6_V6ONLY plat
                   && bool_decide (ai_family addr = AF_INET6) && truthy v6only then
                  do r <- sys_setsockopt s IPV6_V6ONLY on;
                  if r <? 0 then
                    log_err "setsockopt(..., IPV6_V6ONLY, ...) failed" >> ret false
                  else ret true
                else ret true);
      if negb ok then ret (-1)
      else
        do r <- sys_bind s (ai_addr addr);
        if negb (r =? 0) then log_err "can't bind socket" >> ret (-1)
        else
          do flag0 <- sys_fcntl_getfl s;
          do flag <- (if flag0 =? -1 then log_err "can't fcntl F_GETFL" >> ret 0
                      else ret flag0);
          let flag := Z.lor flag O_NONBLOCK in
          do r <- sys_fcntl_setfl s flag;
          if r =? -1 then log_err "can't fcntl F_SETFL" >> ret (-1)
          else
            do r <- sys_listen s TCP_BACKLOG;
            if r =? -1 then log_err "can't listen" >> ret (-1)
            else ret s.

(** [hints->ai_socktype = stype] is the only write to the caller's hints;
    every later call overwrites it again before reading it. *)
Definition make_sock (stype : socktype) (ifname portstr : string)
    (hints : addrinfo) (v6only : Z) : M Z :=
  let hints := {| ai_flags := ai_flags hints; ai_family := ai_family hints;
                  ai_socktype := stype; ai_addr := ai_addr hints |} in
  do rr <- getaddrinfo ifname portstr hints;
  match rr with
  | (0, Some res) =>
      if decide (stype = SOCK_DGRAM) then create_udp_sock res v6only
      else create_tcp_accept_sock res v6only
  | _ => log_err ("node " +:+ ifname +:+ ":" +:+ portstr +:+ " getaddrinfo") >> ret (-1)
  end.

(** The result pairs the C return value with the new [*list]. *)
Definition port_insert (lst : list listen_port) (s : Z) (ft : listen_type)
    : M (Z * list listen_port) :=
  do item <- malloc_node;
  if negb item then ret (0, lst)
  else ret (1, {| fd := s; ftype := ft |} :: lst).

Definition set_recvpktinfo (s : Z) (fam : family) : M Z :=
  let on := 1 in
  match fam with
  | AF_INET6 =>
      if HAVE_IPV6_RECVPKTINFO plat then
        do r <- sys_setsockopt s IPV6_RECVPKTINFO on;
        if r <? 0 then
          log_err "setsockopt(..., IPV6_RECVPKTINFO, ...) failed" >> ret 0
        else ret 1
      else if HAVE_IPV6_PKTINFO plat then
        do r <- sys_setsockopt s IPV6_PKTINFO on;
        if r <? 0 then log_err "setsockopt(..., IPV6_PKTINFO, ...) failed" >> ret 0
        else ret 1
      else
        log_err "no IPV6_RECVPKTINFO and no IPV6_PKTINFO option, please disable interface-automatic in config"
        >> ret 0
  | AF_INET =>
      if HAVE_IP_RECVDSTADDR plat then
        do r <- sys_setsockopt s IP_RECVDSTADDR on;
        if r <? 0 then log_err "setsockopt(..., IP_RECVDSTADDR, ...) failed" >> ret 0
        else ret 1
      else if HAVE_IP_PKTINFO plat then
        do r <- sys_setsockopt s IP_PKTINFO on;
        if r <? 0 then log_err "setsockopt(..., IP_PKTINFO, ...) failed" >> ret 0
        else ret 1
      else
        log_err "no IP_RECVDSTADDR or IP_PKTINFO option, please disable interface-automatic in config"
        >> ret 0
  | AF_UNSPEC => ret 1
  end.

(** The TCP part of [ports_create_if] (source lines 332-341). *)
Definition ports_create_if_tcp (ifname : string) (do_tcp : Z) (hints : addrinfo)
    (portstr : string) (lst : list listen_port) : M (Z * list listen_port) :=
  if truthy do_tcp then
    do s <- make_sock SOCK_STREAM ifname portstr hints 1;
    if s =? -1 then ret (0, lst)
    else
      do rl <- port_insert lst s listen_type_tcp;
      if negb (truthy (fst rl)) then sys_close s >> ret (0, snd rl)
      else ret (1, snd rl)
  else ret (1, lst).

Definition ports_create_if (ifname : string) (do_auto do_udp do_tcp : Z)
    (hints : addrinfo) (portstr : string) (lst : list listen_port)
    : M (Z * list listen_port) :=
  if negb (truthy do_udp) && negb (truthy do_tcp) then ret (0, lst)
  else if truthy do_auto then
    do s <- make_sock SOCK_DGRAM ifname portstr hints 1;
    if s =? -1 then ret (0, lst)
    else
      do r <- set_recvpktinfo s (ai_family hints);
      if negb (truthy r) then ret (0, lst)
      else
        do rl <- port_insert lst s listen_type_udpancil;
        if negb (truthy (fst rl)) then sys_close s >> ret (0, snd rl)
        else ports_create_if_tcp ifname do_tcp hints portstr (snd rl)
  else if truthy do_udp then
    do s <- make_sock SOCK_DGRAM ifname portstr hints 1;
    if s =? -1 then ret (0, lst)
    else
      do rl <- port_insert lst s listen_type_udp;
      if negb (truthy (fst rl)) then sys_close s >> ret (0, snd rl)
      else ports_create_if_tcp ifname do_tcp hints portstr (snd rl)
  else ports_create_if_tcp ifname do_tcp hints portstr lst.

Fixpoint listening_ports_free (lst : list listen_port) : M unit :=
  match lst with
  | [] => ret tt
  | p :: nx =>
      (if negb (fd p =? -1) then sys_close (fd p) else ret tt) >>
      free_node >>
      listening_ports_free nx
  end.

Definition with_family (hints : addrinfo) (fam : family) : addrinfo :=
  {| ai_flags := ai_flags hints; ai_family := fam;
     ai_socktype := ai_socktype hints; ai_addr := ai_addr hints |}.

(** The [for] loop over [cfg->ifs] (source lines 510-530).  [None] is the
    [return NULL] after [listening_ports_free]. *)
Fixpoint ports_open_ifs (names : list string) (do_ip4 do_ip6 do_udp do_tcp : Z)
    (hints : addrinfo) (portbuf : string) (lst : list listen_port)
    : M (option (list listen_port)) :=
  match names with
  | [] => ret (Some lst)
  | ifname :: rest =>
      if str_is_ip6 ifname then
        if negb (truthy do_ip6) then
          ports_open_ifs rest do_ip4 do_ip6 do_udp do_tcp hints portbuf lst
        else
          let hints := with_family hints AF_INET6 in
          do rl <- ports_create_if ifname 0 do_udp do_tcp hints portbuf lst;
          if negb (truthy (fst rl)) then listening_ports_free (snd rl) >> ret None
          else ports_open_ifs rest do_ip4 do_ip6 do_udp do_tcp hints portbuf (snd rl)
      else
        if negb (truthy do_ip4) then
          ports_open_ifs rest do_ip4 do_ip6 do_udp do_tcp hints portbuf lst
        else
          let hints := with_family hints AF_INET in
          do rl <- ports_create_if ifname 0 do_udp do_tcp hints portbuf lst;
          if negb (truthy (fst rl)) then listening_ports_free (snd rl) >> ret None
          else ports_open_ifs rest do_ip4 do_ip6 do_udp do_tcp hints portbuf (snd rl)
  end.

(** The result is the returned pointer: the list of open ports, where the
    empty list is [NULL]. *)
Definition listening_ports_open (cfg : config_file) : M (list listen_port) :=
  let lst := [] in
  let portbuf := pretty (port cfg) in
  let do_ip4 := do_ip4 cfg in
  let do_ip6 := do_ip6 cfg in
  let do_tcp := do_tcp cfg in
  let do_auto := if truthy (if_automatic cfg) && truthy (do_udp cfg) then 1 else 0 in
  let do_tcp := if incoming_num_tcp cfg =? 0 then 0 else do_tcp in
  let hints := {| ai_flags := AI_PASSIVE; ai_family := AF_UNSPEC;
                  ai_socktype := SOCK_UNSPEC;
                  ai_addr := {| sa_host := ""; sa_port := "" |} |} in
  let hints := if 0 <? num_ifs cfg
               then {| ai_flags := Z.lor (ai_flags hints) AI_NUMERICHOST;
                       ai_family := ai_family hints;
                       ai_socktype := ai_socktype hints;
                       ai_addr := ai_addr hints |}
               else hints in
  let do_ip6 := if HAVE_INET6 plat then do_ip6 else 0 in
  if negb (truthy do_ip4) && negb (truthy do_ip6) then ret []
  else
    do do_auto <-
      (if truthy do_auto && (negb (truthy do_ip4) || negb (truthy do_ip6)) then
         log_warn "interface_automatic option does not work when IP4 or IP6 is not enabled. Disabling option."
         >> ret 0
       else ret do_auto);
    if truthy do_auto || (num_ifs cfg =? 0) then
      do l6 <-
        (if truthy do_ip6 then
           let hints := with_family hints AF_INET6 in
           do rl <- ports_create_if (if truthy do_auto then "::0" else "::1")
                      do_auto (do_udp cfg) do_tcp hints portbuf lst;
           if negb (truthy (fst rl)) then listening_ports_free (snd rl) >> ret None
           else ret (Some (snd rl))
         else ret (Some lst));
      match l6 with
      | None => ret []
      | Some lst =>
          if truthy do_ip4 then
            let hints := with_family hints AF_INET in
            do rl <- ports_create_if (if truthy do_auto then "0.0.0.0" else "127.0.0.1")
                       do_auto (do_udp cfg) do_tcp hints portbuf lst;
            if negb (truthy (fst rl)) then listening_ports_free (snd rl) >> ret []
            else ret (snd rl)
          else ret lst
      end
    else
      do r <- ports_open_ifs (ifs cfg) do_ip4 do_ip6 (do_udp cfg) do_tcp
                hints portbuf lst;
      match r with
      | None => ret []
      | Some lst => ret lst
      end.

End Platform.

(** ** The listener aggregate *)

(** [malloc(sizeof(struct listen_dnsport))]: a fresh struct whose fields
    the caller initialises, or [NULL]. *)
Definition malloc_front : M (option nat) :=
  do b <- fails;
  if b : bool then ret None
  else fun w =>
    let p := w_next_ptr w in
    (Some p, set_next_ptr (S p)
               (set_fronts (insert p {| cps := []; udp_buff := 0%nat |}) w)).

Definition free_front (p : nat) : M unit := fun w =>
  (tt, set_fronts (delete p) w).

(** Reading and writing [front->...] through the pointer. *)
Definition get_front (p : nat) : M listen_dnsport := fun w =>
  (default {| cps := []; udp_buff := 0%nat |} (w_fronts w !! p), w).
Definition set_front_cps (p : nat) (l : list nat) : M unit := fun w =>
  (tt, set_fronts (alter (fun f => {| cps := l; udp_buff := udp_buff f |}) p) w).
Definition set_front_udp_buff (p : nat) (b : nat) : M unit := fun w =>
  (tt, set_fronts (alter (fun f => {| cps := cps f; udp_buff := b |}) p) w).

(** [ldns_buffer_new] and [ldns_buffer_free] of the ldns library. *)
Definition ldns_buffer_new (capacity : Z) : M (option nat) :=
  do b <- fails;
  if b : bool then ret None
  else fun w =>
    let p := w_next_ptr w in
    (Some p, set_next_ptr (S p) (set_bufs (insert p capacity) w)).
Definition ldns_buffer_free (p : nat) : M unit := fun w =>
  (tt, set_bufs (delete p) w).

(** Modelled from the spec: the comm point constructors of
    util/netevent.c are not part of the sources at hand.  Each wraps a
    raw socket handle as a comm point of the matching kind (UDP, UDP with
    ancillary destination capture, TCP accept with a limit on
    simultaneous accepts), registered with the event loop, or fails. *)
Definition comm_point_create (c : comm_point) : M (option nat) :=
  do b <- fails;
  if b : bool then ret None
  else fun w =>
    let p := w_next_ptr w in
    (Some p, set_next_ptr (S p) (set_cps (insert p c) w)).

Definition comm_point_create_udp (s : Z) (buffer : nat) : M (option nat) :=
  comm_point_create {| cp_type := comm_udp; cp_fd := s; cp_do_not_close := 0;
                       cp_ancil := false; cp_max_tcp := 0; cp_listening := true |}.
Definition comm_point_create_udp_ancil (s : Z) (buffer : nat) : M (option nat) :=
  comm_point_create {| cp_type := comm_udp; cp_fd := s; cp_do_not_close := 0;
                       cp_ancil := true; cp_max_tcp := 0; cp_listening := true |}.
Definition comm_point_create_tcp (s : Z) (num bufsize : Z) : M (option nat) :=
  comm_point_create {| cp_type := comm_tcp_accept; cp_fd := s; cp_do_not_close := 0;
                       cp_ancil := false; cp_max_tcp := num; cp_listening := true |}.

(** Modelled from the spec: [comm_point_delete] of util/netevent.c is not
    part of the sources at hand.  It releases the comm point and closes
    the wrapped socket unless the comm point was told not to. *)
Definition comm_point_delete (c : nat) : M unit := fun w =>
  match w_cps w !! c with
  | None => (tt, w)
  | Some cp =>
      ((if truthy (cp_do_not_close cp) then ret tt else sys_close (cp_fd cp)) >>
       (fun w => (tt, set_cps (delete c) w))) w
  end.

Definition set_listening (b : bool) (cp : comm_point) : comm_point :=
  {| cp_type := cp_type cp; cp_fd := cp_fd cp;
     cp_do_not_close := cp_do_not_close cp; cp_ancil := cp_ancil cp;
     cp_max_tcp := cp_max_tcp cp; cp_listening := b |}.

(** Modelled from the spec: [comm_point_stop_listening] of
    util/netevent.c is not part of the sources at hand.  It makes the
    event loop stop delivering readiness events for the comm point. *)
Definition comm_point_stop_listening (c : nat) : M unit := fun w =>
  (tt, set_cps (alter (set_listening false) c) w).

(** Modelled from the spec: [comm_point_start_listening] of
    util/netevent.c is not part of the sources at hand.  With no new
    descriptor and no timeout (both -1) it re-arms the delivery of
    readiness events for the comm point. *)
Definition comm_point_start_listening (c : nat) (newfd sec : Z) : M unit := fun w =>
  (tt, set_cps (alter (set_listening true) c) w).

(** [cp->do_not_close = 1]. *)
Definition set_do_not_close (c : nat) (v : Z) : M unit := fun w =>
  (tt, set_cps (alter (fun cp =>
         {| cp_type := cp_type cp; cp_fd := cp_fd cp; cp_do_not_close := v;
            cp_ancil := cp_ancil cp; cp_max_tcp := cp_max_tcp cp;
            cp_listening := cp_listening cp |}) c) w).

Definition listen_cp_insert (c : nat) (front : nat) : M Z :=
  do item <- malloc_node;
  if negb item then ret 0
  else
    do f <- get_front front;
    set_front_cps front (c :: cps f) >> ret 1.

(** The [while(p)] loop of [listen_delete]. *)
Fixpoint listen_delete_cps (p : list nat) : M unit :=
  match p with
  | [] => ret tt
  | com :: pn => comm_point_delete com >> free_node >> listen_delete_cps pn
  end.

Definition listen_delete (front : option nat) : M unit :=
  match front with
  | None => ret tt
  | Some front =>
      do f <- get_front front;
      listen_delete_cps (cps f) >>
      ldns_buffer_free (udp_buff f) >>
      free_front front
  end.

(** The [while(ports)] loop of [listen_create]; [false] stands for the
    [return NULL] inside it. *)
Fixpoint listen_create_ports (front : nat) (ports : list listen_port)
    (bufsize tcp_accept_count : Z) : M bool :=
  match ports with
  | [] => ret true
  | p :: next =>
      do f <- get_front front;
      do cp <- (match ftype p with
                | listen_type_udp => comm_point_create_udp (fd p) (udp_buff f)
                | listen_type_tcp =>
                    comm_point_create_tcp (fd p) tcp_accept_count bufsize
                | listen_type_udpancil =>
                    comm_point_create_udp_ancil (fd p) (udp_buff f)
                end);
      match cp with
      | None =>
          log_err "can't create commpoint" >>
          listen_delete (Some front) >> ret false
      | Some c =>
          set_do_not_close c 1 >>
          do ok <- listen_cp_insert c front;
          if negb (truthy ok) then
            log_err "malloc failed" >>
            comm_point_delete c >>
            listen_delete (Some front) >> ret false
          else listen_create_ports front next bufsize tcp_accept_count
      end
  end.

(** The event base and the callback with its argument are handed on to
    the comm point constructors untouched and are left out. *)
Definition listen_create (ports : list listen_port) (bufsize : Z)
    (tcp_accept_count : Z) : M (option nat) :=
  do fr <- malloc_front;
  match fr with
  | None => ret None
  | Some front =>
      set_front_cps front [] >>
      do b <- ldns_buffer_new bufsize;
      match b with
      | None => free_front front >> ret None
      | Some buf =>
          set_front_udp_buff front buf >>
          do ok <- listen_create_ports front ports bufsize tcp_accept_count;
          if negb ok then ret None
          else
            do f <- get_front front;
            match cps f with
            | [] =>
                log_err "Could not open sockets to accept queries." >>
                listen_delete (Some front) >> ret None
            | _ :: _ => ret (Some front)
            end
      end
  end.

(** The body of the [for] loops of [listen_pushback] and
    [listen_resume]: comm points of other kinds are skipped. *)
Definition listens_on (w : world) (com : nat) : bool :=
  match w_cps w !! com with
  | Some cp =>
      negb (negb (bool_decide (cp_type cp = comm_udp))
            && negb (bool_decide (cp_type cp = comm_tcp_accept)))
  | None => false
  end.

Fixpoint listen_pushback_cps (p : list nat) : M unit :=
  match p with
  | [] => ret tt
  | com :: next =>
      (fun w => if listens_on w com then comm_point_stop_listening com w
                else (tt, w)) >>
      listen_pushback_cps next
  end.

Definition listen_pushback (listen : nat) : M unit :=
  do l <- get_front listen;
  listen_pushback_cps (cps l).

Fixpoint listen_resume_cps (p : list nat) : M unit :=
  match p with
  | [] => ret tt
  | com :: next =>
      (fun w => if listens_on w com then comm_point_start_listening com (-1) (-1) w
                else (tt, w)) >>
      listen_resume_cps next
  end.

Definition listen_resume (listen : nat) : M unit :=
  do l <- get_front listen;
  listen_resume_cps (cps l).

(** * Vocabulary of the statements *)

(** ** Sample platform and worlds *)

Module Sample.

Definition linux : platform :=
  {| HAVE_INET6 := true; HAVE_SO_REUSEADDR := true; HAVE_IPV6_V6ONLY := true;
     HAVE_IPV6_USE_MIN_MTU := false; HAVE_IPV6_RECVPKTINFO := true;
     HAVE_IPV6_PKTINFO := true; HAVE_IP_RECVDSTADDR := false;
     HAVE_IP_PKTINFO := true |}.

(** A fresh process: descriptors 0-2 are the standard streams, and the
    coming fallible calls turn out as [script] says. *)
Definition boot (script : list bool) : world :=
  {| w_fds := ∅; w_next_fd := 3; w_script := script; w_log := [];
     w_verbose := false; w_nodes := 0; w_next_ptr := 1; w_bufs := ∅;
     w_cps := ∅; w_fronts := ∅ |}.

Definition addr6 (ty : socktype) : addrinfo :=
  {| ai_flags := AI_PASSIVE; ai_family := AF_INET6; ai_socktype := ty;
     ai_addr := {| sa_host := "::1"; sa_port := "53" |} |}.

Definition hints4 : addrinfo :=
  {| ai_flags := AI_PASSIVE; ai_family := AF_INET; ai_socktype := SOCK_UNSPEC;
     ai_addr := {| sa_host := ""; sa_port := "" |} |}.

End Sample.

(** ** Reading the state *)

(** The value of a socket option as last set on descriptor [s]; [None]
    when the option was never set (the kernel default applies). *)
Definition sockopt_of (o : sockopt) (k : sock) : option Z :=
  snd <$> List.find (fun p => bool_decide (fst p = o)) (so_opts k).
Definition getsockopt (w : world) (s : Z) (o : sockopt) : option Z :=
  match w_fds w !! s with
  | Some k => sockopt_of o k
  | None => None
  end.

(** The descriptors that are open. *)
Definition open_fds (w : world) : list Z :=
  fst <$> map_to_list (filter (fun p => so_open (snd p) = true) (w_fds w)).

(** The descriptors of the ancillary kind, in list order. *)
Definition ancil_ports (l : list listen_port) : list listen_port :=
  filter (fun p => ftype p = listen_type_udpancil) l.

(** No descriptor of the list is of the TCP kind. *)
Definition no_tcp_port (l : list listen_port) : Prop :=
  Forall (fun p => ftype p ≠ listen_type_tcp) l.

(** The kinds of comm point that [listen_pushback] and [listen_resume]
    act on. *)
Definition listening_kind (cp : comm_point) : bool :=
  bool_decide (cp_type cp = comm_udp) || bool_decide (cp_type cp = comm_tcp_accept).

(** The comm points owned by the aggregate at [listen]. *)
Definition members (w : world) (listen : nat) : list nat :=
  cps (default {| cps := []; udp_buff := 0%nat |} (w_fronts w !! listen)).

(** ** Outcomes of the socket factories *)

(** The two socket factories, and the one named run. *)
Inductive factory := UdpFactory | TcpAcceptFactory.

Definition run_factory (plat : platform) (f : factory)
    : addrinfo → Z → M Z :=
  match f with
  | UdpFactory => create_udp_sock plat
  | TcpAcceptFactory => create_tcp_accept_sock plat
  end.

(** The socket [k] was opened as descriptor [s]: the descriptor is the
    next free one and the table gained exactly this entry. *)
Definition opened (w : world) (k : sock) (s : Z) (w' : world) : Prop :=
  s = Z.of_nat (w_next_fd w)
  ∧ w_next_fd w' = S (w_next_fd w)
  ∧ w_fds w' = <[s := k]> (w_fds w)
  ∧ w_nodes w' = w_nodes w.

(** Options [create_udp_sock] has set on a socket it returns. *)
Definition udp_opts (plat : platform) (fam : family) (v6only : Z)
    : list (sockopt * Z) :=
  if decide (fam = AF_INET6) then
    (if HAVE_IPV6_USE_MIN_MTU plat then [(IPV6_USE_MIN_MTU, 1)] else [])
    ++ (if HAVE_IPV6_V6ONLY plat && truthy v6only
        then [(IPV6_V6ONLY, if v6only =? 2 then 0 else 1)] else [])
  else [].

(** The socket [create_udp_sock] returns for [addr]. *)
Definition udp_sock (plat : platform) (addr : addrinfo) (v6only : Z) : sock :=
  {| so_family := ai_family addr; so_type := ai_socktype addr;
     so_opts := udp_opts plat (ai_family addr) v6only;
     so_bound := Some (ai_addr addr); so_nonblock := true;
     so_backlog := None; so_open := true |}.

(** Options [create_tcp_accept_sock] has set on a socket it returns. *)
Definition tcp_opts (plat : platform) (fam : family) (v6only : Z)
    : list (sockopt * Z) :=
  (if HAVE_IPV6_V6ONLY plat && bool_decide (fam = AF_INET6) && truthy v6only
   then [(IPV6_V6ONLY, 1)] else [])
  ++ (if HAVE_SO_REUSEADDR plat then [(SO_REUSEADDR, 1)] else []).

(** The socket [create_tcp_accept_sock] returns for [addr]. *)
Definition tcp_sock (plat : platform) (addr : addrinfo) (v6only : Z) : sock :=
  {| so_family := ai_family addr; so_type := ai_socktype addr;
     so_opts := tcp_opts plat (ai_family addr) v6only;
     so_bound := Some (ai_addr addr); so_nonblock := true;
     so_backlog := Some TCP_BACKLOG; so_open := true |}.

(** What [getaddrinfo] resolves a numeric host to. *)
Definition resolved (stype : socktype) (ifname portstr : string)
    (hints : addrinfo) : addrinfo :=
  {| ai_flags := ai_flags hints; ai_family := ai_family hints;
     ai_socktype := stype;
     ai_addr := {| sa_host := ifname; sa_port := portstr |} |}.

(** The option by which [set_recvpktinfo] asks for the destination
    address of the datagrams of a socket of family [fam], as the
    platform has it; [None] where it sets no option. *)
Definition pktinfo_opt (plat : platform) (fam : family) : option sockopt :=
  match fam with
  | AF_INET6 =>
      if HAVE_IPV6_RECVPKTINFO plat then Some IPV6_RECVPKTINFO
      else if HAVE_IPV6_PKTINFO plat then Some IPV6_PKTINFO else None
  | AF_INET =>
      if HAVE_IP_RECVDSTADDR plat then Some IP_RECVDSTADDR
      else if HAVE_IP_PKTINFO plat then Some IP_PKTINFO else None
  | AF_UNSPEC => None
  end.

(** ** The state before and after *)

(** The descriptor table and the descriptor counter are as before. *)
Definition same_fds (w w' : world) : Prop :=
  w_fds w' = w_fds w ∧ w_next_fd w' = w_next_fd w.

(** Only the socket [s] was touched, and neither its family, its type
    nor its address changed. *)
Definition touched (s : Z) (w w' : world) : Prop :=
  w_next_fd w' = w_next_fd w
  ∧ (∀ x, x ≠ s → w_fds w' !! x = w_fds w !! x)
  ∧ (∀ k, w_fds w !! s = Some k →
       ∃ k', w_fds w' !! s = Some k' ∧ so_family k' = so_family k
             ∧ so_type k' = so_type k ∧ so_bound k' = so_bound k).

(** Descriptors below the old counter are as before, and the counter did
    not go back. *)
Definition extends (w w' : world) : Prop :=
  (w_next_fd w ≤ w_next_fd w')%nat
  ∧ ∀ x, x < Z.of_nat (w_next_fd w) → w_fds w' !! x = w_fds w !! x.

(** Every stream socket of [m] is a stream socket of [m0] already. *)
Definition streams_within (m0 m : gmap Z sock) : Prop :=
  ∀ s k, m !! s = Some k → so_type k = SOCK_STREAM →
         ∃ k0, m0 !! s = Some k0 ∧ so_type k0 = SOCK_STREAM.

(** Addresses from the allocation counter on are not in use. *)
Definition heap_fresh (w : world) : Prop :=
  ∀ p, (w_next_ptr w ≤ p)%nat →
    w_fronts w !! p = None ∧ w_bufs w !! p = None ∧ w_cps w !! p = None.

(** What is live in the state: descriptor table, list nodes, buffers,
    comm points and aggregates. *)
Definition same_resources (w w' : world) : Prop :=
  w_fds w' = w_fds w ∧ w_nodes w' = w_nodes w ∧ w_bufs w' = w_bufs w
  ∧ w_cps w' = w_cps w ∧ w_fronts w' = w_fronts w.

(** The front returned is live and its collection is not empty. *)
Definition nonempty_front (r : option nat) (w : world) : Prop :=
  ∀ front, r = Some front →
    ∃ l, w_fronts w !! front = Some l ∧ cps l ≠ [].

(** What pausing ([b = false]) or resuming ([b = true]) the members [ms]
    does to one comm point at address [c]. *)
Definition readiness (b : bool) (ms : list nat) (c : nat) (cp : comm_point)
    : comm_point :=
  if listening_kind cp && bool_decide (c ∈ ms) then set_listening b cp else cp.

(** From [w] to [w'] nothing changed but the readiness delivery, now
    [b], of the members [ms] of the UDP or TCP accept kind: aggregates
    (collection, order and buffer pointer), buffers, descriptors and list
    nodes are as before, no comm point appeared or went away, and every
    other comm point is as before. *)
Definition readiness_only (b : bool) (ms : list nat) (w w' : world) : Prop :=
  w_fronts w' = w_fronts w ∧ w_bufs w' = w_bufs w ∧ w_fds w' = w_fds w
  ∧ w_nodes w' = w_nodes w
  ∧ ∀ c, w_cps w' !! c = readiness b ms c <$> w_cps w !! c.

(** ** Assertions on the monadic code *)

(** From a state in [P], [m] returns a value and a state in [Q]. *)
Definition hoare {A} (P : world → Prop) (m : M A) (Q : A → world → Prop) : Prop :=
  ∀ w, P w → Q (fst (m w)) (snd (m w)).

(** [m] keeps the invariant [I], whatever it returns. *)
Definition keeps (I : world → Prop) {A} (m : M A) : Prop :=
  hoare I m (fun _ => I).

(** Whatever the state, [m] returns a value in [Q]. *)
Definition yields {A} (m : M A) (Q : A → Prop) : Prop :=
  hoare (fun _ => True) m (fun a _ => Q a).

(** An invariant that only looks at the descriptor table. *)
Definition on_fds (F : gmap Z sock → Prop) (w : world) : Prop := F (w_fds w).

(** ** Claims as the specification words them *)

(** The claim C4 as the specification words it: on an IPv6 address the
    TCP accept factory leaves IPV6_V6ONLY exactly as the UDP factory
    does, whatever the mode. *)
Definition v6only_applied_identically (plat : platform) (addr : addrinfo)
    (v6only : Z) (wu wt : world) : Prop :=
  let ru := create_udp_sock plat addr v6only wu in
  let rt := create_tcp_accept_sock plat addr v6only wt in
  getsockopt (snd rt) (fst rt) IPV6_V6ONLY
  = getsockopt (snd ru) (fst ru) IPV6_V6ONLY.

(** The claim C1 as the specification words it: no descriptor of the
    ancillary kind is created for an IPv4 socket. *)
Definition no_ip4_ancil (plat : platform) (cfg : config_file) (w : world) : Prop :=
  let r := listening_ports_open plat cfg w in
  ∀ p k, p ∈ fst r → ftype p = listen_type_udpancil →
         w_fds (snd r) !! fd p = Some k → so_family k ≠ AF_INET.

(** ** Inputs of the examples *)

(** Automatic interface mode, both families on, UDP only. *)
Definition cfg_automatic : config_file :=
  {| port := 53; do_ip4 := 1; do_ip6 := 1; do_udp := 1; do_tcp := 0;
     incoming_num_tcp := 10; if_automatic := 1; ifs := [] |}.

(** Three explicit IPv4 interfaces, UDP only: three sockets are asked for. *)
Definition cfg_three_udp : config_file :=
  {| port := 53; do_ip4 := 1; do_ip6 := 1; do_udp := 1; do_tcp := 0;
     incoming_num_tcp := 10; if_automatic := 0;
     ifs := ["192.0.2.1"; "192.0.2.2"; "192.0.2.3"] |}.

(** Each UDP socket costs five fallible calls ([getaddrinfo], [socket],
    [bind], the switch to non-blocking mode, [malloc]); the eighth call
    is the [bind] of the second socket. *)
Definition second_bind_fails : list bool :=
  [false; false; false; false; false; false; false; true].

(** An aggregate over a UDP comm point (address 2) and, for the sake of
    the skipped case, a comm point of an accepted TCP connection
    (address 3): pausing stops the first and leaves the second alone;
    resuming brings the state back. *)
Definition two_comm_points : world :=
  {| w_fds := ∅; w_next_fd := 5; w_script := []; w_log := [];
     w_verbose := false; w_nodes := 2; w_next_ptr := 5;
     w_bufs := {[ 4%nat := 65552 ]};
     w_cps := {[ 2%nat := {| cp_type := comm_udp; cp_fd := 3; cp_do_not_close := 1;
                             cp_ancil := false; cp_max_tcp := 0;
                             cp_listening := true |};
                 3%nat := {| cp_type := comm_tcp; cp_fd := 4; cp_do_not_close := 0;
                             cp_ancil := false; cp_max_tcp := 0;
                             cp_listening := true |} ]};
     w_fronts := {[ 1%nat := {| cps := [2%nat; 3%nat]; udp_buff := 4%nat |} ]} |}.

(** ** Outcomes of a factory call, failures included *)

(** Everything but descriptors, script and log is as before. *)
Definition sockets_only (w w' : world) : Prop :=
  w_nodes w' = w_nodes w ∧ w_bufs w' = w_bufs w ∧ w_cps w' = w_cps w
  ∧ w_fronts w' = w_fronts w ∧ w_next_ptr w' = w_next_ptr w
  ∧ w_verbose w' = w_verbose w.

(** The three ways a factory call ends: [socket] failed and nothing was
    created; a later step failed and the descriptor obtained from
    [socket] was left behind; or the call succeeded. *)
Inductive factory_end (w : world) (good : sock) (s : Z) (w' : world) : Prop :=
| end_no_socket :
    s = -1 → w_fds w' = w_fds w → w_next_fd w' = w_next_fd w →
    factory_end w good s w'
| end_left_behind k :
    s = -1 → w_next_fd w' = S (w_next_fd w) →
    w_fds w' = <[Z.of_nat (w_next_fd w) := k]> (w_fds w) →
    so_open k = true →
    factory_end w good s w'
| end_opened :
    s ≠ -1 → opened w good s w' → factory_end w good s w'.

(** The socket a factory returns for [addr]. *)
Definition factory_sock (plat : platform) (f : factory) (addr : addrinfo)
    (v6only : Z) : sock :=
  match f with
  | UdpFactory => udp_sock plat addr v6only
  | TcpAcceptFactory => tcp_sock plat addr v6only
  end.


(** ** The sockets of a port set *)

(** One more option set on a socket. *)
Definition add_opt (o : sockopt) (v : Z) (k : sock) : sock :=
  {| so_family := so_family k; so_type := so_type k;
     so_opts := (o, v) :: so_opts k; so_bound := so_bound k;
     so_nonblock := so_nonblock k; so_backlog := so_backlog k;
     so_open := so_open k |}.

(** The options by which [set_recvpktinfo] asks for the destination
    address of a datagram. *)
Definition pktinfo_opts : list sockopt :=
  [IPV6_RECVPKTINFO; IPV6_PKTINFO; IP_RECVDSTADDR; IP_PKTINFO].

(** A socket fit for a descriptor of kind [ft]: open, non-blocking, a
    datagram socket for the two UDP kinds, and for the TCP kind a stream
    socket listening with the fixed backlog. *)
Definition healthy (ft : listen_type) (k : sock) : Prop :=
  so_open k = true ∧ so_nonblock k = true
  ∧ so_type k = (if decide (ft = listen_type_tcp) then SOCK_STREAM else SOCK_DGRAM)
  ∧ so_backlog k = (if decide (ft = listen_type_tcp) then Some TCP_BACKLOG else None).

(** The option [o] set to 1 where the platform has it ([have]). *)
Definition opt_on (have : bool) (o : sockopt) : list (sockopt * Z) :=
  if have then [(o, 1)] else [].

(** The options set on the socket behind a descriptor of kind [ft] and
    family [fam], the last set first, each where the platform has it.
    On a TCP socket: IPV6_V6ONLY over IPv6, after SO_REUSEADDR.  On a
    UDP socket over IPv6: IPV6_USE_MIN_MTU after IPV6_V6ONLY, and none
    over IPv4.  For the ancillary kind the destination-address option of
    [set_recvpktinfo] comes after those of the UDP socket. *)
Definition port_opts (plat : platform) (fam : family) (ft : listen_type)
    : list (sockopt * Z) :=
  let udp :=
    if decide (fam = AF_INET6) then
      opt_on (HAVE_IPV6_USE_MIN_MTU plat) IPV6_USE_MIN_MTU
      ++ opt_on (HAVE_IPV6_V6ONLY plat) IPV6_V6ONLY
    else [] in
  match ft with
  | listen_type_udp => udp
  | listen_type_tcp =>
      (if decide (fam = AF_INET6)
       then opt_on (HAVE_IPV6_V6ONLY plat) IPV6_V6ONLY else [])
      ++ opt_on (HAVE_SO_REUSEADDR plat) SO_REUSEADDR
  | listen_type_udpancil =>
      match pktinfo_opt plat fam with
      | Some o => [(o, 1)]
      | None => []
      end ++ udp
  end.

(** What is known of the socket behind a descriptor of kind [ft] made for
    the host literal [host]: it is healthy, of family [fam], bound to
    the host and port, restricted to IPv6 traffic if it is an IPv6
    socket (where the platform has the option), for the ancillary kind
    asked to report destination addresses, and its options are exactly
    those of [port_opts], no more and no less. *)
Definition port_facts (plat : platform) (fam : family) (host portstr : string)
    (ft : listen_type) (k : sock) : Prop :=
  healthy ft k
  ∧ so_family k = fam
  ∧ so_bound k = Some {| sa_host := host; sa_port := portstr |}
  ∧ (fam = AF_INET6 → HAVE_IPV6_V6ONLY plat = true →
     sockopt_of IPV6_V6ONLY k = Some 1)
  ∧ (ft = listen_type_udpancil → fam ≠ AF_UNSPEC →
     ∃ o, o ∈ pktinfo_opts ∧ sockopt_of o k = Some 1)
  ∧ so_opts k = port_opts plat fam ft.

(** The kinds of descriptor [ports_create_if] makes for one interface,
    in the order it makes them. *)
Definition if_kinds (do_auto do_udp do_tcp : Z) : list listen_type :=
  (if truthy do_auto then [listen_type_udpancil]
   else if truthy do_udp then [listen_type_udp] else [])
  ++ (if truthy do_tcp then [listen_type_tcp] else []).


(** ** How the list of open ports grows *)

(** A planned descriptor: the family and host literal it is made for and
    its kind. *)
Definition planned : Type := family * string * listen_type.

(** The descriptor [p] realises the planned descriptor [pl] in [w]: it
    is of the planned kind and names a socket, handed out already, with
    the facts of the plan. *)
Definition port_at (plat : platform) (portstr : string) (w : world)
    (p : listen_port) (pl : planned) : Prop :=
  ftype p = pl.2
  ∧ fd p < Z.of_nat (w_next_fd w)
  ∧ ∃ k, w_fds w !! fd p = Some k
         ∧ port_facts plat pl.1.1 pl.1.2 portstr pl.2 k.

(** From [lst] in [w] to [lst'] in [w'] the list grew in front by the
    descriptors of [plan], the last planned one first; their descriptors
    are the ones handed out since [w], none of which is missing; older
    descriptors are as before. *)
Definition grown (plat : platform) (portstr : string) (plan : list planned)
    (lst : list listen_port) (w : world)
    (lst' : list listen_port) (w' : world) : Prop :=
  ∃ new, lst' = new ++ lst
    ∧ Forall2 (port_at plat portstr w') new (reverse plan)
    ∧ fd <$> new = Z.of_nat <$> reverse (seq (w_next_fd w) (length new))
    ∧ w_next_fd w' = (w_next_fd w + length new)%nat
    ∧ ∀ x, x < Z.of_nat (w_next_fd w) → w_fds w' !! x = w_fds w !! x.

(** The plan of [ports_create_if] for one interface. *)
Definition if_plan (fam : family) (host : string) (do_auto do_udp do_tcp : Z)
    : list planned :=
  (fun ft => (fam, host, ft)) <$> if_kinds do_auto do_udp do_tcp.


(** ** The plan of a port set *)

(** The family of a host literal, as [listening_ports_open] picks it. *)
Definition fam_of (host : string) : family :=
  if str_is_ip6 host then AF_INET6 else AF_INET.

(** The switches of [listening_ports_open] after its adjustments: IPv6
    needs the platform, TCP needs an accept queue, and automatic mode
    needs UDP and both families. *)
Definition ip4_on (cfg : config_file) : bool := truthy (do_ip4 cfg).
Definition ip6_on (plat : platform) (cfg : config_file) : bool :=
  HAVE_INET6 plat && truthy (do_ip6 cfg).
Definition tcp_arg (cfg : config_file) : Z :=
  if incoming_num_tcp cfg =? 0 then 0 else do_tcp cfg.
Definition auto_on (plat : platform) (cfg : config_file) : bool :=
  truthy (if_automatic cfg) && truthy (do_udp cfg)
  && ip4_on cfg && ip6_on plat cfg.

(** Whether an interface literal is of a family that is switched on. *)
Definition family_on (ip4 ip6 : bool) (host : string) : bool :=
  if str_is_ip6 host then ip6 else ip4.

(** The host literals [listening_ports_open] makes sockets for, in the
    order it goes through them: the wildcards in automatic mode, the
    loopback addresses when no interface is configured, and otherwise
    the configured interfaces of the families that are on. *)
Definition listen_hosts (plat : platform) (cfg : config_file) : list string :=
  if auto_on plat cfg then ["::0"; "0.0.0.0"]
  else if bool_decide (ifs cfg = []) then
    (if ip6_on plat cfg then ["::1"] else [])
    ++ (if ip4_on cfg then ["127.0.0.1"] else [])
  else List.filter (family_on (ip4_on cfg) (ip6_on plat cfg)) (ifs cfg).

(** The plan of the whole port set: for each host in turn the plan of
    [ports_create_if]. *)
Definition hosts_plan (hosts : list string) (do_auto do_udp do_tcp : Z)
    : list planned :=
  concat ((fun h => if_plan (fam_of h) h do_auto do_udp do_tcp) <$> hosts).
Definition port_plan (plat : platform) (cfg : config_file) : list planned :=
  hosts_plan (listen_hosts plat cfg)
    (if auto_on plat cfg then 1 else 0) (do_udp cfg) (tcp_arg cfg).


(** A platform that has every option the file asks for. *)
Definition all_options : platform :=
  {| HAVE_INET6 := true; HAVE_SO_REUSEADDR := true; HAVE_IPV6_V6ONLY := true;
     HAVE_IPV6_USE_MIN_MTU := true; HAVE_IPV6_RECVPKTINFO := true;
     HAVE_IPV6_PKTINFO := true; HAVE_IP_RECVDSTADDR := true;
     HAVE_IP_PKTINFO := true |}.

(** A configuration with two explicit interfaces, one of each family. *)
Definition cfg_two_ifs : config_file :=
  {| port := 5353; do_ip4 := 1; do_ip6 := 1; do_udp := 1; do_tcp := 1;
     incoming_num_tcp := 5; if_automatic := 0;
     ifs := ["192.0.2.1"; "2001:db8::1"] |}.


(** ** Node accounting and unwinding *)

(** The live list nodes are [n] nodes plus the nodes of [lst]. *)
Definition counted (n : nat) (lst : list listen_port) (w : world) : Prop :=
  w_nodes w = (n + length lst)%nat.

(** A socket after [close]. *)
Definition closed (k : sock) : sock :=
  {| so_family := so_family k; so_type := so_type k; so_opts := so_opts k;
     so_bound := so_bound k; so_nonblock := so_nonblock k;
     so_backlog := so_backlog k; so_open := false |}.

(** What [listening_ports_free lst] does to the socket at descriptor [s]. *)
Definition freed (lst : list listen_port) (s : Z) (k : sock) : sock :=
  if bool_decide (s ∈ fd <$> lst) && negb (s =? -1) then closed k else k.


(** ** Automatic mode that cannot be had *)

(** The configuration with automatic interface detection switched off. *)
Definition manual_mode (cfg : config_file) : config_file :=
  {| port := port cfg; do_ip4 := do_ip4 cfg; do_ip6 := do_ip6 cfg;
     do_udp := do_udp cfg; do_tcp := do_tcp cfg;
     incoming_num_tcp := incoming_num_tcp cfg; if_automatic := 0;
     ifs := ifs cfg |}.

(** The warning of [listening_ports_open] when automatic mode is asked
    for with a family off. *)
Definition automatic_warning : string :=
  "interface_automatic option does not work when IP4 or IP6 is not enabled. Disabling option.".

(** A platform with neither IPV6_RECVPKTINFO nor IPV6_PKTINFO. *)
Definition no_ip6_pktinfo : platform :=
  {| HAVE_INET6 := true; HAVE_SO_REUSEADDR := true; HAVE_IPV6_V6ONLY := true;
     HAVE_IPV6_USE_MIN_MTU := false; HAVE_IPV6_RECVPKTINFO := false;
     HAVE_IPV6_PKTINFO := false; HAVE_IP_RECVDSTADDR := false;
     HAVE_IP_PKTINFO := true |}.

(** Automatic mode asked for with IPv6 off. *)
Definition cfg_automatic_ip4 : config_file :=
  {| port := 53; do_ip4 := 1; do_ip6 := 0; do_udp := 1; do_tcp := 1;
     incoming_num_tcp := 10; if_automatic := 1; ifs := ["192.0.2.1"] |}.


(** ** The comm points of an aggregate *)

(** The comm point [listen_create] ends up with for the port [p]. *)
Definition wrapped (tcp_accept_count : Z) (p : listen_port) : comm_point :=
  {| cp_type := match ftype p with
                | listen_type_tcp => comm_tcp_accept
                | _ => comm_udp
                end;
     cp_fd := fd p;
     cp_do_not_close := 1;
     cp_ancil := bool_decide (ftype p = listen_type_udpancil);
     cp_max_tcp := match ftype p with
                   | listen_type_tcp => tcp_accept_count
                   | _ => 0
                   end;
     cp_listening := true |}.

(** The store of comm points after the ports [done] were wrapped, the
    first of them at address [base]. *)
Definition cps_with (tcp_accept_count : Z) (base : nat) (done : list listen_port)
    (m : gmap nat comm_point) (c : nat) : option comm_point :=
  if bool_decide (base ≤ c)%nat then
    match done !! (c - base)%nat with
    | Some p => Some (wrapped tcp_accept_count p)
    | None => m !! c
    end
  else m !! c.

(** The state of [listen_create] in its loop, started in [w0], after the
    ports [done]: the aggregate sits at the first fresh address with the
    buffer behind it, the comm points follow in the order of the ports,
    and the collection lists them newest first; each cost one list node;
    the descriptor table is as in [w0]. *)
Definition creating (w0 : world) (bufsize tcp_accept_count : Z)
    (done : list listen_port) (w : world) : Prop :=
  let front := w_next_ptr w0 in
  let buf := S front in
  let base := S buf in
  w_fds w = w_fds w0
  ∧ w_nodes w = (w_nodes w0 + length done)%nat
  ∧ w_next_ptr w = (base + length done)%nat
  ∧ w_fronts w = <[front := {| cps := reverse (seq base (length done));
                               udp_buff := buf |}]> (w_fronts w0)
  ∧ w_bufs w = <[buf := bufsize]> (w_bufs w0)
  ∧ ∀ c, w_cps w !! c = cps_with tcp_accept_count base done (w_cps w0) c.

(** The state after [listen_create], started in [w0], has given up:
    the aggregate and the buffer are gone, every comm point made since
    is gone, no list node is left over, and the descriptor table is as
    in [w0]. *)
Definition torn_down (w0 w : world) : Prop :=
  let front := w_next_ptr w0 in
  w_fds w = w_fds w0
  ∧ w_nodes w = w_nodes w0
  ∧ w_fronts w = delete front (w_fronts w0)
  ∧ w_bufs w = delete (S front) (w_bufs w0)
  ∧ ∀ c, w_cps w !! c
         = if bool_decide (S (S front) ≤ c < w_next_ptr w)%nat then None
           else w_cps w0 !! c.

(** As [creating], but with an orphan comm point made and deleted again
    after the ports [done]: the addresses from the end of [done] up to
    the allocation counter hold no comm point. *)
Definition creating_upto (w0 : world) (bufsize tcp_accept_count : Z)
    (done : list listen_port) (w : world) : Prop :=
  let front := w_next_ptr w0 in
  let buf := S front in
  let base := S buf in
  w_fds w = w_fds w0
  ∧ w_nodes w = (w_nodes w0 + length done)%nat
  ∧ (base + length done ≤ w_next_ptr w)%nat
  ∧ w_fronts w = <[front := {| cps := reverse (seq base (length done));
                               udp_buff := buf |}]> (w_fronts w0)
  ∧ w_bufs w = <[buf := bufsize]> (w_bufs w0)
  ∧ ∀ c, w_cps w !! c
         = if bool_decide (base + length done ≤ c < w_next_ptr w)%nat then None
           else cps_with tcp_accept_count base done (w_cps w0) c.

(** A UDP port on descriptor 3 and a TCP port on descriptor 4. *)
Definition ports_udp_tcp : list listen_port :=
  [ {| fd := 3; ftype := listen_type_udp |};
    {| fd := 4; ftype := listen_type_tcp |} ].


(** ** What a failure leaves in the log *)

(** From [w] to [w'] the log has grown, and by an error line at least. *)
Definition error_logged (w w' : world) : Prop :=
  ∃ lines, w_log w' = w_log w ++ lines
           ∧ Exists (λ line, line.1 = LOG_ERR) lines.

(** * Verification *)

(** ** What a successful factory call leaves behind *)

Lemma fd_not_error (n : nat) : (Z.of_nat n =? -1) = false.
Proof. apply Z.eqb_neq. lia. Qed.

Lemma nonblock_flag (flag : Z) :
  negb (Z.land (Z.lor flag O_NONBLOCK) O_NONBLOCK =? 0) = true.
Proof.
  apply negb_true_iff, Z.eqb_neq. intros H.
  apply (f_equal (fun z => Z.testbit z 11)) in H.
  rewrite Z.land_spec, Z.lor_spec, orb_true_r in H. discriminate H.
Qed.

(** A fallible call consumes at most its entry of the script. *)
Lemma fails_inv (w : world) : ∃ b sc, fails w = (b, set_script sc w).
Proof.
  destruct w as [fds n [|b sc] lg vb nodes np bufs cs fronts].
  - by exists false, [].
  - by exists b, sc.
Qed.

(** Runs monadic code symbolically: splits on the outcome of every
    fallible call and on every guard met. *)
Ltac script_step :=
  match goal with
  | |- context [fails ?w] =>
      let b := fresh "b" in let sc := fresh "sc" in
      destruct (fails_inv w) as (b & sc & ->); destruct b
  | |- context [Z.of_nat ?n =? -1] => rewrite (fd_not_error n)
  | |- context [negb (Z.land (Z.lor ?f O_NONBLOCK) O_NONBLOCK =? 0)] =>
      rewrite (nonblock_flag f)
  | |- context [match ?m !! ?s with Some _ => _ | None => _ end] =>
      destruct (m !! s) eqn:?
  | |- context [if ?a && _ then _ else _] => destruct a eqn:?
  | |- context [if ?c then _ else _] => destruct c eqn:?
  end.
Ltac run_code := cbn; repeat (script_step; cbn).

Ltac unfold_sys :=
  unfold verbose_print_addr, fd_set_nonblock, sys_socket, sys_bind,
    sys_setsockopt, sys_fcntl_getfl, sys_fcntl_setfl, sys_listen, sys_close,
    upd_sock, malloc_node, free_node, getaddrinfo, log_err, log_warn, log,
    bind, ret.

Lemma create_udp_sock_ok plat addr v6only w s w' :
  create_udp_sock plat addr v6only w = (s, w') → s ≠ -1 →
  opened w (udp_sock plat addr v6only) s w'.
Proof.
  destruct w as [fds n script lg vb nodes np bufs cs fronts].
  destruct addr as [fl fam ty sa].
  unfold create_udp_sock, udp_ip6_options, opened, udp_sock, udp_opts.
  unfold_sys. run_code.
  all: intros [= <- <-] Hs; try done.
  all: cbn; rewrite ?alter_insert_eq; done.
Qed.

Lemma create_tcp_accept_sock_ok plat addr v6only w s w' :
  create_tcp_accept_sock plat addr v6only w = (s, w') → s ≠ -1 →
  opened w (tcp_sock plat addr v6only) s w'.
Proof.
  destruct w as [fds n script lg vb nodes np bufs cs fronts].
  destruct addr as [fl fam ty sa].
  unfold create_tcp_accept_sock, opened, tcp_sock, tcp_opts.
  unfold_sys. run_code.
  all: intros [= <- <-] Hs; try done.
  all: cbn; rewrite ?alter_insert_eq; cbn; rewrite ?nonblock_flag; done.
Qed.

Lemma opened_set_script sc w k s w' :
  opened (set_script sc w) k s w' ↔ opened w k s w'.
Proof. by destruct w. Qed.

Lemma make_sock_ok plat stype ifname portstr hints v6only w s w' :
  make_sock plat stype ifname portstr hints v6only w = (s, w') → s ≠ -1 →
  opened w (if decide (stype = SOCK_DGRAM)
            then udp_sock plat (resolved stype ifname portstr hints) v6only
            else tcp_sock plat (resolved stype ifname portstr hints) v6only)
         s w'.
Proof.
  unfold make_sock, getaddrinfo, bind, ret.
  destruct (fails_inv w) as (b & sc & ->). destruct b; cbn.
  - unfold log_err, log. by intros [= <- <-].
  - intros H Hs. apply (opened_set_script sc).
    destruct (decide (stype = SOCK_DGRAM)).
    + exact (create_udp_sock_ok _ _ _ _ _ _ H Hs).
    + exact (create_tcp_accept_sock_ok _ _ _ _ _ _ H Hs).
Qed.

(** ** The socket factories *)

(** C9: a socket handle that the UDP factory or the TCP accept factory
    returns as a success (not -1) names a socket that is bound to the
    requested address and is in non-blocking mode. *)
Theorem factory_socket_bound_nonblocking plat f addr v6only w :
  fst (run_factory plat f addr v6only w) ≠ -1 →
  ∃ k, w_fds (snd (run_factory plat f addr v6only w))
         !! fst (run_factory plat f addr v6only w) = Some k
       ∧ so_bound k = Some (ai_addr addr)
       ∧ so_nonblock k = true.
Proof.
  destruct (run_factory plat f addr v6only w) as [s w'] eqn:Hrun.
  cbn. intros Hs. destruct f; cbn in Hrun.
  - apply create_udp_sock_ok in Hrun as (_ & _ & -> & _); [|done].
    eexists. rewrite lookup_insert_eq. done.
  - apply create_tcp_accept_sock_ok in Hrun as (_ & _ & -> & _); [|done].
    eexists. rewrite lookup_insert_eq. done.
Qed.

Lemma factory_socket_bound_nonblocking_witness :
  (∃ k, w_fds (snd (run_factory Sample.linux UdpFactory
                      (Sample.addr6 SOCK_DGRAM) 1 (Sample.boot [])))
          !! fst (run_factory Sample.linux UdpFactory
                    (Sample.addr6 SOCK_DGRAM) 1 (Sample.boot [])) = Some k
        ∧ so_bound k = Some (ai_addr (Sample.addr6 SOCK_DGRAM))
        ∧ so_nonblock k = true)
  ∧ (∃ k, w_fds (snd (run_factory Sample.linux TcpAcceptFactory
                        (Sample.addr6 SOCK_STREAM) 1 (Sample.boot [])))
            !! fst (run_factory Sample.linux TcpAcceptFactory
                      (Sample.addr6 SOCK_STREAM) 1 (Sample.boot [])) = Some k
          ∧ so_bound k = Some (ai_addr (Sample.addr6 SOCK_STREAM))
          ∧ so_nonblock k = true).
Proof.
  split; apply factory_socket_bound_nonblocking; vm_compute; discriminate.
Defined.

(** C4, refuted: in mode 2 the UDP factory clears IPV6_V6ONLY while the
    TCP accept factory sets it. *)
Lemma v6only_mode2_differs :
  ¬ v6only_applied_identically Sample.linux (Sample.addr6 SOCK_STREAM) 2
      (Sample.boot []) (Sample.boot []).
Proof. vm_compute. discriminate. Qed.

(** C4, amended: on an IPv6 address and for every mode other than 2 the
    TCP accept factory leaves IPV6_V6ONLY exactly as the UDP factory
    does; in mode 2, where the option exists, the TCP accept factory
    sets it to 1 and the UDP factory to 0. *)
Theorem v6only_tcp_treats_mode_as_flag plat addr v6only wu wt :
  ai_family addr = AF_INET6 →
  fst (create_udp_sock plat addr v6only wu) ≠ -1 →
  fst (create_tcp_accept_sock plat addr v6only wt) ≠ -1 →
  (v6only ≠ 2 → v6only_applied_identically plat addr v6only wu wt)
  ∧ (v6only = 2 → HAVE_IPV6_V6ONLY plat = true →
     let ru := create_udp_sock plat addr v6only wu in
     let rt := create_tcp_accept_sock plat addr v6only wt in
     getsockopt (snd rt) (fst rt) IPV6_V6ONLY = Some 1
     ∧ getsockopt (snd ru) (fst ru) IPV6_V6ONLY = Some 0).
Proof.
  unfold v6only_applied_identically.
  destruct (create_udp_sock plat addr v6only wu) as [su wu'] eqn:Hu.
  destruct (create_tcp_accept_sock plat addr v6only wt) as [st wt'] eqn:Ht.
  cbn. intros Hfam Hsu Hst.
  apply create_udp_sock_ok in Hu as (_ & _ & Hu & _); [|done].
  apply create_tcp_accept_sock_ok in Ht as (_ & _ & Ht & _); [|done].
  unfold getsockopt. rewrite Hu, Ht, !lookup_insert_eq.
  unfold sockopt_of, udp_sock, tcp_sock, udp_opts, tcp_opts. cbn.
  rewrite Hfam. cbn. split.
  - intros Hv. apply Z.eqb_neq in Hv. rewrite Hv.
    destruct (HAVE_IPV6_V6ONLY plat), (HAVE_IPV6_USE_MIN_MTU plat),
      (HAVE_SO_REUSEADDR plat), (truthy v6only); done.
  - intros -> ->. cbn.
    destruct (HAVE_IPV6_USE_MIN_MTU plat), (HAVE_SO_REUSEADDR plat); done.
Qed.

Lemma v6only_tcp_treats_mode_as_flag_witness :
  v6only_applied_identically Sample.linux (Sample.addr6 SOCK_STREAM) 1
    (Sample.boot []) (Sample.boot [])
  ∧ (let ru := create_udp_sock Sample.linux (Sample.addr6 SOCK_STREAM) 2
                 (Sample.boot []) in
     let rt := create_tcp_accept_sock Sample.linux (Sample.addr6 SOCK_STREAM) 2
                 (Sample.boot []) in
     getsockopt (snd rt) (fst rt) IPV6_V6ONLY = Some 1
     ∧ getsockopt (snd ru) (fst ru) IPV6_V6ONLY = Some 0).
Proof.
  split.
  - refine (proj1 (v6only_tcp_treats_mode_as_flag Sample.linux
             (Sample.addr6 SOCK_STREAM) 1 (Sample.boot []) (Sample.boot [])
             _ _ _) _);
      first [reflexivity | vm_compute; discriminate].
  - refine (proj2 (v6only_tcp_treats_mode_as_flag Sample.linux
             (Sample.addr6 SOCK_STREAM) 2 (Sample.boot []) (Sample.boot [])
             _ _ _) _ _);
      first [reflexivity | vm_compute; discriminate].
Defined.

(** ** The list of open ports *)

(** C10: [port_insert] is atomic.  When the allocation succeeds it
    returns 1 and the list is the old list with exactly one new node in
    front, holding the given descriptor and kind; when the allocation
    fails it returns 0 and the list is exactly the old one.  The
    descriptor table is left alone either way. *)
Theorem port_insert_atomic lst s ft w :
  let r := port_insert lst s ft w in
  w_fds (snd r) = w_fds w
  ∧ ((fst (fails w) = false
      ∧ fst (fst r) = 1
      ∧ snd (fst r) = {| fd := s; ftype := ft |} :: lst
      ∧ w_nodes (snd r) = S (w_nodes w))
     ∨ (fst (fails w) = true
        ∧ fst (fst r) = 0
        ∧ snd (fst r) = lst
        ∧ w_nodes (snd r) = w_nodes w)).
Proof.
  unfold port_insert, malloc_node, bind, ret.
  destruct (fails_inv w) as (b & sc & ->).
  destruct w, b; cbn; auto 10.
Qed.

(** C3, refuted: with neither UDP nor TCP wanted, [ports_create_if] does
    not return success. *)
Lemma ports_create_if_nothing_wanted_fails :
  ¬ truthy (fst (fst (ports_create_if Sample.linux "127.0.0.1" 0 0 0
                        Sample.hints4 "53" [] (Sample.boot [])))) = true.
Proof. vm_compute. discriminate. Qed.

(** C3, amended: with neither UDP nor TCP wanted, [ports_create_if]
    returns failure (0), leaves the port list unchanged and leaves the
    whole state alone, so that no socket is created. *)
Theorem ports_create_if_nothing_wanted plat ifname do_auto do_udp do_tcp
    hints portstr lst w :
  do_udp = 0 → do_tcp = 0 →
  ports_create_if plat ifname do_auto do_udp do_tcp hints portstr lst w
  = ((0, lst), w).
Proof.
  intros Hudp Htcp. unfold ports_create_if.
  rewrite Hudp, Htcp. reflexivity.
Qed.

Lemma ports_create_if_nothing_wanted_witness :
  ports_create_if Sample.linux "127.0.0.1" 0 0 0 Sample.hints4 "53"
    [ {| fd := 3; ftype := listen_type_udp |} ] (Sample.boot [true])
  = ((0, [ {| fd := 3; ftype := listen_type_udp |} ]), Sample.boot [true]).
Proof. apply ports_create_if_nothing_wanted; reflexivity. Defined.

(** C5: with IPv4 and IPv6 both off, [listening_ports_open] returns the
    empty list and leaves the whole state alone: no socket is created
    and nothing is logged. *)
Theorem listening_ports_open_no_family plat cfg w :
  do_ip4 cfg = 0 → do_ip6 cfg = 0 →
  listening_ports_open plat cfg w = ([], w).
Proof.
  intros H4 H6. unfold listening_ports_open. rewrite H4, H6.
  by destruct (HAVE_INET6 plat).
Qed.

Lemma listening_ports_open_no_family_witness :
  listening_ports_open Sample.linux
    {| port := 5353; do_ip4 := 0; do_ip6 := 0; do_udp := 1; do_tcp := 1;
       incoming_num_tcp := 5; if_automatic := 0; ifs := [] |}
    (Sample.boot [true])
  = ([], Sample.boot [true]).
Proof. apply listening_ports_open_no_family; reflexivity. Defined.

(** ** A small program logic for the embedding *)

Lemma hoare_ret {A} (P : world → Prop) (a : A) (Q : A → world → Prop) :
  (∀ w, P w → Q a w) → hoare P (ret a) Q.
Proof. intros H w Hw. by apply H. Qed.

Lemma hoare_bind {A B} (P : world → Prop) (m : M A) (R : A → world → Prop)
    (k : A → M B) (Q : B → world → Prop) :
  hoare P m R → (∀ a, hoare (R a) (k a) Q) → hoare P (bind m k) Q.
Proof.
  intros Hm Hk w Hw. unfold bind. specialize (Hm w Hw).
  destruct (m w) as [a w1]. by apply Hk.
Qed.

Lemma hoare_post {A} (P : world → Prop) (m : M A) (Q Q' : A → world → Prop) :
  hoare P m Q → (∀ a w, Q a w → Q' a w) → hoare P m Q'.
Proof. intros Hm HQ w Hw. apply HQ. by apply Hm. Qed.

Lemma keeps_ret (I : world → Prop) {A} (a : A) : keeps I (ret a).
Proof. by apply hoare_ret. Qed.

Lemma keeps_bind (I : world → Prop) {A B} (m : M A) (k : A → M B) :
  keeps I m → (∀ a, keeps I (k a)) → keeps I (bind m k).
Proof. intros Hm Hk. by apply hoare_bind with (R := fun _ => I). Qed.

Section FdInvariant.

Variable F : gmap Z sock → Prop.

(** [F] survives a change of one socket that leaves its type alone. *)
Hypothesis F_alter : ∀ (f : sock → sock) s m,
  (∀ k, so_type (f k) = so_type k) → F m → F (alter f s m).
(** [F] survives the arrival of a socket that is not a stream socket. *)
Hypothesis F_insert : ∀ s k m, so_type k ≠ SOCK_STREAM → F m → F (<[s := k]> m).

Lemma keeps_fails : keeps (on_fds F) fails.
Proof.
  intros w Hw. destruct (fails_inv w) as (b & sc & ->). by destruct w.
Qed.

Lemma keeps_log lv msg : keeps (on_fds F) (log lv msg).
Proof. intros w Hw. by destruct w. Qed.

Lemma keeps_upd_sock s f :
  (∀ k, so_type (f k) = so_type k) → keeps (on_fds F) (upd_sock s f).
Proof. intros Hf w Hw. destruct w. cbn. by apply F_alter. Qed.

Lemma keeps_sys_socket fam ty :
  ty ≠ SOCK_STREAM → keeps (on_fds F) (sys_socket fam ty).
Proof.
  intros Hty. unfold sys_socket. apply keeps_bind; [apply keeps_fails|].
  intros [|]; [apply keeps_ret|].
  intros w Hw. destruct w. cbn. by apply F_insert.
Qed.

Lemma keeps_malloc_node : keeps (on_fds F) malloc_node.
Proof.
  unfold malloc_node. apply keeps_bind; [apply keeps_fails|].
  intros [|]; [apply keeps_ret|]. intros w Hw. by destruct w.
Qed.

Lemma keeps_free_node : keeps (on_fds F) free_node.
Proof. intros w Hw. by destruct w. Qed.

(** Splits a goal [keeps I m] along the structure of [m]. *)
Ltac keeps_step :=
  match goal with
  | |- keeps _ (ret _) => apply keeps_ret
  | |- keeps _ (bind _ _) => apply keeps_bind; [|intros ?]
  | |- keeps _ fails => apply keeps_fails
  | |- keeps _ (log_err _) => apply keeps_log
  | |- keeps _ (log_warn _) => apply keeps_log
  | |- keeps _ (log _ _) => apply keeps_log
  | |- keeps _ (upd_sock _ _) => apply keeps_upd_sock; intros ?; reflexivity
  | |- keeps _ malloc_node => apply keeps_malloc_node
  | |- keeps _ free_node => apply keeps_free_node
  | |- keeps _ (if ?c then _ else _) => destruct c
  | |- keeps _ (match ?x with _ => _ end) => destruct x
  end.
Ltac keeps_tac := repeat keeps_step.

Lemma keeps_sys_setsockopt s o val : keeps (on_fds F) (sys_setsockopt s o val).
Proof. unfold sys_setsockopt. keeps_tac. Qed.
Lemma keeps_sys_bind s a : keeps (on_fds F) (sys_bind s a).
Proof. unfold sys_bind. keeps_tac. Qed.
Lemma keeps_sys_fcntl_setfl s flag : keeps (on_fds F) (sys_fcntl_setfl s flag).
Proof. unfold sys_fcntl_setfl. keeps_tac. Qed.
Lemma keeps_sys_close s : keeps (on_fds F) (sys_close s).
Proof. unfold sys_close. keeps_tac. Qed.
Lemma keeps_fd_set_nonblock s : keeps (on_fds F) (fd_set_nonblock s).
Proof.
  unfold fd_set_nonblock. keeps_tac. apply keeps_sys_fcntl_setfl.
Qed.
Lemma keeps_verbose_print_addr addr : keeps (on_fds F) (verbose_print_addr addr).
Proof.
  intros w Hw. unfold verbose_print_addr.
  destruct (w_verbose w); [by apply keeps_log|done].
Qed.

Lemma keeps_set_recvpktinfo plat s fam : keeps (on_fds F) (set_recvpktinfo plat s fam).
Proof.
  unfold set_recvpktinfo. keeps_tac; apply keeps_sys_setsockopt.
Qed.

Lemma keeps_create_udp_sock plat addr v6only :
  ai_socktype addr ≠ SOCK_STREAM →
  keeps (on_fds F) (create_udp_sock plat addr v6only).
Proof.
  intros Hty. unfold create_udp_sock, udp_ip6_options.
  keeps_tac;
    first [apply keeps_verbose_print_addr | by apply keeps_sys_socket
          | apply keeps_sys_setsockopt | apply keeps_sys_bind
          | apply keeps_fd_set_nonblock].
Qed.

Lemma keeps_make_sock_dgram plat ifname portstr hints v6only :
  keeps (on_fds F) (make_sock plat SOCK_DGRAM ifname portstr hints v6only).
Proof.
  intros w Hw. unfold make_sock, getaddrinfo, bind, ret.
  destruct (fails_inv w) as (b & sc & ->). destruct b; cbn.
  - by destruct w.
  - apply keeps_create_udp_sock; [done|by destruct w].
Qed.

Lemma keeps_listening_ports_free lst : keeps (on_fds F) (listening_ports_free lst).
Proof.
  induction lst as [|p nx IH]; cbn; keeps_tac;
    first [apply keeps_sys_close | apply IH].
Qed.

Lemma keeps_ports_create_if_no_tcp plat ifname do_auto do_udp hints portstr lst :
  keeps (on_fds F)
    (ports_create_if plat ifname do_auto do_udp 0 hints portstr lst).
Proof.
  unfold ports_create_if, ports_create_if_tcp, port_insert. cbn.
  keeps_tac;
    first [apply keeps_make_sock_dgram | apply keeps_set_recvpktinfo
          | apply keeps_sys_close].
Qed.

Lemma keeps_ports_open_ifs_no_tcp plat names do_ip4 do_ip6 do_udp hints portbuf lst :
  keeps (on_fds F)
    (ports_open_ifs plat names do_ip4 do_ip6 do_udp 0 hints portbuf lst).
Proof.
  revert hints lst. induction names as [|ifname rest IH]; intros hints lst; cbn.
  - apply keeps_ret.
  - keeps_tac;
      first [apply IH | apply keeps_ports_create_if_no_tcp
            | apply keeps_listening_ports_free].
Qed.

Lemma keeps_listening_ports_open_no_tcp plat cfg :
  incoming_num_tcp cfg = 0 →
  keeps (on_fds F) (listening_ports_open plat cfg).
Proof.
  intros Hnum. unfold listening_ports_open. rewrite Hnum. cbn.
  keeps_tac;
    first [apply keeps_ports_create_if_no_tcp | apply keeps_listening_ports_free
          | apply keeps_ports_open_ifs_no_tcp].
Qed.

End FdInvariant.

(** ** No TCP without an accept queue *)

Lemma yields_ret {A} (a : A) (Q : A → Prop) : Q a → yields (ret a) Q.
Proof. intros Ha. by apply hoare_ret. Qed.

Lemma yields_bind_dep {A B} (m : M A) (R : A → Prop) (k : A → M B) (Q : B → Prop) :
  yields m R → (∀ a, R a → yields (k a) Q) → yields (bind m k) Q.
Proof.
  intros Hm Hk.
  apply hoare_bind with (R := fun a _ => R a); [done|].
  intros a w Hw. by apply Hk.
Qed.

Lemma yields_bind {A B} (m : M A) (k : A → M B) (Q : B → Prop) :
  (∀ a, yields (k a) Q) → yields (bind m k) Q.
Proof.
  intros Hk. apply yields_bind_dep with (R := fun _ => True); [done|auto].
Qed.

Lemma port_insert_no_tcp lst s ft :
  ft ≠ listen_type_tcp → no_tcp_port lst →
  yields (port_insert lst s ft) (fun rl => no_tcp_port (snd rl)).
Proof.
  intros Hft Hlst. unfold port_insert. apply yields_bind. intros [|]; cbn.
  - apply yields_ret. by constructor.
  - by apply yields_ret.
Qed.

Ltac yields_step :=
  match goal with
  | |- yields (ret _) _ => apply yields_ret
  | |- yields (bind (port_insert _ _ _) _) _ =>
      apply yields_bind_dep with (R := fun rl => no_tcp_port (snd rl));
      [by apply port_insert_no_tcp|intros ? ?]
  | |- yields (bind _ _) _ => apply yields_bind; intros ?
  | |- yields (if ?c then _ else _) _ => destruct c
  | |- yields (match ?x with _ => _ end) _ => destruct x
  end.

Lemma ports_create_if_no_tcp plat ifname do_auto do_udp hints portstr lst :
  no_tcp_port lst →
  yields (ports_create_if plat ifname do_auto do_udp 0 hints portstr lst)
    (fun rl => no_tcp_port (snd rl)).
Proof.
  intros Hlst. unfold ports_create_if, ports_create_if_tcp. cbn.
  repeat yields_step; done.
Qed.

Lemma ports_open_ifs_no_tcp plat names do_ip4 do_ip6 do_udp hints portbuf lst :
  no_tcp_port lst →
  yields (ports_open_ifs plat names do_ip4 do_ip6 do_udp 0 hints portbuf lst)
    (fun r => ∀ l, r = Some l → no_tcp_port l).
Proof.
  revert hints lst. induction names as [|ifname rest IH]; intros hints lst Hlst; cbn.
  - apply yields_ret. by intros l [= <-].
  - destruct (str_is_ip6 ifname).
    + destruct (negb (truthy do_ip6)); [by apply IH|].
      eapply yields_bind_dep; [by apply ports_create_if_no_tcp|].
      intros rl Hrl. destruct (negb (truthy (fst rl))); [|by apply IH].
      apply yields_bind. intros _. by apply yields_ret.
    + destruct (negb (truthy do_ip4)); [by apply IH|].
      eapply yields_bind_dep; [by apply ports_create_if_no_tcp|].
      intros rl Hrl. destruct (negb (truthy (fst rl))); [|by apply IH].
      apply yields_bind. intros _. by apply yields_ret.
Qed.

Lemma listening_ports_open_no_tcp plat cfg :
  incoming_num_tcp cfg = 0 →
  yields (listening_ports_open plat cfg) no_tcp_port.
Proof.
  intros Hnum. unfold listening_ports_open. rewrite Hnum. cbn.
  assert (Hnil : no_tcp_port []) by constructor.
  destruct (_ && _); [by apply yields_ret|].
  apply yields_bind. intros do_auto.
  destruct (_ || _).
  - eapply yields_bind_dep with
      (R := fun l6 => ∀ l, l6 = Some l → no_tcp_port l).
    + destruct (truthy _); [|apply yields_ret; by intros l [= <-]].
      eapply yields_bind_dep; [by apply ports_create_if_no_tcp|].
      intros rl Hrl. destruct (negb _).
      * apply yields_bind. intros _. by apply yields_ret.
      * apply yields_ret. by intros l [= <-].
    + intros [l|] Hl; [|by apply yields_ret].
      specialize (Hl l eq_refl).
      destruct (truthy _); [|by apply yields_ret].
      eapply yields_bind_dep; [by apply ports_create_if_no_tcp|].
      intros rl Hrl. destruct (negb _); [|by apply yields_ret].
      apply yields_bind. intros _. by apply yields_ret.
  - eapply yields_bind_dep; [by apply ports_open_ifs_no_tcp|].
    intros [l|] Hl; apply yields_ret; auto.
Qed.

Lemma streams_within_alter m0 (f : sock → sock) s m :
  (∀ k, so_type (f k) = so_type k) →
  streams_within m0 m → streams_within m0 (alter f s m).
Proof.
  intros Hf Hm s' k Hk Hty.
  apply lookup_alter_Some in Hk as [(Heq & y & Hy & Hky)|[_ Hk]].
  - subst. rewrite Hf in Hty. eapply Hm; eauto.
  - eapply Hm; eauto.
Qed.

Lemma streams_within_insert m0 s k m :
  so_type k ≠ SOCK_STREAM →
  streams_within m0 m → streams_within m0 (<[s := k]> m).
Proof.
  intros Hk Hm s' k' Hk' Hty.
  apply lookup_insert_Some in Hk' as [[Heq Hkk]|[_ Hk']].
  - by subst.
  - eapply Hm; eauto.
Qed.

(** C6: with a TCP accept queue of depth zero, [listening_ports_open]
    returns no port descriptor of the TCP kind and creates no stream
    socket (every stream socket in the descriptor table afterwards was
    there before), whatever [do_tcp] says. *)
Theorem no_tcp_without_accept_queue plat cfg w :
  incoming_num_tcp cfg = 0 →
  no_tcp_port (fst (listening_ports_open plat cfg w))
  ∧ streams_within (w_fds w) (w_fds (snd (listening_ports_open plat cfg w))).
Proof.
  intros Hnum. split.
  - by apply (listening_ports_open_no_tcp plat cfg Hnum w).
  - apply (keeps_listening_ports_open_no_tcp (streams_within (w_fds w))
             (streams_within_alter _) (streams_within_insert _) plat cfg Hnum w).
    intros s k Hk Hty. eauto.
Qed.

Lemma no_tcp_without_accept_queue_witness :
  let cfg := {| port := 53; do_ip4 := 1; do_ip6 := 1; do_udp := 1; do_tcp := 1;
                incoming_num_tcp := 0; if_automatic := 0; ifs := [] |} in
  no_tcp_port (fst (listening_ports_open Sample.linux cfg (Sample.boot [])))
  ∧ streams_within (w_fds (Sample.boot []))
      (w_fds (snd (listening_ports_open Sample.linux cfg (Sample.boot [])))).
Proof. apply no_tcp_without_accept_queue. reflexivity. Defined.

(** ** Automatic interface mode *)

Lemma extends_refl w : extends w w.
Proof. by split. Qed.

Lemma extends_trans w1 w2 w3 : extends w1 w2 → extends w2 w3 → extends w1 w3.
Proof.
  intros [Hn1 Hf1] [Hn2 Hf2]. split; [lia|].
  intros x Hx. rewrite Hf2 by lia. by apply Hf1.
Qed.

Lemma same_fds_extends w w' : same_fds w w' → extends w w'.
Proof. intros [Hf Hn]. split; [lia|]. intros x _. by rewrite Hf. Qed.

Lemma opened_extends w k s w' : opened w k s w' → extends w w'.
Proof.
  intros (-> & Hn & Hf & _). split; [lia|].
  intros x Hx. rewrite Hf, lookup_insert_ne; [done|lia].
Qed.

Lemma set_recvpktinfo_touched plat s fam w :
  touched s w (snd (set_recvpktinfo plat s fam w)).
Proof.
  assert (Hrefl : ∀ w0, touched s w0 w0) by (intros w0; split_and!; eauto).
  assert (Hset : ∀ o sc, touched s w
            (snd ((upd_sock s (fun k =>
               {| so_family := so_family k; so_type := so_type k;
                  so_opts := (o, 1) :: so_opts k; so_bound := so_bound k;
                  so_nonblock := so_nonblock k; so_backlog := so_backlog k;
                  so_open := so_open k |}) >> ret 0) (set_script sc w)))).
  { intros o sc. unfold touched. destruct w. cbn. split_and!; [done| |].
    - intros x Hx. by rewrite lookup_alter_ne.
    - intros k Hk. rewrite lookup_alter_eq, Hk. cbn. eauto. }
  assert (Hfail : ∀ sc msg, touched s w
            (snd ((log_err msg) (set_script sc w)))).
  { intros sc msg. unfold touched. destruct w. cbn. split_and!; eauto. }
  unfold set_recvpktinfo, sys_setsockopt.
  destruct fam; [apply Hrefl| |].
  - destruct (HAVE_IP_RECVDSTADDR plat); [|destruct (HAVE_IP_PKTINFO plat)].
    all: unfold bind at 1; try unfold bind at 1.
    all: try (destruct (fails_inv w) as (b & sc & ->); destruct b).
    all: first [apply Hset | apply Hfail | idtac].
    all: try (unfold touched; destruct w; cbn; split_and!; eauto).
  - destruct (HAVE_IPV6_RECVPKTINFO plat); [|destruct (HAVE_IPV6_PKTINFO plat)].
    all: unfold bind at 1; try unfold bind at 1.
    all: try (destruct (fails_inv w) as (b & sc & ->); destruct b).
    all: first [apply Hset | apply Hfail | idtac].
    all: try (unfold touched; destruct w; cbn; split_and!; eauto).
Qed.

(** What [set_recvpktinfo] does: when it reports success on a socket of
    a known family it has set the destination-address option of that
    family, the one the platform has, to 1 on the socket [s] and has
    done nothing else. *)
Lemma set_recvpktinfo_end plat s fam w :
  sockets_only w (snd (set_recvpktinfo plat s fam w))
  ∧ w_next_fd (snd (set_recvpktinfo plat s fam w)) = w_next_fd w
  ∧ ((truthy (fst (set_recvpktinfo plat s fam w)) = true ∧ fam ≠ AF_UNSPEC →
      ∃ o, pktinfo_opt plat fam = Some o ∧ o ∈ pktinfo_opts
           ∧ w_fds (snd (set_recvpktinfo plat s fam w))
             = alter (add_opt o 1) s (w_fds w))
     ∧ (fam = AF_UNSPEC → w_fds (snd (set_recvpktinfo plat s fam w)) = w_fds w)).
Proof.
  destruct w as [fds n script lg vb nodes np bufs cs fronts].
  unfold set_recvpktinfo, sockets_only, pktinfo_opts, pktinfo_opt.
  destruct fam; unfold_sys; run_code; split_and!; try done.
  all: try (by intros [? ?]).
  all: intros _; eexists; split_and!; [reflexivity| |reflexivity].
  all: rewrite !elem_of_cons; auto 6.
Qed.

Lemma port_insert_same_fds lst s ft w :
  same_fds w (snd (port_insert lst s ft w))
  ∧ (fst (port_insert lst s ft w) = (0, lst)
     ∨ fst (port_insert lst s ft w) = (1, {| fd := s; ftype := ft |} :: lst)).
Proof.
  unfold port_insert, malloc_node, bind, ret.
  destruct (fails_inv w) as (b & sc & ->).
  destruct w, b; cbn; unfold same_fds; auto.
Qed.

Lemma ancil_ports_cons p l :
  ancil_ports (p :: l)
  = if decide (ftype p = listen_type_udpancil) then p :: ancil_ports l
    else ancil_ports l.
Proof. unfold ancil_ports. by rewrite filter_cons. Qed.

(** The TCP part of [ports_create_if], when it succeeds. *)
Lemma ports_create_if_tcp_ok plat ifname do_tcp hints portstr lst w r lst' w' :
  ports_create_if_tcp plat ifname do_tcp hints portstr lst w = ((r, lst'), w') →
  truthy r = true →
  ancil_ports lst' = ancil_ports lst ∧ extends w w'.
Proof.
  unfold ports_create_if_tcp.
  destruct (truthy do_tcp); [|intros [= <- <- <-] _; split; [done|apply extends_refl]].
  unfold bind at 1.
  destruct (make_sock _ _ _ _ _ _ w) as [s w1] eqn:Hms.
  destruct (s =? -1) eqn:Hs; [by intros [= <- <- <-]|].
  apply Z.eqb_neq in Hs. apply make_sock_ok in Hms; [|done].
  unfold bind at 1.
  destruct (port_insert_same_fds lst s listen_type_tcp w1) as [Hsame Hins].
  destruct (port_insert lst s listen_type_tcp w1) as [rl w2]. cbn in *.
  destruct Hins as [-> | ->]; cbn.
  - unfold_sys. by intros [= <- <- <-].
  - intros [= <- <- <-] _. split; [by rewrite ancil_ports_cons|].
    eapply extends_trans; [by eapply opened_extends|by apply same_fds_extends].
Qed.

(** [ports_create_if] in automatic mode, when it succeeds: the list
    gained exactly one descriptor of the ancillary kind, for the next
    free descriptor, which names a datagram socket of the hinted family
    bound to the interface, on which the destination-address option of
    the family was set to 1 after the options of the UDP factory; older
    descriptors are as before. *)
Lemma ports_create_if_auto_ok plat ifname do_auto do_udp do_tcp hints portstr
    lst w r lst' w' :
  ports_create_if plat ifname do_auto do_udp do_tcp hints portstr lst w
  = ((r, lst'), w') →
  truthy do_auto = true → truthy r = true →
  let s := Z.of_nat (w_next_fd w) in
  ancil_ports lst' = {| fd := s; ftype := listen_type_udpancil |} :: ancil_ports lst
  ∧ (w_next_fd w < w_next_fd w')%nat
  ∧ (∀ x, x < s → w_fds w' !! x = w_fds w !! x)
  ∧ ∃ k, w_fds w' !! s = Some k ∧ so_family k = ai_family hints
         ∧ so_type k = SOCK_DGRAM
         ∧ so_bound k = Some {| sa_host := ifname; sa_port := portstr |}
         ∧ (ai_family hints ≠ AF_UNSPEC →
            ∃ o, pktinfo_opt plat (ai_family hints) = Some o
                 ∧ so_opts k = (o, 1) :: udp_opts plat (ai_family hints) 1).
Proof.
  unfold ports_create_if. intros Hrun Hauto Hr. rewrite Hauto in Hrun.
  destruct (_ && _); [injection Hrun as <- <- <-; done|].
  unfold bind at 1 in Hrun.
  destruct (make_sock _ _ _ _ _ _ w) as [s w1] eqn:Hms.
  destruct (s =? -1) eqn:Hs; [injection Hrun as <- <- <-; done|].
  apply Z.eqb_neq in Hs. apply make_sock_ok in Hms; [|done]. cbn in Hms.
  unfold bind at 1 in Hrun.
  pose proof (set_recvpktinfo_touched plat s (ai_family hints) w1) as Hpkt.
  destruct (set_recvpktinfo_end plat s (ai_family hints) w1)
    as (_ & _ & Hset & _).
  destruct (set_recvpktinfo plat s (ai_family hints) w1) as [rp w2].
  cbn [fst snd] in Hset.
  destruct (truthy rp) eqn:Hrp; cbn [negb] in Hrun;
    [|injection Hrun as <- <- <-; done].
  unfold bind at 1 in Hrun.
  destruct (port_insert_same_fds lst s listen_type_udpancil w2) as [Hsame Hins].
  destruct (port_insert lst s listen_type_udpancil w2) as [rl w3]. cbn in *.
  destruct Hins as [-> | ->]; cbn in Hrun.
  { revert Hrun. unfold_sys. intros [= <- <- <-]. done. }
  apply ports_create_if_tcp_ok in Hrun as [Hlst Hext]; [|done].
  destruct Hms as (-> & Hn1 & Hf1 & _).
  destruct Hpkt as (Hn2 & Hf2 & Hk2).
  destruct Hsame as [Hf3 Hn3].
  destruct Hext as [Hn4 Hf4].
  destruct (Hk2 _ ltac:(rewrite Hf1; apply lookup_insert_eq))
    as (k & Hk & Hfam & Hty & Hbound).
  split_and!.
  - by rewrite Hlst, ancil_ports_cons.
  - lia.
  - intros x Hx. rewrite Hf4, Hf3, Hf2, Hf1 by lia. apply lookup_insert_ne. lia.
  - exists k. rewrite Hf4, Hf3 by lia. split_and!; try done.
    intros Hknown.
    destruct (Hset (conj eq_refl Hknown)) as (o & Hopt & _ & Hf2').
    exists o. split; [done|].
    rewrite Hf2', Hf1, alter_insert_eq, lookup_insert_eq in Hk.
    by injection Hk as <-.
Qed.

(** C1, refuted: in automatic mode with both families on, descriptor 4
    is of the ancillary kind and names an IPv4 socket, bound to the IPv4
    wildcard. *)
Lemma automatic_mode_ip4_ancil :
  ¬ no_ip4_ancil Sample.linux cfg_automatic (Sample.boot []).
Proof.
  intros H.
  refine (H {| fd := 4; ftype := listen_type_udpancil |}
            {| so_family := AF_INET; so_type := SOCK_DGRAM;
               so_opts := [(IP_PKTINFO, 1)];
               so_bound := Some {| sa_host := "0.0.0.0"; sa_port := "53" |};
               so_nonblock := true; so_backlog := None; so_open := true |}
            _ _ _ _).
  - vm_compute. apply list_elem_of_here.
  - reflexivity.
  - vm_compute. reflexivity.
  - reflexivity.
Qed.

(** C1, amended: in automatic mode with both families on, a port set
    that is built successfully holds exactly two descriptors of the
    ancillary kind, one for each family: a datagram socket bound to the
    IPv6 wildcard and a datagram socket bound to the IPv4 wildcard.  The
    IPv4 socket gets the same ancillary treatment as the IPv6 socket: on
    each of the two the destination-address option of its family, the one
    the platform has, was set to 1, as the last option after those of
    the UDP factory. *)
Theorem automatic_mode_one_ancil_per_family plat cfg w :
  HAVE_INET6 plat = true →
  if_automatic cfg ≠ 0 → do_udp cfg ≠ 0 → do_ip4 cfg ≠ 0 → do_ip6 cfg ≠ 0 →
  fst (listening_ports_open plat cfg w) ≠ [] →
  ∃ s6 s4 k6 k4 o6 o4,
    ancil_ports (fst (listening_ports_open plat cfg w))
    = [ {| fd := s4; ftype := listen_type_udpancil |};
        {| fd := s6; ftype := listen_type_udpancil |} ]
    ∧ s6 ≠ s4
    ∧ w_fds (snd (listening_ports_open plat cfg w)) !! s6 = Some k6
    ∧ so_family k6 = AF_INET6 ∧ so_type k6 = SOCK_DGRAM
    ∧ so_bound k6 = Some {| sa_host := "::0"; sa_port := pretty (port cfg) |}
    ∧ pktinfo_opt plat AF_INET6 = Some o6
    ∧ so_opts k6 = (o6, 1) :: udp_opts plat AF_INET6 1
    ∧ w_fds (snd (listening_ports_open plat cfg w)) !! s4 = Some k4
    ∧ so_family k4 = AF_INET ∧ so_type k4 = SOCK_DGRAM
    ∧ so_bound k4 = Some {| sa_host := "0.0.0.0"; sa_port := pretty (port cfg) |}
    ∧ pktinfo_opt plat AF_INET = Some o4
    ∧ so_opts k4 = (o4, 1) :: udp_opts plat AF_INET 1.
Proof.
  intros Hinet Hauto Hudp H4 H6.
  assert (Ht : ∀ z, z ≠ 0 → truthy z = true).
  { intros z Hz. unfold truthy. by apply negb_true_iff, Z.eqb_neq. }
  destruct (listening_ports_open plat cfg w) as [l w'] eqn:Hrun.
  cbn. intros Hl. revert Hrun. unfold listening_ports_open.
  rewrite Hinet, (Ht _ Hauto), (Ht _ Hudp), (Ht _ H4), (Ht _ H6). cbn.
  unfold bind, ret.
  match goal with |- context [ports_create_if ?a ?b ?c ?d ?e ?f ?g ?h w] =>
    destruct (ports_create_if a b c d e f g h w) as [[r6 l6] w6] eqn:Hrun6 end.
  cbn. destruct (truthy r6) eqn:Hr6; cbn.
  2: { destruct (listening_ports_free l6 w6). by intros [= <- <-]. }
  match goal with |- context [ports_create_if ?a ?b ?c ?d ?e ?f ?g ?h w6] =>
    destruct (ports_create_if a b c d e f g h w6) as [[r4 l4] w4] eqn:Hrun4 end.
  cbn. destruct (truthy r4) eqn:Hr4; cbn.
  2: { destruct (listening_ports_free l4 w4). by intros [= <- <-]. }
  intros [= <- <-].
  apply ports_create_if_auto_ok in Hrun6 as (Hl6 & Hn6 & _ & k6 & Hk6 & Hk6'); [|done..].
  apply ports_create_if_auto_ok in Hrun4 as (Hl4 & _ & Hf4 & k4 & Hk4 & Hk4'); [|done..].
  destruct Hk6' as (Hfam6 & Hty6 & Hb6 & Hopt6), Hk4' as (Hfam4 & Hty4 & Hb4 & Hopt4).
  cbn [ai_family with_family] in Hopt6, Hopt4.
  destruct (Hopt6 ltac:(discriminate)) as (o6 & Ho6 & Hopts6).
  destruct (Hopt4 ltac:(discriminate)) as (o4 & Ho4 & Hopts4).
  exists (Z.of_nat (w_next_fd w)), (Z.of_nat (w_next_fd w6)), k6, k4, o6, o4.
  unfold ancil_ports in *. rewrite Hl4, Hl6, Hf4 by lia.
  rewrite Hfam6, Hfam4. destruct (0 <? num_ifs cfg); split_and!; done || lia.
Qed.

Lemma automatic_mode_one_ancil_per_family_witness :
  ∃ s6 s4 k6 k4 o6 o4,
    ancil_ports (fst (listening_ports_open Sample.linux cfg_automatic (Sample.boot [])))
    = [ {| fd := s4; ftype := listen_type_udpancil |};
        {| fd := s6; ftype := listen_type_udpancil |} ]
    ∧ s6 ≠ s4
    ∧ w_fds (snd (listening_ports_open Sample.linux cfg_automatic (Sample.boot [])))
        !! s6 = Some k6
    ∧ so_family k6 = AF_INET6 ∧ so_type k6 = SOCK_DGRAM
    ∧ so_bound k6 = Some {| sa_host := "::0"; sa_port := pretty (port cfg_automatic) |}
    ∧ pktinfo_opt Sample.linux AF_INET6 = Some o6
    ∧ so_opts k6 = (o6, 1) :: udp_opts Sample.linux AF_INET6 1
    ∧ w_fds (snd (listening_ports_open Sample.linux cfg_automatic (Sample.boot [])))
        !! s4 = Some k4
    ∧ so_family k4 = AF_INET ∧ so_type k4 = SOCK_DGRAM
    ∧ so_bound k4 = Some {| sa_host := "0.0.0.0"; sa_port := pretty (port cfg_automatic) |}
    ∧ pktinfo_opt Sample.linux AF_INET = Some o4
    ∧ so_opts k4 = (o4, 1) :: udp_opts Sample.linux AF_INET 1.
Proof.
  apply automatic_mode_one_ancil_per_family;
    first [reflexivity | vm_compute; discriminate].
Defined.

(** ** Unwinding after a failure *)

(** C2, the code at the failing input: when the [bind] of the second of
    three sockets fails, [listening_ports_open] returns [NULL] with every
    list node freed and the first socket closed, but the second socket,
    descriptor 4, is still open and unbound: it has leaked. *)
Theorem second_bind_failure_leaks_descriptor :
  let r := listening_ports_open Sample.linux cfg_three_udp
             (Sample.boot second_bind_fails) in
  fst r = []
  ∧ w_log (snd r) = [(LOG_ERR, "can't bind socket")]
  ∧ w_nodes (snd r) = 0%nat
  ∧ open_fds (snd r) = [4]
  ∧ w_fds (snd r) !! 4
    = Some {| so_family := AF_INET; so_type := SOCK_DGRAM; so_opts := [];
              so_bound := None; so_nonblock := false; so_backlog := None;
              so_open := true |}.
Proof. vm_compute. done. Qed.

(** ** The listener aggregate *)

Lemma hoare_bind_any {A B} (m : M A) (k : A → M B) (Q : B → world → Prop) :
  (∀ a, hoare (fun _ => True) (k a) Q) →
  hoare (fun _ => True) (bind m k) Q.
Proof.
  intros Hk. by apply hoare_bind with (R := fun _ _ => True).
Qed.

Lemma hoare_then_ret {A B} (m : M A) (b : B) (Q : B → world → Prop) :
  (∀ w, Q b w) → hoare (fun _ => True) (m >> ret b) Q.
Proof. intros HQ. apply hoare_bind_any. intros _. by apply hoare_ret. Qed.

Lemma hoare_get_front {B} front (k : listen_dnsport → M B) (Q : B → world → Prop) :
  (∀ w, Q (fst (k (default {| cps := []; udp_buff := 0%nat |}
                     (w_fronts w !! front)) w))
          (snd (k (default {| cps := []; udp_buff := 0%nat |}
                     (w_fronts w !! front)) w))) →
  hoare (fun _ => True) (bind (get_front front) k) Q.
Proof. intros H w _. apply H. Qed.

Lemma listen_create_nonempty ports bufsize tcp_accept_count :
  hoare (fun _ => True) (listen_create ports bufsize tcp_accept_count)
    nonempty_front.
Proof.
  assert (Hnone : ∀ w, nonempty_front None w) by by intros w front.
  unfold listen_create.
  apply hoare_bind_any. intros [front|]; [|by apply hoare_ret].
  apply hoare_bind_any. intros _.
  apply hoare_bind_any. intros [buf|]; [|by apply hoare_then_ret].
  apply hoare_bind_any. intros _.
  apply hoare_bind_any. intros [|]; [|by apply hoare_ret]. cbn.
  apply hoare_get_front. intros w. cbv beta.
  destruct (cps (default _ (w_fronts w !! front))) as [|c cs] eqn:Hcps.
  - refine (hoare_bind_any _ _ nonempty_front _ w I).
    intros _. by apply hoare_then_ret.
  - cbn. intros f [= <-]. destruct (w_fronts w !! front) as [l|]; [|done].
    exists l. split; [done|]. cbn in Hcps. by rewrite Hcps.
Qed.

Lemma listen_create_no_ports bufsize tcp_accept_count w :
  heap_fresh w →
  fst (listen_create [] bufsize tcp_accept_count w) = None
  ∧ same_resources w (snd (listen_create [] bufsize tcp_accept_count w)).
Proof.
  intros Hfresh. unfold same_resources.
  destruct (Hfresh (w_next_ptr w)) as (Hfr & _); [lia|].
  destruct (Hfresh (S (w_next_ptr w))) as (_ & Hbuf & _); [lia|].
  unfold listen_create, malloc_front, ldns_buffer_new, bind, ret.
  destruct (fails_inv w) as (b & sc & ->).
  destruct w as [fds n script lg vb nodes np bufs cs fronts]. cbn in *.
  destruct b; cbn; [done|].
  match goal with |- context [fails ?w1] =>
    destruct (fails_inv w1) as (b & sc' & ->) end.
  destruct b; cbn.
  - rewrite delete_alter_eq, delete_insert_eq, delete_id; done.
  - rewrite !lookup_alter_eq, lookup_insert_eq. cbn.
    rewrite !lookup_alter_eq, lookup_insert_eq. cbn.
    rewrite !delete_alter_eq, !delete_insert_eq, !delete_id; done.
Qed.

(** C7: an aggregate that [listen_create] returns has a comm point
    collection that is not empty; from an empty port list, which gives no
    comm point, [listen_create] returns [NULL] after freeing what it had
    allocated, leaving descriptors, list nodes, buffers, comm points and
    aggregates as they were. *)
Theorem listen_create_never_empty ports bufsize tcp_accept_count w :
  let r := listen_create ports bufsize tcp_accept_count w in
  (∀ front, fst r = Some front →
     ∃ l, w_fronts (snd r) !! front = Some l ∧ cps l ≠ [])
  ∧ (ports = [] → heap_fresh w →
     fst r = None ∧ same_resources w (snd r)).
Proof.
  split.
  - by apply (listen_create_nonempty ports bufsize tcp_accept_count w).
  - intros -> Hfresh. by apply listen_create_no_ports.
Qed.

Lemma listen_create_never_empty_witness :
  (∃ l, w_fronts (snd (listen_create [ {| fd := 3; ftype := listen_type_udp |} ]
                         65552 10 (Sample.boot [])))
          !! 1%nat = Some l ∧ cps l ≠ [])
  ∧ (fst (listen_create [] 65552 10 (Sample.boot [])) = None
     ∧ same_resources (Sample.boot [])
         (snd (listen_create [] 65552 10 (Sample.boot [])))).
Proof.
  split.
  - apply (proj1 (listen_create_never_empty
                    [ {| fd := 3; ftype := listen_type_udp |} ]
                    65552 10 (Sample.boot []))).
    vm_compute. reflexivity.
  - apply (proj2 (listen_create_never_empty [] 65552 10 (Sample.boot []))).
    + reflexivity.
    + intros p _. cbn. by rewrite !lookup_empty.
Defined.

(** ** Pause and resume *)

Lemma listens_on_kind w com :
  listens_on w com
  = match w_cps w !! com with Some cp => listening_kind cp | None => false end.
Proof.
  unfold listens_on, listening_kind.
  destruct (w_cps w !! com) as [cp|]; [|done].
  by destruct (bool_decide (cp_type cp = comm_udp)),
              (bool_decide (cp_type cp = comm_tcp_accept)).
Qed.

Lemma readiness_nil b c cp : readiness b [] c cp = cp.
Proof.
  unfold readiness. rewrite bool_decide_eq_false_2, andb_false_r; [done|].
  apply not_elem_of_nil.
Qed.

Lemma readiness_cons b com next c cp :
  readiness b next c (readiness b [com] c cp) = readiness b (com :: next) c cp.
Proof.
  unfold readiness.
  destruct (listening_kind cp) eqn:Hkind; cbn; [|by rewrite Hkind].
  destruct (decide (c = com)) as [->|Hne].
  - rewrite !(bool_decide_eq_true_2 (com ∈ com :: _)) by apply list_elem_of_here.
    change (listening_kind (set_listening b cp)) with (listening_kind cp).
    rewrite Hkind. cbn. by destruct (bool_decide (com ∈ next)).
  - rewrite (bool_decide_eq_false_2 (c ∈ [com]))
      by (by intros ?%list_elem_of_singleton).
    rewrite Hkind. cbn. apply (f_equal (fun t : bool => if t then _ else _)).
    apply bool_decide_ext. rewrite elem_of_cons.
    split; [by right|by intros [?|?]].
Qed.

(** One turn of either loop. *)
Lemma readiness_only_step b com w :
  readiness_only b [com] w
    (if listens_on w com then set_cps (alter (set_listening b) com) w else w).
Proof.
  rewrite listens_on_kind. unfold readiness_only.
  destruct w as [fds n script lg vb nodes np bufs cs fronts]. cbn.
  destruct (cs !! com) as [cp|] eqn:Hcp; [destruct (listening_kind cp) eqn:Hkind|];
    cbn; split_and!; try done; intros c.
  - destruct (decide (c = com)) as [->|Hne].
    + rewrite lookup_alter_eq, Hcp. cbn. unfold readiness.
      by rewrite Hkind, bool_decide_eq_true_2 by apply list_elem_of_here.
    + rewrite lookup_alter_ne by done.
      destruct (cs !! c) as [cp'|]; [|done]. cbn. unfold readiness.
      rewrite (bool_decide_eq_false_2 (c ∈ [com]))
        by (by intros ?%list_elem_of_singleton).
      by rewrite andb_false_r.
  - destruct (cs !! c) as [cp'|] eqn:Hc; [|done]. cbn. unfold readiness.
    destruct (decide (c = com)) as [->|Hne].
    + assert (cp' = cp) as -> by congruence. by rewrite Hkind.
    + rewrite (bool_decide_eq_false_2 (c ∈ [com]))
        by (by intros ?%list_elem_of_singleton).
      by rewrite andb_false_r.
  - destruct (cs !! c) as [cp'|] eqn:Hc; [|done]. cbn. unfold readiness.
    rewrite (bool_decide_eq_false_2 (c ∈ [com])), andb_false_r; [done|].
    intros ->%list_elem_of_singleton. congruence.
Qed.

Lemma readiness_only_cons b com next w1 w2 w3 :
  readiness_only b [com] w1 w2 → readiness_only b next w2 w3 →
  readiness_only b (com :: next) w1 w3.
Proof.
  intros (Hf1 & Hb1 & Hd1 & Hn1 & Hc1) (Hf2 & Hb2 & Hd2 & Hn2 & Hc2).
  unfold readiness_only. split_and!; try congruence.
  intros c. rewrite Hc2, Hc1.
  destruct (w_cps w1 !! c) as [cp|]; [|done]. cbn.
  by rewrite readiness_cons.
Qed.

Lemma readiness_only_nil b w : readiness_only b [] w w.
Proof.
  unfold readiness_only. split_and!; try done.
  intros c. destruct (w_cps w !! c) as [cp|]; [|done].
  cbn. by rewrite readiness_nil.
Qed.

Lemma listen_pushback_cps_readiness p w :
  readiness_only false p w (snd (listen_pushback_cps p w)).
Proof.
  revert w. induction p as [|com next IH]; intros w; [apply readiness_only_nil|].
  cbn. unfold bind.
  pose proof (readiness_only_step false com w) as Hstep.
  unfold comm_point_stop_listening.
  destruct (listens_on w com); (eapply readiness_only_cons; [exact Hstep|apply IH]).
Qed.

Lemma listen_resume_cps_readiness p w :
  readiness_only true p w (snd (listen_resume_cps p w)).
Proof.
  revert w. induction p as [|com next IH]; intros w; [apply readiness_only_nil|].
  cbn. unfold bind.
  pose proof (readiness_only_step true com w) as Hstep.
  unfold comm_point_start_listening.
  destruct (listens_on w com); (eapply readiness_only_cons; [exact Hstep|apply IH]).
Qed.

Lemma readiness_resume_after_pushback ms c cp :
  readiness true ms c (readiness false ms c cp) = readiness true ms c cp.
Proof.
  unfold readiness.
  destruct (listening_kind cp) eqn:Hkind; cbn; [|by rewrite Hkind].
  destruct (bool_decide (c ∈ ms)); [|by rewrite Hkind].
  change (listening_kind (set_listening false cp)) with (listening_kind cp).
  by rewrite Hkind.
Qed.

(** C8: [listen_pushback] switches the readiness delivery off, and
    [listen_resume] switches it on, for the members of the aggregate
    whose kind is UDP or TCP accept, and neither does anything else:
    aggregates (collection, order of members, buffer pointer), buffers
    and descriptors stay as they are and every other comm point is left
    alone.  Pausing and then resuming therefore leaves the aggregate and
    its members as they were, up to the readiness delivery being on. *)
Theorem pushback_resume_readiness_only listen w :
  let ms := members w listen in
  let paused := snd (listen_pushback listen w) in
  readiness_only false ms w paused
  ∧ readiness_only true ms w (snd (listen_resume listen w))
  ∧ readiness_only true ms w (snd (listen_resume listen paused))
  ∧ members (snd (listen_resume listen paused)) listen = ms.
Proof.
  assert (Hpush : ∀ w0, readiness_only false (members w0 listen) w0
                          (snd (listen_pushback listen w0))).
  { intros w0. apply listen_pushback_cps_readiness. }
  assert (Hres : ∀ w0, readiness_only true (members w0 listen) w0
                         (snd (listen_resume listen w0))).
  { intros w0. apply listen_resume_cps_readiness. }
  cbv zeta. pose proof (Hpush w) as Hp.
  set (w1 := snd (listen_pushback listen w)) in *.
  pose proof (Hres w1) as Hr1.
  assert (members w1 listen = members w listen) as Hms.
  { unfold members. by destruct Hp as (-> & _). }
  rewrite Hms in Hr1.
  split_and!; [exact Hp|apply Hres| |].
  - destruct Hp as (Hf1 & Hb1 & Hd1 & Hn1 & Hc1).
    destruct Hr1 as (Hf2 & Hb2 & Hd2 & Hn2 & Hc2).
    unfold readiness_only. split_and!; try congruence.
    intros c. rewrite Hc2, Hc1.
    destruct (w_cps w !! c) as [cp|]; [|done]. cbn.
    by rewrite readiness_resume_after_pushback.
  - rewrite <- Hms. unfold members. by destruct Hr1 as (-> & _).
Qed.

Example pushback_stops_udp_only :
  let w' := snd (listen_pushback 1 two_comm_points) in
  cp_listening <$> w_cps w' !! 2%nat = Some false
  ∧ cp_listening <$> w_cps w' !! 3%nat = Some true
  ∧ snd (listen_resume 1 w') = two_comm_points.
Proof. vm_compute. done. Qed.

(** ** Outcomes of a factory call, failures included *)

Ltac factory_end_tac :=
  first
    [ by apply end_no_socket
    | eapply end_left_behind;
      [done|done|cbn; rewrite ?alter_insert_eq; reflexivity|done]
    | apply end_opened;
      [ cbn; by rewrite <- Z.eqb_neq, fd_not_error
      | unfold opened; cbn; rewrite ?alter_insert_eq; cbn;
        rewrite ?nonblock_flag; done ] ].

Lemma create_udp_sock_end plat addr v6only w :
  sockets_only w (snd (create_udp_sock plat addr v6only w))
  ∧ factory_end w (udp_sock plat addr v6only)
      (fst (create_udp_sock plat addr v6only w))
      (snd (create_udp_sock plat addr v6only w)).
Proof.
  destruct w as [fds n script lg vb nodes np bufs cs fronts].
  destruct addr as [fl fam ty sa].
  unfold create_udp_sock, udp_ip6_options, sockets_only, opened, udp_sock, udp_opts.
  unfold_sys. run_code.
  all: split; [done|factory_end_tac].
Qed.

Lemma create_tcp_accept_sock_end plat addr v6only w :
  sockets_only w (snd (create_tcp_accept_sock plat addr v6only w))
  ∧ factory_end w (tcp_sock plat addr v6only)
      (fst (create_tcp_accept_sock plat addr v6only w))
      (snd (create_tcp_accept_sock plat addr v6only w)).
Proof.
  destruct w as [fds n script lg vb nodes np bufs cs fronts].
  destruct addr as [fl fam ty sa].
  unfold create_tcp_accept_sock, sockets_only, opened, tcp_sock, tcp_opts.
  unfold_sys. run_code.
  all: split; [done|factory_end_tac].
Qed.

Lemma run_factory_end plat f addr v6only w :
  sockets_only w (snd (run_factory plat f addr v6only w))
  ∧ factory_end w (factory_sock plat f addr v6only)
      (fst (run_factory plat f addr v6only w))
      (snd (run_factory plat f addr v6only w)).
Proof.
  destruct f; [apply create_udp_sock_end|apply create_tcp_accept_sock_end].
Qed.

Lemma factory_end_extends w good s w' : factory_end w good s w' → extends w w'.
Proof.
  intros [_ Hf Hn|k _ Hn Hf _|_ Hop].
  - apply same_fds_extends. by split.
  - split; [lia|]. intros x Hx. rewrite Hf, lookup_insert_ne; [done|lia].
  - by eapply opened_extends.
Qed.

(** X1: a socket factory never touches a descriptor that existed before
    the call, whether it succeeds or fails: descriptors below the
    descriptor counter are exactly as before (in particular none is
    closed), and the counter does not go back. *)
Theorem factory_leaves_old_descriptors plat f addr v6only w :
  extends w (snd (run_factory plat f addr v6only w)).
Proof.
  destruct (run_factory_end plat f addr v6only w) as [_ Hend].
  by eapply factory_end_extends.
Qed.

(** X2: when a socket factory fails after [socket] handed out a
    descriptor (the descriptor counter moved), that descriptor is still
    open when the factory returns -1: no error path of the factories
    closes it. *)
Theorem factory_failure_leaves_descriptor plat f addr v6only w :
  fst (run_factory plat f addr v6only w) = -1 →
  w_next_fd (snd (run_factory plat f addr v6only w)) ≠ w_next_fd w →
  ∃ k, w_fds (snd (run_factory plat f addr v6only w))
         !! Z.of_nat (w_next_fd w) = Some k
       ∧ so_open k = true.
Proof.
  destruct (run_factory_end plat f addr v6only w) as [_ Hend].
  intros Hs Hn. destruct Hend as [_ _ Hn'|k _ _ Hf Hk|Hs' _]; [done| |done].
  exists k. by rewrite Hf, lookup_insert_eq.
Qed.

Lemma factory_failure_leaves_descriptor_witness :
  ∃ k, w_fds (snd (run_factory Sample.linux TcpAcceptFactory
                     (Sample.addr6 SOCK_STREAM) 1
                     (Sample.boot [false; false; false; false; false; false; true])))
         !! Z.of_nat (w_next_fd (Sample.boot [false; false; false; false; false; false; true]))
       = Some k
       ∧ so_open k = true.
Proof.
  apply factory_failure_leaves_descriptor; vm_compute; [reflexivity|discriminate].
Defined.

Lemma sockets_only_refl w : sockets_only w w.
Proof. by unfold sockets_only. Qed.

Lemma sockets_only_trans w1 w2 w3 :
  sockets_only w1 w2 → sockets_only w2 w3 → sockets_only w1 w3.
Proof. unfold sockets_only. intuition congruence. Qed.

Lemma sockets_only_set_script sc w : sockets_only w (set_script sc w).
Proof. by destruct w. Qed.

Lemma sockets_only_log lv msg w : sockets_only w (snd (log lv msg w)).
Proof. by destruct w. Qed.

Lemma factory_end_set_script sc w good s w' :
  factory_end (set_script sc w) good s w' → factory_end w good s w'.
Proof.
  intros [Hs Hf Hn|k Hs Hn Hf Hk|Hs Hop].
  - apply end_no_socket; [done|by destruct w..].
  - apply (end_left_behind _ _ _ _ k); [done|by destruct w..|done].
  - apply end_opened; [done|]. by apply (opened_set_script sc).
Qed.

(** How a call of [make_sock] ends; a failed resolution creates nothing. *)
Lemma make_sock_end plat stype ifname portstr hints v6only w :
  sockets_only w (snd (make_sock plat stype ifname portstr hints v6only w))
  ∧ factory_end w
      (if decide (stype = SOCK_DGRAM)
       then udp_sock plat (resolved stype ifname portstr hints) v6only
       else tcp_sock plat (resolved stype ifname portstr hints) v6only)
      (fst (make_sock plat stype ifname portstr hints v6only w))
      (snd (make_sock plat stype ifname portstr hints v6only w)).
Proof.
  unfold make_sock, getaddrinfo, bind, ret.
  destruct (fails_inv w) as (b & sc & ->). destruct b; cbn.
  - split; [by destruct w|]. apply end_no_socket; by destruct w.
  - destruct (decide (stype = SOCK_DGRAM)).
    + destruct (create_udp_sock_end plat (resolved stype ifname portstr hints)
                  v6only (set_script sc w)) as [Hso Hend].
      split.
      * eapply sockets_only_trans; [apply (sockets_only_set_script sc)|exact Hso].
      * eapply factory_end_set_script, Hend.
    + destruct (create_tcp_accept_sock_end plat
                  (resolved stype ifname portstr hints)
                  v6only (set_script sc w)) as [Hso Hend].
      split.
      * eapply sockets_only_trans; [apply (sockets_only_set_script sc)|exact Hso].
      * eapply factory_end_set_script, Hend.
Qed.

(** ** How the list of open ports grows *)

Lemma healthy_udp_sock plat addr ft :
  ft ≠ listen_type_tcp → ai_socktype addr = SOCK_DGRAM →
  healthy ft (udp_sock plat addr 1).
Proof.
  intros Hft Hty. unfold healthy, udp_sock. cbn.
  by rewrite Hty, !decide_False by done.
Qed.

Lemma v6only_udp_sock plat addr :
  ai_family addr = AF_INET6 → HAVE_IPV6_V6ONLY plat = true →
  sockopt_of IPV6_V6ONLY (udp_sock plat addr 1) = Some 1.
Proof.
  intros Hfam Hv6. unfold sockopt_of, udp_sock, udp_opts. cbn.
  rewrite Hfam, Hv6. cbn. by destruct (HAVE_IPV6_USE_MIN_MTU plat).
Qed.

Lemma v6only_tcp_sock plat addr :
  ai_family addr = AF_INET6 → HAVE_IPV6_V6ONLY plat = true →
  sockopt_of IPV6_V6ONLY (tcp_sock plat addr 1) = Some 1.
Proof.
  intros Hfam Hv6. unfold sockopt_of, tcp_sock, tcp_opts. cbn.
  by rewrite Hfam, Hv6.
Qed.

Lemma udp_opts_port_opts plat fam :
  udp_opts plat fam 1 = port_opts plat fam listen_type_udp.
Proof.
  unfold udp_opts, port_opts, opt_on. cbn.
  by rewrite andb_true_r.
Qed.

Lemma tcp_opts_port_opts plat fam :
  tcp_opts plat fam 1 = port_opts plat fam listen_type_tcp.
Proof.
  unfold tcp_opts, port_opts, opt_on. cbn. rewrite andb_true_r.
  destruct (decide (fam = AF_INET6)) as [->|Hfam].
  - by rewrite bool_decide_eq_true_2, andb_true_r.
  - by rewrite bool_decide_eq_false_2, andb_false_r.
Qed.

Lemma port_facts_udp plat hints ifname portstr :
  port_facts plat (ai_family hints) ifname portstr listen_type_udp
    (udp_sock plat (resolved SOCK_DGRAM ifname portstr hints) 1).
Proof.
  unfold port_facts. split_and!; try done.
  - intros Hfam Hv6. by apply v6only_udp_sock.
  - apply udp_opts_port_opts.
Qed.

Lemma port_facts_tcp plat hints ifname portstr :
  port_facts plat (ai_family hints) ifname portstr listen_type_tcp
    (tcp_sock plat (resolved SOCK_STREAM ifname portstr hints) 1).
Proof.
  unfold port_facts. split_and!; try done.
  - intros Hfam Hv6. by apply v6only_tcp_sock.
  - apply tcp_opts_port_opts.
Qed.

Lemma port_facts_ancil plat hints ifname portstr k :
  (ai_family hints ≠ AF_UNSPEC →
   ∃ o, pktinfo_opt plat (ai_family hints) = Some o ∧ o ∈ pktinfo_opts
        ∧ k = add_opt o 1 (udp_sock plat (resolved SOCK_DGRAM ifname portstr hints) 1)) →
  (ai_family hints = AF_UNSPEC →
   k = udp_sock plat (resolved SOCK_DGRAM ifname portstr hints) 1) →
  port_facts plat (ai_family hints) ifname portstr listen_type_udpancil k.
Proof.
  intros Hset Hunspec.
  destruct (decide (ai_family hints = AF_UNSPEC)) as [Hfam|Hfam].
  - rewrite (Hunspec Hfam). unfold port_facts. split_and!; try done.
    all: try (intros; congruence).
    cbn [so_opts udp_sock resolved ai_family].
    rewrite udp_opts_port_opts. unfold port_opts. by rewrite Hfam.
  - destruct (Hset Hfam) as (o & Hopt & Ho & ->).
    unfold port_facts. split_and!; try done.
    3: { cbn [so_opts add_opt udp_sock resolved ai_family].
         rewrite udp_opts_port_opts. unfold port_opts. by rewrite Hopt. }
    + intros Hfam6 Hv6.
      pose proof (v6only_udp_sock plat
                    (resolved SOCK_DGRAM ifname portstr hints) Hfam6 Hv6) as Hu.
      unfold sockopt_of in *. cbn in *.
      rewrite bool_decide_eq_false_2; [done|].
      intros ->. unfold pktinfo_opts in Ho.
      rewrite !elem_of_cons, elem_of_nil in Ho. intuition discriminate.
    + intros _ _. exists o. split; [done|].
      unfold sockopt_of. cbn. by rewrite bool_decide_eq_true_2.
Qed.

Lemma grown_nil plat portstr lst w : grown plat portstr [] lst w lst w.
Proof.
  exists []. split_and!; first [done|constructor|cbn; lia].
Qed.

Lemma port_at_frame plat portstr w w' p pl :
  (w_next_fd w ≤ w_next_fd w')%nat →
  (∀ x, x < Z.of_nat (w_next_fd w) → w_fds w' !! x = w_fds w !! x) →
  port_at plat portstr w p pl → port_at plat portstr w' p pl.
Proof.
  intros Hn Hold (Hft & Hlt & k & Hk & Hfacts).
  split_and!; [done|lia|]. exists k. by rewrite Hold.
Qed.

Lemma seq_fd_bound n0 len (l : list listen_port) p :
  fd <$> l = Z.of_nat <$> reverse (seq n0 len) → p ∈ l →
  Z.of_nat n0 ≤ fd p < Z.of_nat (n0 + len).
Proof.
  intros Hfd Hp.
  assert (fd p ∈ fd <$> l) as Hin by (by apply list_elem_of_fmap_2).
  rewrite Hfd in Hin.
  apply list_elem_of_fmap in Hin as (x & -> & Hx).
  apply elem_of_reverse, elem_of_seq in Hx. lia.
Qed.

Lemma grown_app plat portstr plan1 plan2 lst w lst1 w1 lst2 w2 :
  grown plat portstr plan1 lst w lst1 w1 →
  grown plat portstr plan2 lst1 w1 lst2 w2 →
  grown plat portstr (plan1 ++ plan2) lst w lst2 w2.
Proof.
  intros (new1 & -> & Hat1 & Hfd1 & Hn1 & Hold1)
         (new2 & -> & Hat2 & Hfd2 & Hn2 & Hold2).
  exists (new2 ++ new1). split_and!.
  - by rewrite app_assoc.
  - rewrite reverse_app. apply Forall2_app; [done|].
    eapply Forall2_impl; [exact Hat1|]. intros p pl Hp. cbn in Hp.
    eapply port_at_frame; [|exact Hold2|exact Hp]. lia.
  - rewrite fmap_app, length_app, Hfd2, Hfd1, Hn1.
    rewrite (Nat.add_comm (length new2)), seq_app, reverse_app, fmap_app.
    done.
  - rewrite length_app. lia.
  - intros x Hx. rewrite Hold2 by lia. by apply Hold1.
Qed.

Lemma grown_one plat portstr fam host ft lst w w' k :
  w_next_fd w' = S (w_next_fd w) →
  w_fds w' !! Z.of_nat (w_next_fd w) = Some k →
  (∀ x, x < Z.of_nat (w_next_fd w) → w_fds w' !! x = w_fds w !! x) →
  port_facts plat fam host portstr ft k →
  grown plat portstr [(fam, host, ft)] lst w
    ({| fd := Z.of_nat (w_next_fd w); ftype := ft |} :: lst) w'.
Proof.
  intros Hn Hk Hold Hfacts.
  exists [ {| fd := Z.of_nat (w_next_fd w); ftype := ft |} ].
  split_and!; try done.
  - constructor; [|constructor]. split_and!; [done|cbn; lia|]. by exists k.
  - cbn. lia.
Qed.

(** The TCP part of [ports_create_if], when it succeeds. *)
Lemma ports_create_if_tcp_grown plat ifname do_tcp hints portstr lst w r lst' w' :
  ports_create_if_tcp plat ifname do_tcp hints portstr lst w = ((r, lst'), w') →
  truthy r = true →
  grown plat portstr
    (if truthy do_tcp then [(ai_family hints, ifname, listen_type_tcp)] else [])
    lst w lst' w'.
Proof.
  unfold ports_create_if_tcp.
  destruct (truthy do_tcp); [|intros [= <- <- <-] _; apply grown_nil].
  unfold bind at 1.
  destruct (make_sock _ _ _ _ _ _ w) as [s w1] eqn:Hms.
  destruct (s =? -1) eqn:Hs; [by intros [= <- <- <-]|].
  apply Z.eqb_neq in Hs. apply make_sock_ok in Hms; [|done]. cbn in Hms.
  unfold bind at 1.
  destruct (port_insert_same_fds lst s listen_type_tcp w1) as [Hsame Hins].
  destruct (port_insert lst s listen_type_tcp w1) as [rl w2]. cbn in *.
  destruct Hins as [-> | ->]; cbn.
  - unfold_sys. by intros [= <- <- <-].
  - intros [= <- <- <-] _.
    destruct Hms as (-> & Hn1 & Hf1 & _). destruct Hsame as [Hf2 Hn2].
    eapply grown_one.
    + congruence.
    + rewrite Hf2, Hf1. apply lookup_insert_eq.
    + intros x Hx. rewrite Hf2, Hf1. apply lookup_insert_ne. lia.
    + apply port_facts_tcp.
Qed.

(** [ports_create_if], when it succeeds: the list grew by the plan for
    this interface. *)
Lemma ports_create_if_grown plat ifname do_auto do_udp do_tcp hints portstr
    lst w r lst' w' :
  ports_create_if plat ifname do_auto do_udp do_tcp hints portstr lst w
  = ((r, lst'), w') →
  truthy r = true →
  grown plat portstr (if_plan (ai_family hints) ifname do_auto do_udp do_tcp)
    lst w lst' w'.
Proof.
  unfold ports_create_if, if_plan, if_kinds. intros Hrun Hr.
  rewrite fmap_app.
  assert (Htcp : (fun ft => (ai_family hints, ifname, ft))
                   <$> (if truthy do_tcp then [listen_type_tcp] else [])
                 = if truthy do_tcp
                   then [(ai_family hints, ifname, listen_type_tcp)] else [])
    by by destruct (truthy do_tcp).
  rewrite Htcp. clear Htcp.
  destruct (_ && _); [injection Hrun as <- <- <-; done|].
  destruct (truthy do_auto) eqn:Hauto; [|destruct (truthy do_udp) eqn:Hudp].
  - unfold bind at 1 in Hrun.
    destruct (make_sock _ _ _ _ _ _ w) as [s w1] eqn:Hms.
    destruct (s =? -1) eqn:Hs; [injection Hrun as <- <- <-; done|].
    apply Z.eqb_neq in Hs. apply make_sock_ok in Hms; [|done]. cbn in Hms.
    unfold bind at 1 in Hrun.
    destruct (set_recvpktinfo_end plat s (ai_family hints) w1)
      as (_ & Hn2 & Hset & Hunspec).
    destruct (set_recvpktinfo plat s (ai_family hints) w1) as [rp w2].
    cbn in *.
    destruct (truthy rp) eqn:Hrp; cbn in Hrun; [|injection Hrun as <- <- <-; done].
    unfold bind at 1 in Hrun.
    destruct (port_insert_same_fds lst s listen_type_udpancil w2) as [Hsame Hins].
    destruct (port_insert lst s listen_type_udpancil w2) as [rl w3]. cbn in *.
    destruct Hins as [-> | ->]; cbn in Hrun.
    { revert Hrun. unfold_sys. intros [= <- <- <-]. done. }
    apply ports_create_if_tcp_grown in Hrun; [|done].
    refine (grown_app plat portstr [_] _ _ _ _ _ _ _ _ Hrun).
    destruct Hms as (-> & Hn1 & Hf1 & _). destruct Hsame as [Hf3 Hn3].
    destruct (decide (ai_family hints = AF_UNSPEC)) as [Hfam|Hfam].
    + eapply grown_one.
      * congruence.
      * rewrite Hf3, (Hunspec Hfam), Hf1. apply lookup_insert_eq.
      * intros x Hx. rewrite Hf3, (Hunspec Hfam), Hf1.
        apply lookup_insert_ne. lia.
      * apply port_facts_ancil; [done|auto].
    + destruct (Hset (conj eq_refl Hfam)) as (o & Hopt & Ho & Hf2).
      eapply grown_one.
      * congruence.
      * rewrite Hf3, Hf2, Hf1, alter_insert_eq. apply lookup_insert_eq.
      * intros x Hx. rewrite Hf3, Hf2, Hf1, alter_insert_eq.
        apply lookup_insert_ne. lia.
      * apply port_facts_ancil; [eauto|done].
  - unfold bind at 1 in Hrun.
    destruct (make_sock _ _ _ _ _ _ w) as [s w1] eqn:Hms.
    destruct (s =? -1) eqn:Hs; [injection Hrun as <- <- <-; done|].
    apply Z.eqb_neq in Hs. apply make_sock_ok in Hms; [|done]. cbn in Hms.
    unfold bind at 1 in Hrun.
    destruct (port_insert_same_fds lst s listen_type_udp w1) as [Hsame Hins].
    destruct (port_insert lst s listen_type_udp w1) as [rl w3]. cbn in *.
    destruct Hins as [-> | ->]; cbn in Hrun.
    { revert Hrun. unfold_sys. intros [= <- <- <-]. done. }
    apply ports_create_if_tcp_grown in Hrun; [|done].
    refine (grown_app plat portstr [_] _ _ _ _ _ _ _ _ Hrun).
    destruct Hms as (-> & Hn1 & Hf1 & _). destruct Hsame as [Hf3 Hn3].
    eapply grown_one.
    + congruence.
    + rewrite Hf3, Hf1. apply lookup_insert_eq.
    + intros x Hx. rewrite Hf3, Hf1. apply lookup_insert_ne. lia.
    + apply port_facts_udp.
  - apply ports_create_if_tcp_grown in Hrun; [|done]. exact Hrun.
Qed.

(** ** The plan of a port set *)

Lemma hosts_plan_cons h hosts do_auto do_udp do_tcp :
  hosts_plan (h :: hosts) do_auto do_udp do_tcp
  = if_plan (fam_of h) h do_auto do_udp do_tcp
    ++ hosts_plan hosts do_auto do_udp do_tcp.
Proof. reflexivity. Qed.

(** The loop over the configured interfaces, when it succeeds. *)
Lemma ports_open_ifs_grown plat names do_ip4 do_ip6 do_udp do_tcp hints portbuf
    lst w l w' :
  ports_open_ifs plat names do_ip4 do_ip6 do_udp do_tcp hints portbuf lst w
  = (Some l, w') →
  grown plat portbuf
    (hosts_plan (List.filter (family_on (truthy do_ip4) (truthy do_ip6)) names)
       0 do_udp do_tcp)
    lst w l w'.
Proof.
  revert hints lst w.
  induction names as [|ifname rest IH]; intros hints lst w;
    cbn [ports_open_ifs List.filter].
  - intros [= <- <-]. apply grown_nil.
  - unfold family_on at 1. destruct (str_is_ip6 ifname) eqn:Hip6.
    + destruct (truthy do_ip6); cbn [negb]; [|apply IH].
      unfold bind at 1.
      destruct (ports_create_if _ _ _ _ _ _ _ _ w) as [[r l1] w1] eqn:Hrun.
      cbn [fst snd]. destruct (truthy r) eqn:Hr; cbn [negb].
      2: { unfold bind, ret. by destruct (listening_ports_free l1 w1). }
      intros Hrest. apply IH in Hrest.
      apply ports_create_if_grown in Hrun; [|done].
      rewrite hosts_plan_cons. unfold fam_of. rewrite Hip6.
      by eapply grown_app.
    + destruct (truthy do_ip4); cbn [negb]; [|apply IH].
      unfold bind at 1.
      destruct (ports_create_if _ _ _ _ _ _ _ _ w) as [[r l1] w1] eqn:Hrun.
      cbn [fst snd]. destruct (truthy r) eqn:Hr; cbn [negb].
      2: { unfold bind, ret. by destruct (listening_ports_free l1 w1). }
      intros Hrest. apply IH in Hrest.
      apply ports_create_if_grown in Hrun; [|done].
      rewrite hosts_plan_cons. unfold fam_of. rewrite Hip6.
      by eapply grown_app.
Qed.

Lemma truthy_ip6 plat cfg :
  truthy (if HAVE_INET6 plat then do_ip6 cfg else 0) = ip6_on plat cfg.
Proof. unfold ip6_on. by destruct (HAVE_INET6 plat). Qed.

Lemma num_ifs_zero cfg : (num_ifs cfg =? 0) = bool_decide (ifs cfg = []).
Proof. unfold num_ifs. by destruct (ifs cfg). Qed.

Lemma hoare_pre {A} (P P' : world → Prop) (m : M A) (Q : A → world → Prop) :
  (∀ w, P w → P' w) → hoare P' m Q → hoare P m Q.
Proof. intros HP Hm w Hw. apply Hm. by apply HP. Qed.

Lemma hoare_pure {A} (P : world → Prop) (φ : Prop) (m : M A)
    (Q : A → world → Prop) :
  (φ → hoare P m Q) → hoare (fun w => P w ∧ φ) m Q.
Proof. intros Hm w [Hw Hφ]. by apply Hm. Qed.

Lemma grown_same_fds plat portstr plan lst w0 w l w' :
  same_fds w0 w → grown plat portstr plan lst w l w' →
  grown plat portstr plan lst w0 l w'.
Proof.
  intros [Hf Hn] (new & Hl & Hat & Hfd & Hn' & Hold).
  exists new. rewrite <- Hn, <- Hf. by split_and!.
Qed.

(** One family of the default branch of [listening_ports_open]. *)
Lemma family_block_some plat host do_auto do_udp do_tcp hints portbuf plan0 w0 lst :
  hoare (grown plat portbuf plan0 [] w0 lst)
    (do rl <- ports_create_if plat host do_auto do_udp do_tcp hints portbuf lst;
     if negb (truthy (fst rl)) then listening_ports_free (snd rl) >> ret None
     else ret (Some (snd rl)))
    (fun r w' => ∀ l, r = Some l →
       grown plat portbuf
         (plan0 ++ if_plan (ai_family hints) host do_auto do_udp do_tcp)
         [] w0 l w').
Proof.
  intros w Hw. unfold bind, ret.
  destruct (ports_create_if _ _ _ _ _ _ _ _ w) as [[r l1] w1] eqn:Hrun.
  cbn. destruct (truthy r) eqn:Hr; cbn.
  - intros l [= <-]. eapply grown_app; [exact Hw|].
    by eapply ports_create_if_grown.
  - by destruct (listening_ports_free l1 w1).
Qed.

Lemma family_block_list plat host do_auto do_udp do_tcp hints portbuf plan0 w0 lst :
  hoare (grown plat portbuf plan0 [] w0 lst)
    (do rl <- ports_create_if plat host do_auto do_udp do_tcp hints portbuf lst;
     if negb (truthy (fst rl)) then listening_ports_free (snd rl) >> ret []
     else ret (snd rl))
    (fun l w' => l = []
       ∨ grown plat portbuf
           (plan0 ++ if_plan (ai_family hints) host do_auto do_udp do_tcp)
           [] w0 l w').
Proof.
  intros w Hw. unfold bind, ret.
  destruct (ports_create_if _ _ _ _ _ _ _ _ w) as [[r l1] w1] eqn:Hrun.
  cbn. destruct (truthy r) eqn:Hr; cbn.
  - right. eapply grown_app; [exact Hw|].
    by eapply ports_create_if_grown.
  - left. by destruct (listening_ports_free l1 w1).
Qed.

(** The default branch of [listening_ports_open]: IPv6 first, then IPv4. *)
Lemma default_branch_grown plat (ip6 ip4 : bool) host6 host4 do_auto do_udp do_tcp
    hints portbuf w0 :
  hoare (same_fds w0)
    (do l6 <-
       (if ip6 then
          do rl <- ports_create_if plat host6 do_auto do_udp do_tcp
                     (with_family hints AF_INET6) portbuf [];
          if negb (truthy (fst rl)) then listening_ports_free (snd rl) >> ret None
          else ret (Some (snd rl))
        else ret (Some []));
     match l6 with
     | None => ret []
     | Some lst =>
         if ip4 then
           do rl <- ports_create_if plat host4 do_auto do_udp do_tcp
                      (with_family hints AF_INET) portbuf lst;
           if negb (truthy (fst rl)) then listening_ports_free (snd rl) >> ret []
           else ret (snd rl)
         else ret lst
     end)
    (fun l w' => l = []
       ∨ grown plat portbuf
           ((if ip6 then if_plan AF_INET6 host6 do_auto do_udp do_tcp else [])
            ++ (if ip4 then if_plan AF_INET host4 do_auto do_udp do_tcp else []))
           [] w0 l w').
Proof.
  apply hoare_bind with
    (R := fun l6 w' => ∀ l, l6 = Some l →
            grown plat portbuf
              (if ip6 then if_plan AF_INET6 host6 do_auto do_udp do_tcp else [])
              [] w0 l w').
  - destruct ip6.
    + apply (hoare_pre _ (grown plat portbuf [] [] w0 []));
        [|exact (family_block_some plat host6 do_auto do_udp do_tcp
                   (with_family hints AF_INET6) portbuf [] w0 [])].
      intros w Hw. eapply grown_same_fds; [exact Hw|apply grown_nil].
    + apply hoare_ret. intros w Hw l [= <-].
      eapply grown_same_fds; [exact Hw|apply grown_nil].
  - intros [lst|]; [|apply hoare_ret; by left].
    destruct ip4.
    + apply (hoare_pre _ (grown plat portbuf
               (if ip6 then if_plan AF_INET6 host6 do_auto do_udp do_tcp else [])
               [] w0 lst));
        [|exact (family_block_list plat host4 do_auto do_udp do_tcp
                   (with_family hints AF_INET) portbuf _ w0 lst)].
      intros w Hw. by apply Hw.
    + apply hoare_ret. intros w Hw. right. rewrite app_nil_r. by apply Hw.
Qed.

(** The branch of [listening_ports_open] over the configured interfaces. *)
Lemma explicit_branch_grown plat cfg hints w0 :
  hoare (same_fds w0)
    (do r <- ports_open_ifs plat (ifs cfg) (do_ip4 cfg)
               (if HAVE_INET6 plat then do_ip6 cfg else 0)
               (do_udp cfg) (tcp_arg cfg) hints (pretty (port cfg)) [];
     match r with
     | None => ret []
     | Some lst => ret lst
     end)
    (fun l w' => l = []
       ∨ grown plat (pretty (port cfg))
           (hosts_plan
              (List.filter (family_on (ip4_on cfg) (ip6_on plat cfg)) (ifs cfg))
              0 (do_udp cfg) (tcp_arg cfg))
           [] w0 l w').
Proof.
  intros w Hw. unfold bind, ret.
  destruct (ports_open_ifs _ _ _ _ _ _ _ _ _ w) as [[l|] w'] eqn:Hrun; cbn;
    [|by left].
  right. apply ports_open_ifs_grown in Hrun. rewrite truthy_ip6 in Hrun.
  by eapply grown_same_fds.
Qed.

(** [listening_ports_open] either returns the empty list or has built
    the planned port set. *)
Lemma listening_ports_open_grown plat cfg w :
  fst (listening_ports_open plat cfg w) = []
  ∨ grown plat (pretty (port cfg)) (port_plan plat cfg) [] w
      (fst (listening_ports_open plat cfg w))
      (snd (listening_ports_open plat cfg w)).
Proof.
  assert (Hmain : hoare (same_fds w) (listening_ports_open plat cfg)
            (fun l w' => l = []
               ∨ grown plat (pretty (port cfg)) (port_plan plat cfg) [] w l w')).
  2: { apply Hmain. by split. }
  unfold listening_ports_open. cbv zeta.
  fold (tcp_arg cfg). rewrite truthy_ip6. fold (ip4_on cfg).
  rewrite num_ifs_zero.
  match goal with |- context [with_family ?h AF_INET6] => generalize h end.
  intros hints.
  set (auto := truthy (if_automatic cfg) && truthy (do_udp cfg)).
  unfold port_plan, listen_hosts, auto_on. fold auto.
  pose proof (explicit_branch_grown plat cfg hints w) as Hexplicit.
  destruct (ip4_on cfg) eqn:H4, (ip6_on plat cfg) eqn:H6; cbn [negb andb orb];
    [| | |apply hoare_ret; by left].
  all: rewrite ?andb_true_r, ?andb_false_r.
  all: apply hoare_bind with
         (R := fun a w' => same_fds w w'
                 ∧ a = if auto && ip4_on cfg && ip6_on plat cfg then 1 else 0);
    [rewrite H4, H6; destruct auto; cbn;
     first [by apply hoare_ret
           |apply hoare_bind with (R := fun _ => same_fds w);
            [intros w1 Hw1; by destruct w1|intros _; by apply hoare_ret]]|].
  all: intros a; apply hoare_pure; intros ->; rewrite H4, H6.
  all: rewrite ?andb_true_r, ?andb_false_r.
  all: subst auto;
    try destruct (truthy (if_automatic cfg) && truthy (do_udp cfg));
    change (truthy 1) with true; change (truthy 0) with false;
    cbn [orb]; try exact Hexplicit.
  all: try (destruct (bool_decide (ifs cfg = [])); [|exact Hexplicit]).
  all: eapply hoare_post;
    [ first [ apply (default_branch_grown plat true true)
            | apply (default_branch_grown plat false true)
            | apply (default_branch_grown plat true false) ]
    | intros l w' [->|Hg]; [by left|right; revert Hg; cbn;
                            rewrite ?app_nil_r; done] ].
  all: exact EmptyString.
Qed.

(** ** What a built port set looks like *)

Lemma listening_ports_open_built plat cfg w :
  fst (listening_ports_open plat cfg w) ≠ [] →
  grown plat (pretty (port cfg)) (port_plan plat cfg) [] w
    (fst (listening_ports_open plat cfg w))
    (snd (listening_ports_open plat cfg w)).
Proof.
  intros Hne. by destruct (listening_ports_open_grown plat cfg w).
Qed.

(** X3: a non-empty port set returned by [listening_ports_open] is the
    planned one.  It holds one descriptor per host literal and transport
    (the hosts being the wildcards in automatic mode, the loopback
    addresses without configured interfaces, the configured interfaces
    of the enabled families otherwise), the last made first; each names
    a socket of the host's family bound to the host and the configured
    port with the facts of [port_facts], whose options are exactly those
    of [port_opts]: SO_REUSEADDR on a TCP socket, IPV6_V6ONLY on every
    IPv6 socket, IPV6_USE_MIN_MTU on a UDP socket over IPv6, the
    destination-address option on an ancillary socket, each set to 1
    where the platform has it, and no other; the descriptors are exactly
    the ones handed out during the call; older descriptors are
    untouched. *)
Theorem port_set_follows_plan plat cfg w :
  fst (listening_ports_open plat cfg w) ≠ [] →
  grown plat (pretty (port cfg)) (port_plan plat cfg) [] w
    (fst (listening_ports_open plat cfg w))
    (snd (listening_ports_open plat cfg w)).
Proof. apply listening_ports_open_built. Qed.

Lemma port_set_follows_plan_witness :
  grown all_options (pretty (port cfg_two_ifs))
    (port_plan all_options cfg_two_ifs) [] (Sample.boot [])
    (fst (listening_ports_open all_options cfg_two_ifs (Sample.boot [])))
    (snd (listening_ports_open all_options cfg_two_ifs (Sample.boot []))).
Proof. apply port_set_follows_plan. vm_compute. discriminate. Defined.

(** The descriptors of the returned list, paired with their plan. *)
Lemma listening_ports_open_ports plat cfg w :
  ∃ plan, plan ⊆ port_plan plat cfg
    ∧ Forall2 (port_at plat (pretty (port cfg))
                 (snd (listening_ports_open plat cfg w)))
        (fst (listening_ports_open plat cfg w)) plan.
Proof.
  destruct (listening_ports_open_grown plat cfg w) as [->|Hg].
  - exists []. split; [apply list_subseteq_nil|constructor].
  - destruct Hg as (new & Hl & Hat & _). rewrite app_nil_r in Hl. subst new.
    exists (reverse (port_plan plat cfg)). split; [|done].
    intros pl. by rewrite elem_of_reverse.
Qed.

Lemma listening_ports_open_port plat cfg w p :
  p ∈ fst (listening_ports_open plat cfg w) →
  ∃ pl, pl ∈ port_plan plat cfg
    ∧ port_at plat (pretty (port cfg))
        (snd (listening_ports_open plat cfg w)) p pl.
Proof.
  intros Hp. destruct (listening_ports_open_ports plat cfg w) as (plan & Hsub & Hat).
  apply list_elem_of_lookup in Hp as [i Hi].
  destruct (Forall2_lookup_l _ _ _ _ _ Hat Hi) as (pl & Hpl & Hppl).
  exists pl. split; [|done]. apply Hsub. by eapply list_elem_of_lookup_2.
Qed.

Lemma port_plan_elem plat cfg pl :
  pl ∈ port_plan plat cfg →
  pl.1.2 ∈ listen_hosts plat cfg
  ∧ pl.1.1 = fam_of pl.1.2
  ∧ pl.2 ∈ if_kinds (if auto_on plat cfg then 1 else 0) (do_udp cfg) (tcp_arg cfg).
Proof.
  unfold port_plan, hosts_plan, if_plan. intros Hpl.
  apply list_elem_of_In, in_concat in Hpl as (l & Hl & Hpl).
  apply list_elem_of_In in Hl, Hpl.
  apply list_elem_of_fmap in Hl as (h & -> & Hh).
  apply list_elem_of_fmap in Hpl as (ft & -> & Hft). done.
Qed.

(** X4: every descriptor of the list that [listening_ports_open] returns
    names an open, non-blocking, bound socket of the matching type: a
    datagram socket for the two UDP kinds, a stream socket listening
    with backlog 5 for the TCP kind. *)
Theorem port_set_sockets_healthy plat cfg w p :
  p ∈ fst (listening_ports_open plat cfg w) →
  ∃ k, w_fds (snd (listening_ports_open plat cfg w)) !! fd p = Some k
       ∧ healthy (ftype p) k ∧ is_Some (so_bound k).
Proof.
  intros Hp.
  destruct (listening_ports_open_port plat cfg w p Hp)
    as (pl & _ & Hft & _ & k & Hk & Hhealthy & _ & Hbound & _).
  exists k. rewrite Hft. split_and!; [done|done|by rewrite Hbound].
Qed.

Lemma port_set_sockets_healthy_witness :
  ∃ k, w_fds (snd (listening_ports_open Sample.linux cfg_two_ifs (Sample.boot [])))
         !! fd {| fd := 6; ftype := listen_type_tcp |} = Some k
       ∧ healthy (ftype {| fd := 6; ftype := listen_type_tcp |}) k
       ∧ is_Some (so_bound k).
Proof.
  apply port_set_sockets_healthy. vm_compute. apply list_elem_of_here.
Defined.

(** X5: every descriptor of the returned list names a socket bound to
    one of the host literals [listening_ports_open] goes through and to
    the configured port written in decimal, and the socket's family is
    the family of that literal. *)
Theorem port_set_bound_to_hosts plat cfg w p :
  p ∈ fst (listening_ports_open plat cfg w) →
  ∃ k h, w_fds (snd (listening_ports_open plat cfg w)) !! fd p = Some k
         ∧ h ∈ listen_hosts plat cfg
         ∧ so_bound k = Some {| sa_host := h; sa_port := pretty (port cfg) |}
         ∧ so_family k = fam_of h.
Proof.
  intros Hp.
  destruct (listening_ports_open_port plat cfg w p Hp)
    as (pl & Hpl & _ & _ & k & Hk & _ & Hfam & Hbound & _).
  apply port_plan_elem in Hpl as (Hh & Hf & _).
  exists k, pl.1.2. split_and!; try done. by rewrite Hfam.
Qed.

Lemma port_set_bound_to_hosts_witness :
  ∃ k h, w_fds (snd (listening_ports_open Sample.linux cfg_two_ifs (Sample.boot [])))
           !! fd {| fd := 6; ftype := listen_type_tcp |} = Some k
         ∧ h ∈ listen_hosts Sample.linux cfg_two_ifs
         ∧ so_bound k
           = Some {| sa_host := h; sa_port := pretty (port cfg_two_ifs) |}
         ∧ so_family k = fam_of h.
Proof.
  apply port_set_bound_to_hosts. vm_compute. apply list_elem_of_here.
Defined.


(** X7: when [listening_ports_open] returns a non-empty list, no socket
    it created is missing from the list: the descriptor counter advanced
    by exactly the length of the list, the descriptors of the list are
    the ones handed out in between, newest first, and every descriptor
    that existed before is as it was. *)
Theorem port_set_holds_every_new_descriptor plat cfg w :
  fst (listening_ports_open plat cfg w) ≠ [] →
  let r := listening_ports_open plat cfg w in
  w_next_fd (snd r) = (w_next_fd w + length (fst r))%nat
  ∧ fd <$> fst r = Z.of_nat <$> reverse (seq (w_next_fd w) (length (fst r)))
  ∧ ∀ x, x < Z.of_nat (w_next_fd w) → w_fds (snd r) !! x = w_fds w !! x.
Proof.
  intros Hne.
  destruct (listening_ports_open_built plat cfg w Hne) as (new & Hl & _ & Hfd & Hn & Hold).
  rewrite app_nil_r in Hl. cbn. by rewrite Hl.
Qed.

Lemma port_set_holds_every_new_descriptor_witness :
  let r := listening_ports_open Sample.linux cfg_two_ifs (Sample.boot []) in
  w_next_fd (snd r) = (w_next_fd (Sample.boot []) + length (fst r))%nat
  ∧ fd <$> fst r
    = Z.of_nat <$> reverse (seq (w_next_fd (Sample.boot [])) (length (fst r)))
  ∧ ∀ x, x < Z.of_nat (w_next_fd (Sample.boot [])) →
         w_fds (snd r) !! x = w_fds (Sample.boot []) !! x.
Proof.
  apply port_set_holds_every_new_descriptor. vm_compute. discriminate.
Defined.

(** X8: every IPv6 socket of the returned list has IPV6_V6ONLY set to 1
    where the platform has the option: the listening sockets never take
    IPv4-mapped traffic. *)
Theorem port_set_ip6_sockets_v6only plat cfg w p k :
  HAVE_IPV6_V6ONLY plat = true →
  p ∈ fst (listening_ports_open plat cfg w) →
  w_fds (snd (listening_ports_open plat cfg w)) !! fd p = Some k →
  so_family k = AF_INET6 →
  sockopt_of IPV6_V6ONLY k = Some 1.
Proof.
  intros Hv6 Hp Hk Hfam.
  destruct (listening_ports_open_port plat cfg w p Hp)
    as (pl & _ & _ & _ & k' & Hk' & _ & Hfam' & _ & Hopt & _).
  assert (k' = k) as -> by congruence. apply Hopt; [congruence|done].
Qed.

Lemma port_set_ip6_sockets_v6only_witness :
  sockopt_of IPV6_V6ONLY
    {| so_family := AF_INET6; so_type := SOCK_STREAM;
       so_opts := [(IPV6_V6ONLY, 1); (SO_REUSEADDR, 1)];
       so_bound := Some {| sa_host := "2001:db8::1"; sa_port := "5353" |};
       so_nonblock := true; so_backlog := Some 5; so_open := true |}
  = Some 1.
Proof.
  apply (port_set_ip6_sockets_v6only Sample.linux cfg_two_ifs (Sample.boot [])
           {| fd := 6; ftype := listen_type_tcp |}).
  - reflexivity.
  - vm_compute. apply list_elem_of_here.
  - vm_compute. reflexivity.
  - reflexivity.
Defined.

(** X9: every descriptor of the ancillary kind in the returned list
    names a socket on which one of the destination-address options has
    been set to 1. *)
Theorem port_set_ancil_has_pktinfo plat cfg w p :
  p ∈ fst (listening_ports_open plat cfg w) →
  ftype p = listen_type_udpancil →
  ∃ k o, w_fds (snd (listening_ports_open plat cfg w)) !! fd p = Some k
         ∧ o ∈ pktinfo_opts ∧ sockopt_of o k = Some 1.
Proof.
  intros Hp Hanc.
  destruct (listening_ports_open_port plat cfg w p Hp)
    as (pl & Hpl & Hft & _ & k & Hk & _ & _ & _ & _ & Hopt & _).
  apply port_plan_elem in Hpl as (_ & Hf & _).
  destruct Hopt as (o & Ho & Hset); [congruence| |by exists k, o].
  rewrite Hf. unfold fam_of. by destruct (str_is_ip6 _).
Qed.

Lemma port_set_ancil_has_pktinfo_witness :
  ∃ k o, w_fds (snd (listening_ports_open Sample.linux cfg_automatic (Sample.boot [])))
           !! fd {| fd := 4; ftype := listen_type_udpancil |} = Some k
         ∧ o ∈ pktinfo_opts ∧ sockopt_of o k = Some 1.
Proof.
  apply port_set_ancil_has_pktinfo; [|reflexivity].
  vm_compute. apply list_elem_of_here.
Defined.

(** X10: the kinds in the returned list follow the switches: a
    descriptor of the ancillary kind only in automatic mode (UDP and
    both families on), a plain UDP descriptor only outside it and with
    UDP on, a TCP descriptor only with TCP on and an accept queue. *)
Theorem port_set_kinds_follow_switches plat cfg w p :
  p ∈ fst (listening_ports_open plat cfg w) →
  match ftype p with
  | listen_type_udpancil => auto_on plat cfg = true
  | listen_type_udp => auto_on plat cfg = false ∧ do_udp cfg ≠ 0
  | listen_type_tcp => do_tcp cfg ≠ 0 ∧ incoming_num_tcp cfg ≠ 0
  end.
Proof.
  intros Hp.
  destruct (listening_ports_open_port plat cfg w p Hp) as (pl & Hpl & Hft & _).
  apply port_plan_elem in Hpl as (_ & _ & Hkind).
  rewrite Hft. unfold if_kinds, tcp_arg in Hkind.
  assert (Hnz : ∀ z, truthy z = true → z ≠ 0).
  { intros z Hz ->. discriminate Hz. }
  apply elem_of_app in Hkind as [Hk|Hk].
  - destruct (auto_on plat cfg).
    + change (truthy 1) with true in Hk.
      apply list_elem_of_singleton in Hk. by rewrite Hk.
    + change (truthy 0) with false in Hk.
      destruct (truthy (do_udp cfg)) eqn:Hudp; [|by apply elem_of_nil in Hk].
      apply list_elem_of_singleton in Hk. rewrite Hk. split; [done|by apply Hnz].
  - destruct (incoming_num_tcp cfg =? 0) eqn:Hnum;
      [by apply elem_of_nil in Hk|].
    destruct (truthy (do_tcp cfg)) eqn:Htcp; [|by apply elem_of_nil in Hk].
    apply list_elem_of_singleton in Hk. rewrite Hk.
    split; [by apply Hnz|by apply Z.eqb_neq].
Qed.

Lemma port_set_kinds_follow_switches_witness :
  match ftype {| fd := 6; ftype := listen_type_tcp |} with
  | listen_type_udpancil => auto_on Sample.linux cfg_two_ifs = true
  | listen_type_udp => auto_on Sample.linux cfg_two_ifs = false
                       ∧ do_udp cfg_two_ifs ≠ 0
  | listen_type_tcp => do_tcp cfg_two_ifs ≠ 0 ∧ incoming_num_tcp cfg_two_ifs ≠ 0
  end.
Proof.
  apply (port_set_kinds_follow_switches Sample.linux cfg_two_ifs (Sample.boot [])).
  vm_compute. apply list_elem_of_here.
Defined.

(** X11: a non-empty returned list has exactly one descriptor for each
    host literal and each transport that is on. *)
Theorem port_set_one_per_host_and_transport plat cfg w :
  fst (listening_ports_open plat cfg w) ≠ [] →
  length (fst (listening_ports_open plat cfg w))
  = (length (listen_hosts plat cfg)
     * length (if_kinds (if auto_on plat cfg then 1 else 0)
                 (do_udp cfg) (tcp_arg cfg)))%nat.
Proof.
  intros Hne.
  destruct (listening_ports_open_built plat cfg w Hne) as (new & Hl & Hat & _).
  rewrite app_nil_r in Hl. subst new.
  apply Forall2_length in Hat. rewrite Hat, length_reverse.
  unfold port_plan, hosts_plan.
  induction (listen_hosts plat cfg) as [|h hosts IH]; [done|].
  cbn [fmap list_fmap concat length]. rewrite length_app, IH.
  unfold if_plan. rewrite length_fmap. lia.
Qed.

Lemma port_set_one_per_host_and_transport_witness :
  length (fst (listening_ports_open Sample.linux cfg_two_ifs (Sample.boot [])))
  = (length (listen_hosts Sample.linux cfg_two_ifs)
     * length (if_kinds (if auto_on Sample.linux cfg_two_ifs then 1 else 0)
                 (do_udp cfg_two_ifs) (tcp_arg cfg_two_ifs)))%nat.
Proof.
  apply port_set_one_per_host_and_transport. vm_compute. discriminate.
Defined.

(** ** Node accounting and unwinding *)

Lemma hoare_sockets_only {A} n lst (m : M A) :
  (∀ w, sockets_only w (snd (m w))) →
  hoare (counted n lst) m (fun _ => counted n lst).
Proof.
  intros Hm w Hw. destruct (Hm w) as (Hn & _). unfold counted in *. congruence.
Qed.

Lemma sys_close_sockets_only s w : sockets_only w (snd (sys_close s w)).
Proof. by destruct w. Qed.

Lemma port_insert_counted n lst s ft :
  hoare (counted n lst) (port_insert lst s ft)
    (fun rl => counted n (snd rl)).
Proof.
  intros w Hw. unfold port_insert, malloc_node, bind, ret, counted in *.
  destruct (fails_inv w) as (b & sc & ->).
  destruct w, b; cbn in *; lia.
Qed.

Ltac counted_step n :=
  match goal with
  | |- hoare _ (ret _) _ => by apply hoare_ret
  | |- hoare _ (bind (port_insert ?l _ _) _) _ =>
      apply hoare_bind with (R := fun rl => counted n (snd rl));
      [apply port_insert_counted|intros ?]
  | |- hoare (counted _ ?l) (bind (make_sock _ _ _ _ _ _) _) _ =>
      apply hoare_bind with (R := fun _ => counted n l);
      [apply hoare_sockets_only; intros ?; apply make_sock_end|intros ?]
  | |- hoare (counted _ ?l) (bind (set_recvpktinfo _ _ _) _) _ =>
      apply hoare_bind with (R := fun _ => counted n l);
      [apply hoare_sockets_only; intros ?; apply set_recvpktinfo_end|intros ?]
  | |- hoare (counted _ ?l) (bind (sys_close _) _) _ =>
      apply hoare_bind with (R := fun _ => counted n l);
      [apply hoare_sockets_only; intros ?; apply sys_close_sockets_only|intros ?]
  | |- hoare _ (if ?c then _ else _) _ => destruct c
  end.

Lemma ports_create_if_tcp_counted plat ifname do_tcp hints portstr n lst :
  hoare (counted n lst) (ports_create_if_tcp plat ifname do_tcp hints portstr lst)
    (fun rl => counted n (snd rl)).
Proof. unfold ports_create_if_tcp. repeat counted_step n. Qed.

Lemma ports_create_if_counted plat ifname do_auto do_udp do_tcp hints portstr n lst :
  hoare (counted n lst)
    (ports_create_if plat ifname do_auto do_udp do_tcp hints portstr lst)
    (fun rl => counted n (snd rl)).
Proof.
  unfold ports_create_if.
  repeat first [counted_step n | apply ports_create_if_tcp_counted].
Qed.

Lemma listening_ports_free_counted n lst :
  hoare (counted n lst) (listening_ports_free lst) (fun _ => counted n []).
Proof.
  induction lst as [|p nx IH]; cbn [listening_ports_free].
  - by apply hoare_ret.
  - apply hoare_bind with (R := fun _ => counted n (p :: nx)).
    { destruct (negb (fd p =? -1)); [|by apply hoare_ret].
      apply hoare_sockets_only. intros ?. apply sys_close_sockets_only. }
    intros _. apply hoare_bind with (R := fun _ => counted n nx); [|by intros _].
    intros w Hw. unfold counted in *. destruct w. cbn in *. lia.
Qed.

Lemma ports_open_ifs_counted plat names do_ip4 do_ip6 do_udp do_tcp hints portbuf
    n lst :
  hoare (counted n lst)
    (ports_open_ifs plat names do_ip4 do_ip6 do_udp do_tcp hints portbuf lst)
    (fun r => counted n (default [] r)).
Proof.
  revert hints lst.
  induction names as [|ifname rest IH]; intros hints lst; cbn [ports_open_ifs].
  - by apply hoare_ret.
  - destruct (str_is_ip6 ifname).
    + destruct (negb (truthy do_ip6)); [apply IH|].
      apply hoare_bind with (R := fun rl => counted n (snd rl));
        [apply ports_create_if_counted|intros rl].
      destruct (negb (truthy (fst rl))); [|apply IH].
      apply hoare_bind with (R := fun _ => counted n []);
        [apply listening_ports_free_counted|intros _; by apply hoare_ret].
    + destruct (negb (truthy do_ip4)); [apply IH|].
      apply hoare_bind with (R := fun rl => counted n (snd rl));
        [apply ports_create_if_counted|intros rl].
      destruct (negb (truthy (fst rl))); [|apply IH].
      apply hoare_bind with (R := fun _ => counted n []);
        [apply listening_ports_free_counted|intros _; by apply hoare_ret].
Qed.

Lemma listening_ports_open_counted plat cfg n :
  hoare (counted n []) (listening_ports_open plat cfg) (counted n).
Proof.
  unfold listening_ports_open. cbv zeta.
  match goal with |- context [with_family ?h AF_INET6] => generalize h end.
  intros hints.
  destruct (_ && _); [by apply hoare_ret|].
  apply hoare_bind with (R := fun _ => counted n []).
  { destruct (_ && _); [|by apply hoare_ret].
    apply hoare_bind with (R := fun _ => counted n []); [|intros _; by apply hoare_ret].
    apply hoare_sockets_only. intros w. apply sockets_only_log. }
  intros do_auto. destruct (_ || _).
  - apply hoare_bind with (R := fun l6 => counted n (default [] l6)).
    + destruct (truthy _); [|by apply hoare_ret].
      apply hoare_bind with (R := fun rl => counted n (snd rl));
        [apply ports_create_if_counted|intros rl].
      destruct (negb _); [|by apply hoare_ret].
      apply hoare_bind with (R := fun _ => counted n []);
        [apply listening_ports_free_counted|intros _; by apply hoare_ret].
    + intros [l|]; [|by apply hoare_ret]. cbn [default].
      destruct (truthy _); [|by apply hoare_ret].
      apply hoare_bind with (R := fun rl => counted n (snd rl));
        [apply ports_create_if_counted|intros rl].
      destruct (negb _); [|by apply hoare_ret].
      apply hoare_bind with (R := fun _ => counted n []);
        [apply listening_ports_free_counted|intros _; by apply hoare_ret].
  - apply hoare_bind with (R := fun r => counted n (default [] r));
      [apply ports_open_ifs_counted|].
    intros [l|]; by apply hoare_ret.
Qed.

(** X12: [listening_ports_open] never loses a list node: whatever fails,
    the number of live nodes afterwards is the number before plus the
    length of the returned list.  In particular a failed build has freed
    every node it allocated. *)
Theorem listening_ports_open_nodes plat cfg w :
  w_nodes (snd (listening_ports_open plat cfg w))
  = (w_nodes w + length (fst (listening_ports_open plat cfg w)))%nat.
Proof.
  apply (listening_ports_open_counted plat cfg (w_nodes w) w).
  unfold counted. cbn. lia.
Qed.

Lemma freed_nil s k : freed [] s k = k.
Proof. unfold freed. by rewrite bool_decide_eq_false_2 by apply not_elem_of_nil. Qed.

Lemma freed_cons p nx s k :
  freed nx s (freed [p] s k) = freed (p :: nx) s k.
Proof.
  unfold freed. cbn [fmap list_fmap].
  destruct (s =? -1) eqn:Hs; [by rewrite !andb_false_r|]. rewrite !andb_true_r.
  destruct (decide (s = fd p)) as [->|Hne].
  - rewrite !(bool_decide_eq_true_2 (fd p ∈ fd p :: _)) by apply list_elem_of_here.
    by destruct (bool_decide (fd p ∈ fd <$> nx)).
  - rewrite (bool_decide_eq_false_2 (s ∈ [fd p]))
      by (by intros ?%list_elem_of_singleton).
    apply (f_equal (fun t : bool => if t then _ else _)).
    apply bool_decide_ext. rewrite elem_of_cons.
    split; [by right|by intros [?|?]].
Qed.

Lemma listening_ports_free_cons p nx w :
  let w1 := snd ((if negb (fd p =? -1) then sys_close (fd p) else ret tt) w) in
  snd (listening_ports_free (p :: nx) w)
  = snd (listening_ports_free nx (set_nodes (Nat.pred (w_nodes w1)) w1)).
Proof.
  cbn [listening_ports_free]. unfold bind.
  by destruct ((if negb (fd p =? -1) then sys_close (fd p) else ret tt) w).
Qed.

Lemma close_listed_step p w :
  let w1 := snd ((if negb (fd p =? -1) then sys_close (fd p) else ret tt) w) in
  w_nodes w1 = w_nodes w ∧ w_next_fd w1 = w_next_fd w
  ∧ ∀ s, w_fds w1 !! s = freed [p] s <$> w_fds w !! s.
Proof.
  unfold freed. cbn [fmap list_fmap].
  destruct (fd p =? -1) eqn:Hp; cbn [negb].
  - cbn. split_and!; try done. intros s.
    destruct (w_fds w !! s) as [k|]; [|done]. cbn.
    destruct (decide (s = fd p)) as [->|Hne].
    + by rewrite Hp, andb_false_r.
    + rewrite bool_decide_eq_false_2; [done|].
      by intros ?%list_elem_of_singleton.
  - destruct w as [fds n script lg vb nodes np bufs cs fronts]. cbn.
    split_and!; try done. intros s.
    destruct (decide (s = fd p)) as [->|Hne].
    + rewrite lookup_alter_eq, Hp, bool_decide_eq_true_2
        by apply list_elem_of_here.
      by destruct (fds !! fd p).
    + rewrite lookup_alter_ne by done.
      destruct (fds !! s) as [k|]; [|done]. cbn.
      rewrite bool_decide_eq_false_2; [done|].
      by intros ?%list_elem_of_singleton.
Qed.

Lemma listening_ports_free_exact lst w :
  let w' := snd (listening_ports_free lst w) in
  w_nodes w' = (w_nodes w - length lst)%nat
  ∧ w_next_fd w' = w_next_fd w
  ∧ ∀ s, w_fds w' !! s = freed lst s <$> w_fds w !! s.
Proof.
  revert w. induction lst as [|p nx IH]; intros w.
  - cbn. split_and!; [lia|done|].
    intros s. destruct (w_fds w !! s); [|done]. cbn. by rewrite freed_nil.
  - cbv zeta. rewrite listening_ports_free_cons. cbv zeta.
    destruct (close_listed_step p w) as (Hn1 & Hc1 & Hf1).
    set (w1 := snd ((if negb (fd p =? -1) then sys_close (fd p) else ret tt) w))
      in *.
    destruct (IH (set_nodes (Nat.pred (w_nodes w1)) w1)) as (Hn2 & Hc2 & Hf2).
    assert (Hset : w_fds (set_nodes (Nat.pred (w_nodes w1)) w1) = w_fds w1
                   ∧ w_next_fd (set_nodes (Nat.pred (w_nodes w1)) w1) = w_next_fd w1
                   ∧ w_nodes (set_nodes (Nat.pred (w_nodes w1)) w1)
                     = Nat.pred (w_nodes w1)) by by destruct w1.
    destruct Hset as (Hs1 & Hs2 & Hs3).
    split_and!.
    + rewrite Hn2, Hs3, Hn1. cbn [length]. lia.
    + by rewrite Hc2, Hs2.
    + intros s. rewrite Hf2, Hs1, Hf1.
      destruct (w_fds w !! s) as [k|]; [|done]. cbn.
      by rewrite freed_cons.
Qed.

(** X13: [listening_ports_free] closes exactly the sockets named by the
    list (a descriptor of -1 is skipped), changes nothing else in the
    descriptor table, hands out no descriptor, and frees one node for
    each element of the list. *)
Theorem listening_ports_free_closes_the_list lst w :
  let w' := snd (listening_ports_free lst w) in
  w_nodes w' = (w_nodes w - length lst)%nat
  ∧ w_next_fd w' = w_next_fd w
  ∧ ∀ s, w_fds w' !! s = freed lst s <$> w_fds w !! s.
Proof. apply listening_ports_free_exact. Qed.

(** X14: building a port set and then freeing it leaves nothing behind:
    the list nodes are back to their number, every descriptor handed out
    by the build names a closed socket, and the descriptors that existed
    before are as they were. *)
Theorem build_then_free_leaves_nothing plat cfg w :
  fst (listening_ports_open plat cfg w) ≠ [] →
  let r := listening_ports_open plat cfg w in
  let w2 := snd (listening_ports_free (fst r) (snd r)) in
  w_nodes w2 = w_nodes w
  ∧ (∀ x, x < Z.of_nat (w_next_fd w) → w_fds w2 !! x = w_fds w !! x)
  ∧ (∀ x, Z.of_nat (w_next_fd w) ≤ x < Z.of_nat (w_next_fd w2) →
       ∃ k, w_fds w2 !! x = Some k ∧ so_open k = false).
Proof.
  intros Hne. cbv zeta.
  destruct (listening_ports_open_built plat cfg w Hne)
    as (new & Hl & Hat & Hfd & Hn & Hold).
  rewrite app_nil_r in Hl. subst new.
  pose proof (listening_ports_open_counted plat cfg (w_nodes w) w) as Hnodes.
  unfold counted in Hnodes. cbn [length] in Hnodes.
  specialize (Hnodes ltac:(lia)).
  destruct (listening_ports_free_exact (fst (listening_ports_open plat cfg w))
              (snd (listening_ports_open plat cfg w))) as (Hn2 & Hc2 & Hf2).
  cbv zeta in *.
  set (r := listening_ports_open plat cfg w) in *.
  assert (Hin : ∀ x, x ∈ fd <$> fst r ↔
                     Z.of_nat (w_next_fd w) ≤ x < Z.of_nat (w_next_fd (snd r))).
  { intros x. rewrite Hfd, Hn, list_elem_of_fmap. split.
    - intros (i & -> & Hi). apply elem_of_reverse, elem_of_seq in Hi. lia.
    - intros Hx. exists (Z.to_nat x). split; [lia|].
      apply elem_of_reverse, elem_of_seq. lia. }
  split_and!.
  - rewrite Hn2, Hnodes. lia.
  - intros x Hx. rewrite Hf2, Hold by done. unfold freed.
    rewrite bool_decide_eq_false_2 by (rewrite Hin; lia).
    by destruct (w_fds w !! x).
  - intros x Hx. rewrite Hc2 in Hx. rewrite Hf2.
    pose proof (proj2 (Hin x) Hx) as Hmem.
    apply list_elem_of_fmap in Hmem as (p & -> & Hp).
    apply list_elem_of_lookup in Hp as [i Hi].
    destruct (Forall2_lookup_l _ _ _ _ _ Hat Hi)
      as (pl & _ & _ & _ & k & Hk & _).
    rewrite Hk. cbn. exists (freed (fst r) (fd p) k). split; [done|].
    unfold freed. rewrite bool_decide_eq_true_2.
    + assert ((fd p =? -1) = false) as -> by (apply Z.eqb_neq; lia). done.
    + apply list_elem_of_fmap_2. by eapply list_elem_of_lookup_2.
Qed.

Lemma build_then_free_leaves_nothing_witness :
  let w := Sample.boot [] in
  let r := listening_ports_open Sample.linux cfg_two_ifs w in
  let w2 := snd (listening_ports_free (fst r) (snd r)) in
  w_nodes w2 = w_nodes w
  ∧ (∀ x, x < Z.of_nat (w_next_fd w) → w_fds w2 !! x = w_fds w !! x)
  ∧ (∀ x, Z.of_nat (w_next_fd w) ≤ x < Z.of_nat (w_next_fd w2) →
       ∃ k, w_fds w2 !! x = Some k ∧ so_open k = false).
Proof.
  apply build_then_free_leaves_nothing. vm_compute. discriminate.
Defined.

(** ** Automatic mode that cannot be had *)

(** X15: when automatic mode is asked for but only one of the two
    families is on, [listening_ports_open] logs a warning and from then
    on does exactly what it does with automatic mode switched off: the
    same list and the same final state. *)
Theorem automatic_mode_degrades plat cfg w :
  if_automatic cfg ≠ 0 → do_udp cfg ≠ 0 →
  ip4_on cfg && ip6_on plat cfg = false →
  ip4_on cfg || ip6_on plat cfg = true →
  listening_ports_open plat cfg w
  = listening_ports_open plat (manual_mode cfg)
      (snd (log_warn automatic_warning w)).
Proof.
  intros Hauto Hudp Hnot Hsome.
  assert (Ha : truthy (if_automatic cfg) = true)
    by (by apply negb_true_iff, Z.eqb_neq).
  assert (Hu : truthy (do_udp cfg) = true)
    by (by apply negb_true_iff, Z.eqb_neq).
  unfold listening_ports_open, manual_mode, num_ifs.
  cbn [port do_ip4 do_ip6 do_udp do_tcp incoming_num_tcp if_automatic ifs].
  rewrite Ha, Hu, truthy_ip6. fold (ip4_on cfg).
  change (truthy 0) with false. cbn [negb andb].
  destruct (ip4_on cfg), (ip6_on plat cfg); try discriminate; reflexivity.
Qed.

Lemma automatic_mode_degrades_witness :
  listening_ports_open Sample.linux cfg_automatic_ip4 (Sample.boot [])
  = listening_ports_open Sample.linux (manual_mode cfg_automatic_ip4)
      (snd (log_warn automatic_warning (Sample.boot []))).
Proof. apply automatic_mode_degrades; first [reflexivity|discriminate]. Defined.

Lemma ports_create_if_auto_ip6_fails plat ifname do_udp do_tcp hints portstr lst w :
  HAVE_IPV6_RECVPKTINFO plat = false → HAVE_IPV6_PKTINFO plat = false →
  ai_family hints = AF_INET6 →
  truthy (fst (fst (ports_create_if plat ifname 1 do_udp do_tcp hints portstr
                      lst w))) = false.
Proof.
  intros H1 H2 Hfam. unfold ports_create_if.
  destruct (_ && _); [done|]. change (truthy 1) with true. cbv iota.
  unfold bind at 1.
  destruct (make_sock _ _ _ _ _ _ w) as [s w1].
  destruct (s =? -1); [done|].
  unfold bind at 1. unfold set_recvpktinfo. rewrite Hfam, H1, H2.
  by unfold_sys.
Qed.

(** X16: on a platform with neither IPV6_RECVPKTINFO nor IPV6_PKTINFO,
    [listening_ports_open] in automatic mode returns the empty list,
    whatever else succeeds. *)
Theorem automatic_mode_needs_ip6_pktinfo plat cfg w :
  HAVE_IPV6_RECVPKTINFO plat = false → HAVE_IPV6_PKTINFO plat = false →
  auto_on plat cfg = true →
  fst (listening_ports_open plat cfg w) = [].
Proof.
  intros H1 H2 Hon. unfold auto_on in Hon.
  apply andb_true_iff in Hon as [Hon H6]. apply andb_true_iff in Hon as [Hon H4].
  unfold listening_ports_open. cbv zeta. rewrite truthy_ip6.
  fold (ip4_on cfg). rewrite Hon, H4, H6. cbn [negb andb orb].
  change (truthy 1) with true. cbn [andb].
  unfold bind at 1. unfold ret at 1. cbv beta iota.
  change (truthy 1) with true. cbn [orb]. cbv iota.
  unfold bind at 1. unfold bind at 1.
  match goal with |- context [ports_create_if ?a ?b ?c ?d ?e ?f ?g ?h w] =>
    pose proof (ports_create_if_auto_ip6_fails a b d e f g h w H1 H2 eq_refl) as Hf;
    destruct (ports_create_if a b c d e f g h w) as [[r6 l6] w6] end.
  cbn in Hf. cbn [fst snd]. rewrite Hf. cbn [negb].
  unfold bind, ret. by destruct (listening_ports_free l6 w6).
Qed.

Lemma automatic_mode_needs_ip6_pktinfo_witness :
  fst (listening_ports_open no_ip6_pktinfo cfg_automatic (Sample.boot [])) = [].
Proof. apply automatic_mode_needs_ip6_pktinfo; reflexivity. Defined.

(** ** The comm points of an aggregate *)

Lemma listen_delete_cps_cons com pn w :
  let w1 := snd (comm_point_delete com w) in
  snd (listen_delete_cps (com :: pn) w)
  = snd (listen_delete_cps pn (set_nodes (Nat.pred (w_nodes w1)) w1)).
Proof.
  cbn [listen_delete_cps]. unfold bind.
  by destruct (comm_point_delete com w).
Qed.

(** The [while(p)] loop of [listen_delete] over comm points that were
    told not to close their sockets: the descriptor table is left alone,
    the comm points are gone, each element frees a node. *)
Lemma listen_delete_cps_exact l w :
  (∀ c cp, c ∈ l → w_cps w !! c = Some cp →
           truthy (cp_do_not_close cp) = true) →
  let w' := snd (listen_delete_cps l w) in
  w_fds w' = w_fds w
  ∧ w_nodes w' = (w_nodes w - length l)%nat
  ∧ w_next_ptr w' = w_next_ptr w
  ∧ w_fronts w' = w_fronts w
  ∧ w_bufs w' = w_bufs w
  ∧ ∀ c, w_cps w' !! c = if bool_decide (c ∈ l) then None else w_cps w !! c.
Proof.
  revert w. induction l as [|com pn IH]; intros w Hclose.
  - cbn. split_and!; done || lia.
  - cbv zeta. rewrite listen_delete_cps_cons. cbv zeta.
    assert (Hstep : ∃ w1, comm_point_delete com w = (tt, w1)
              ∧ w_fds w1 = w_fds w ∧ w_nodes w1 = w_nodes w
              ∧ w_next_ptr w1 = w_next_ptr w ∧ w_fronts w1 = w_fronts w
              ∧ w_bufs w1 = w_bufs w ∧ w_cps w1 = delete com (w_cps w)).
    { unfold comm_point_delete.
      destruct (w_cps w !! com) as [cp|] eqn:Hcp.
      - rewrite (Hclose com cp (list_elem_of_here _ _) Hcp).
        eexists. split; [reflexivity|]. by destruct w.
      - exists w. split_and!; try done. by rewrite delete_id. }
    destruct Hstep as (w1 & -> & Hf1 & Hn1 & Hp1 & Hfr1 & Hb1 & Hc1).
    cbn [snd].
    destruct (IH (set_nodes (Nat.pred (w_nodes w1)) w1)) as
      (Hf2 & Hn2 & Hp2 & Hfr2 & Hb2 & Hc2).
    { intros c cp Hc Hcp. apply (Hclose c cp); [by right|].
      assert (w_cps (set_nodes (Nat.pred (w_nodes w1)) w1) = w_cps w1) as Heq
        by by destruct w1.
      rewrite Heq, Hc1 in Hcp. by apply lookup_delete_Some in Hcp as [_ Hcp]. }
    assert (Hset : w_fds (set_nodes (Nat.pred (w_nodes w1)) w1) = w_fds w1
              ∧ w_nodes (set_nodes (Nat.pred (w_nodes w1)) w1) = Nat.pred (w_nodes w1)
              ∧ w_next_ptr (set_nodes (Nat.pred (w_nodes w1)) w1) = w_next_ptr w1
              ∧ w_fronts (set_nodes (Nat.pred (w_nodes w1)) w1) = w_fronts w1
              ∧ w_bufs (set_nodes (Nat.pred (w_nodes w1)) w1) = w_bufs w1
              ∧ w_cps (set_nodes (Nat.pred (w_nodes w1)) w1) = w_cps w1)
      by by destruct w1.
    destruct Hset as (Hs1 & Hs2 & Hs3 & Hs4 & Hs5 & Hs6).
    cbv zeta in *. split_and!; try congruence.
    + rewrite Hn2, Hs2, Hn1. cbn [length]. lia.
    + intros c. rewrite Hc2, Hs6, Hc1.
      destruct (decide (c = com)) as [->|Hne].
      * rewrite lookup_delete_eq.
        rewrite (bool_decide_eq_true_2 (com ∈ com :: pn)) by apply list_elem_of_here.
        by destruct (bool_decide (com ∈ pn)).
      * rewrite lookup_delete_ne by done.
        apply (f_equal (fun t : bool => if t then _ else _)).
        apply bool_decide_ext. rewrite (elem_of_cons pn c com).
        split; [by right|by intros [?|?]].
Qed.

Lemma creating_is_upto w0 bufsize tac done w :
  creating w0 bufsize tac done w → creating_upto w0 bufsize tac done w.
Proof.
  intros (Hf & Hn & Hp & Hfr & Hb & Hc). unfold creating_upto.
  split_and!; try done; [lia|].
  intros c. rewrite Hp, bool_decide_eq_false_2 by lia. apply Hc.
Qed.

Lemma cps_with_done tac base done m c :
  (base ≤ c < base + length done)%nat →
  ∃ p, done !! (c - base)%nat = Some p
       ∧ cps_with tac base done m c = Some (wrapped tac p).
Proof.
  intros Hc. unfold cps_with. rewrite bool_decide_eq_true_2 by lia.
  destruct (lookup_lt_is_Some_2 done (c - base)%nat) as [p Hp]; [lia|].
  exists p. by rewrite Hp.
Qed.

Lemma cps_with_other tac base done m c :
  ¬ (base ≤ c < base + length done)%nat → cps_with tac base done m c = m !! c.
Proof.
  intros Hc. unfold cps_with. case_bool_decide; [|done].
  by rewrite lookup_ge_None_2 by lia.
Qed.

(** [listen_delete] in the loop of [listen_create] undoes the call. *)
Lemma listen_delete_creating w0 bufsize tac done w :
  creating_upto w0 bufsize tac done w →
  torn_down w0 (snd (listen_delete (Some (w_next_ptr w0)) w)).
Proof.
  intros (Hf & Hn & Hp & Hfr & Hb & Hc).
  unfold listen_delete, get_front, bind. rewrite Hfr, lookup_insert_eq.
  cbn [default from_option id cps udp_buff].
  set (base := S (S (w_next_ptr w0))) in *.
  set (l := reverse (seq base (length done))).
  destruct (listen_delete_cps_exact l w) as (Hf1 & Hn1 & Hp1 & Hfr1 & Hb1 & Hc1).
  { intros c cp Hcl Hcp. subst l.
    apply elem_of_reverse, elem_of_seq in Hcl.
    rewrite Hc, bool_decide_eq_false_2 in Hcp by lia.
    destruct (cps_with_done tac base done (w_cps w0) c) as (p & _ & Heq); [lia|].
    rewrite Heq in Hcp. by injection Hcp as <-. }
  cbv zeta in *.
  destruct (listen_delete_cps l w) as [[] w1]. cbn [snd] in *.
  unfold ldns_buffer_free, free_front. cbn.
  unfold torn_down. destruct w1 as [fds1 n1 sc1 lg1 vb1 nodes1 np1 bufs1 cs1 fr1].
  cbn in *. subst. split_and!.
  - done.
  - subst l. rewrite length_reverse, length_seq. lia.
  - by rewrite Hfr, delete_insert_eq.
  - by rewrite Hb, delete_insert_eq.
  - intros c. rewrite Hc1, Hc. subst l.
    destruct (decide (base ≤ c < base + length done)%nat) as [Hin|Hout].
    + rewrite bool_decide_eq_true_2
        by (apply elem_of_reverse, elem_of_seq; lia).
      by rewrite bool_decide_eq_true_2 by lia.
    + rewrite bool_decide_eq_false_2
        by (rewrite elem_of_reverse, elem_of_seq; lia).
      case_bool_decide as Hslack.
      * by rewrite bool_decide_eq_true_2 by lia.
      * rewrite bool_decide_eq_false_2 by lia. by apply cps_with_other.
Qed.

Lemma wrapped_created tac bufsize p buf w :
  ∀ r, r = (match ftype p with
            | listen_type_udp => comm_point_create_udp (fd p) buf
            | listen_type_tcp => comm_point_create_tcp (fd p) tac bufsize
            | listen_type_udpancil => comm_point_create_udp_ancil (fd p) buf
            end) w →
  (fst r = None ∧ ∃ sc, snd r = set_script sc w)
  ∨ (fst r = Some (w_next_ptr w)
     ∧ ∃ sc cp0,
         snd r = set_next_ptr (S (w_next_ptr w))
                   (set_cps (insert (w_next_ptr w) cp0) (set_script sc w))
         ∧ {| cp_type := cp_type cp0; cp_fd := cp_fd cp0; cp_do_not_close := 1;
              cp_ancil := cp_ancil cp0; cp_max_tcp := cp_max_tcp cp0;
              cp_listening := cp_listening cp0 |} = wrapped tac p).
Proof.
  intros r ->.
  unfold comm_point_create_udp, comm_point_create_tcp, comm_point_create_udp_ancil,
    comm_point_create, bind, ret.
  destruct (ftype p) eqn:Hft;
    destruct (fails_inv w) as (b & sc & ->); destruct b; cbn;
    first [left; split; [done|by exists sc]
          |right; split; [by destruct w|]; eexists sc, _;
           split; [by destruct w|]; unfold wrapped; by rewrite Hft].
Qed.

Lemma creating_upto_frame w0 bufsize tac done w w' :
  creating_upto w0 bufsize tac done w →
  w_fds w' = w_fds w → w_nodes w' = w_nodes w → w_next_ptr w' = w_next_ptr w →
  w_fronts w' = w_fronts w → w_bufs w' = w_bufs w → w_cps w' = w_cps w →
  creating_upto w0 bufsize tac done w'.
Proof.
  intros (Hf & Hn & Hp & Hfr & Hb & Hc) E1 E2 E3 E4 E5 E6.
  unfold creating_upto. rewrite E1, E2, E3, E4, E5, E6. by split_and!.
Qed.

Lemma listen_create_step w0 bufsize tac done p next w b w' :
  creating w0 bufsize tac done w →
  listen_create_ports (w_next_ptr w0) (p :: next) bufsize tac w = (b, w') →
  (∃ w1, creating w0 bufsize tac (done ++ [p]) w1
         ∧ listen_create_ports (w_next_ptr w0) next bufsize tac w1 = (b, w'))
  ∨ (b = false ∧ torn_down w0 w').
Proof.
  intros Hw Hrun. cbn [listen_create_ports] in Hrun.
  unfold bind at 1 in Hrun. unfold get_front at 1 in Hrun. cbv beta iota in Hrun.
  match type of Hrun with context [bind ?m0 _] =>
    match m0 with context [comm_point_create_udp] => set (m := m0) in Hrun end end.
  unfold bind at 1 in Hrun.
  pose proof (wrapped_created tac bufsize p _ w (m w) eq_refl) as Hcreate.
  destruct (m w) as [r1 w1]. clear m. cbn [fst snd] in Hcreate.
  destruct Hcreate as [[-> (sc & ->)]|[-> (sc & cp0 & -> & Hcp)]].
  - right. unfold bind, ret, log_err, log in Hrun.
    match type of Hrun with context [listen_delete ?f ?w2] =>
      pose proof (listen_delete_creating w0 bufsize tac done w2) as Htorn;
      destruct (listen_delete f w2) as [[] w3] end.
    injection Hrun as <- <-. split; [done|]. apply Htorn.
    eapply creating_upto_frame; [by apply creating_is_upto|by destruct w..].
  - unfold bind at 1 in Hrun. unfold set_do_not_close at 1 in Hrun.
    cbv beta iota in Hrun.
    unfold bind at 1 in Hrun. unfold listen_cp_insert at 1 in Hrun.
    unfold bind at 1 in Hrun. unfold malloc_node at 1 in Hrun.
    unfold bind at 1 in Hrun.
    match type of Hrun with context [fails ?w2] =>
      destruct (fails_inv w2) as (b2 & sc2 & Hf); rewrite Hf in Hrun end.
    destruct Hw as (Hfd & Hn & Hp & Hfr & Hb & Hc).
    destruct b2; cbn [negb] in Hrun.
    + right. clear Hf.
      cbv [ret negb truthy Z.eqb] in Hrun.
      unfold bind at 1 in Hrun. unfold log_err, log in Hrun.
      unfold bind at 1 in Hrun. unfold bind at 1 in Hrun.
      unfold comm_point_delete at 1 in Hrun.
      cbv [set_script set_cps set_next_ptr set_log] in Hrun.
      cbn [w_cps w_fds w_next_fd w_script w_log w_verbose w_nodes w_next_ptr
           w_bufs w_fronts] in Hrun.
      rewrite alter_insert_eq, lookup_insert_eq, Hcp in Hrun.
      cbv [wrapped cp_do_not_close truthy Z.eqb negb bind ret] in Hrun.
      cbn [w_cps w_fds w_next_fd w_script w_log w_verbose w_nodes w_next_ptr
           w_bufs w_fronts] in Hrun.
      rewrite delete_insert_eq in Hrun.
      match type of Hrun with context [listen_delete ?f ?w2] =>
        pose proof (listen_delete_creating w0 bufsize tac done w2) as Htorn;
        destruct (listen_delete f w2) as [[] w3] end.
      injection Hrun as <- <-. split; [done|]. apply Htorn.
      unfold creating_upto.
      cbn [w_cps w_fds w_next_fd w_script w_log w_verbose w_nodes w_next_ptr
           w_bufs w_fronts].
      split_and!; [done|done|lia|done|done|].
      intros c. case_bool_decide as Hin.
      * assert (c = w_next_ptr w) as -> by lia. apply lookup_delete_eq.
      * rewrite lookup_delete_ne by lia. apply Hc.
    + left. clear Hf.
      cbv [ret negb] in Hrun.
      unfold bind at 2 in Hrun. unfold get_front at 1 in Hrun.
      unfold bind at 2 in Hrun. unfold set_front_cps at 1 in Hrun.
      cbv [truthy Z.eqb negb] in Hrun.
      cbv [set_script set_cps set_next_ptr set_log set_nodes set_fronts] in Hrun.
      cbn [w_cps w_fds w_next_fd w_script w_log w_verbose w_nodes w_next_ptr
           w_bufs w_fronts] in Hrun.
      rewrite alter_insert_eq, Hcp in Hrun. cbv [bind] in Hrun.
      cbn [w_cps w_fds w_next_fd w_script w_log w_verbose w_nodes w_next_ptr
           w_bufs w_fronts] in Hrun.
      rewrite Hfr, lookup_insert_eq, alter_insert_eq in Hrun.
      cbn [default from_option id cps udp_buff] in Hrun.
      eexists. split; [|exact Hrun].
      unfold creating.
      cbn [w_cps w_fds w_next_fd w_script w_log w_verbose w_nodes w_next_ptr
           w_bufs w_fronts].
      rewrite length_app. cbn [length].
      split_and!; [done|lia|lia| |done|].
      * do 2 f_equal.
        rewrite seq_app, reverse_app. cbn [seq]. by rewrite Hp.
      * intros c. unfold cps_with. rewrite Hp.
        destruct (decide (c = (S (S (w_next_ptr w0)) + length done)%nat)) as [->|Hne].
        -- rewrite lookup_insert_eq, bool_decide_eq_true_2 by lia.
           replace (S (S (w_next_ptr w0)) + length done - S (S (w_next_ptr w0)))%nat
             with (length done) by lia.
           by rewrite list_lookup_middle.
        -- rewrite lookup_insert_ne, Hc by done. unfold cps_with.
           case_bool_decide as Hle; [|done].
           destruct (decide (c - S (S (w_next_ptr w0)) < length done)%nat) as [Hlt|Hge].
           ++ by rewrite lookup_app_l.
           ++ rewrite (lookup_ge_None_2 done) by lia.
              rewrite lookup_ge_None_2; [done|].
              rewrite length_app. cbn [length]. lia.
Qed.

Lemma listen_create_ports_run w0 bufsize tac ports : ∀ done w b w',
  creating w0 bufsize tac done w →
  listen_create_ports (w_next_ptr w0) ports bufsize tac w = (b, w') →
  (b = true ∧ creating w0 bufsize tac (done ++ ports) w')
  ∨ (b = false ∧ torn_down w0 w').
Proof.
  induction ports as [|p next IH]; intros done w b w' Hw Hrun.
  - injection Hrun as <- <-. left. by rewrite app_nil_r.
  - destruct (listen_create_step _ _ _ _ _ _ _ _ _ Hw Hrun)
      as [(w1 & Hw1 & Hnext)|Hfail]; [|by right].
    rewrite (assoc_L _ done [p] next : done ++ p :: next = (done ++ [p]) ++ next).
    by apply (IH _ w1).
Qed.

Lemma torn_down_same w0 w :
  heap_fresh w0 → torn_down w0 w → same_resources w0 w.
Proof.
  intros Hfresh (Hfd & Hn & Hfr & Hb & Hc).
  destruct (Hfresh (w_next_ptr w0)) as (F1 & _ & _); [lia|].
  destruct (Hfresh (S (w_next_ptr w0))) as (_ & F2 & _); [lia|].
  unfold same_resources. rewrite Hfd, Hn, Hfr, Hb, !delete_id by done.
  split_and!; try done.
  apply map_eq. intros c. rewrite Hc. case_bool_decide as Hin; [|done].
  symmetry. apply (Hfresh c). lia.
Qed.

(** The outcomes of [listen_create] started in [w]: the allocation of
    the aggregate failed and nothing happened, the allocation of the
    buffer failed and the aggregate was freed again, the loop or the
    check of the collection gave up and tore everything down, or the
    aggregate wraps all of a port list that is not empty. *)
Lemma listen_create_run ports bufsize tac w r w' :
  listen_create ports bufsize tac w = (r, w') →
  (r = None ∧ ∃ sc, w' = set_script sc w)
  ∨ (r = None ∧ ∃ sc, w' = set_fronts (delete (w_next_ptr w))
                              (set_next_ptr (S (w_next_ptr w)) (set_script sc w)))
  ∨ (r = None ∧ torn_down w w')
  ∨ (r = Some (w_next_ptr w) ∧ ports ≠ [] ∧ creating w bufsize tac ports w').
Proof.
  intros Hrun. unfold listen_create in Hrun.
  unfold bind at 1 in Hrun. unfold malloc_front at 1 in Hrun.
  unfold bind at 1 in Hrun.
  destruct (fails_inv w) as (b1 & sc1 & Hf1). rewrite Hf1 in Hrun.
  destruct b1.
  { left. injection Hrun as <- <-. eauto. }
  right. clear Hf1.
  unfold bind at 1 in Hrun. unfold set_front_cps at 1 in Hrun.
  unfold bind at 1 in Hrun. unfold ldns_buffer_new at 1 in Hrun.
  unfold bind at 1 in Hrun.
  match type of Hrun with context [fails ?w2] =>
    destruct (fails_inv w2) as (b2 & sc2 & Hf2); rewrite Hf2 in Hrun end.
  clear Hf2. destruct b2.
  { left. cbv [bind ret free_front] in Hrun. injection Hrun as <- <-.
    split; [done|]. exists sc2. destruct w.
    cbv [set_fronts set_next_ptr set_script]. cbn.
    by rewrite delete_alter_eq, delete_insert_eq. }
  right.
  unfold bind at 1 in Hrun. unfold set_front_udp_buff at 1 in Hrun.
  unfold bind at 1 in Hrun.
  match type of Hrun with context [listen_create_ports ?f ports _ _ ?w2] =>
    assert (creating w bufsize tac [] w2) as Hstart;
    [|destruct (listen_create_ports f ports bufsize tac w2) as [ok w3] eqn:Hloop;
      pose proof (listen_create_ports_run w bufsize tac ports [] w2 ok w3
                    Hstart Hloop) as Hend]
  end.
  { unfold creating.
    cbn [set_fronts set_next_ptr set_script set_bufs
         w_cps w_fds w_next_fd w_script w_log w_verbose w_nodes w_next_ptr
         w_bufs w_fronts length seq reverse].
    rewrite !alter_insert_eq. cbn [cps udp_buff].
    split_and!; try done; try lia.
    intros c. unfold cps_with. rewrite lookup_nil. by case_bool_decide. }
  clear Hstart Hloop. cbn [app] in Hend.
  change (w_next_ptr (set_script sc1 w)) with (w_next_ptr w) in Hrun.
  destruct Hend as [[-> Hw3]|[-> Hw3]]; cbn [negb] in Hrun.
  - unfold bind at 1 in Hrun. unfold get_front at 1 in Hrun.
    pose proof Hw3 as (Hfd & Hn & Hp & Hfr & Hb & Hc).
    rewrite Hfr, lookup_insert_eq in Hrun.
    cbn [default from_option id cps udp_buff] in Hrun.
    destruct ports as [|p ports].
    + left.
      change (reverse (seq (S (S (w_next_ptr w))) (length (@nil listen_port))))
        with (@nil nat) in Hrun.
      unfold bind, ret, log_err, log in Hrun.
      match type of Hrun with context [listen_delete ?f ?w2] =>
        pose proof (listen_delete_creating w bufsize tac [] w2) as Htorn;
        destruct (listen_delete f w2) as [[] w4] end.
      injection Hrun as <- <-. split; [done|]. apply Htorn.
      apply creating_is_upto. unfold creating.
      cbn [w_cps w_fds w_next_fd w_script w_log w_verbose w_nodes w_next_ptr
           w_bufs w_fronts set_log].
      by split_and!.
    + right.
      destruct (reverse (seq (S (S (w_next_ptr w))) (length (p :: ports))))
        as [|c l] eqn:Hl.
      { apply (f_equal length) in Hl.
        by rewrite length_reverse, length_seq in Hl. }
      injection Hrun as <- <-. done.
  - left. injection Hrun as <- <-. done.
Qed.

Lemma listen_create_released ports bufsize tac w r w' :
  heap_fresh w → listen_create ports bufsize tac w = (r, w') → r = None →
  same_resources w w'.
Proof.
  intros Hfresh Hrun ->.
  destruct (listen_create_run _ _ _ _ _ _ Hrun)
    as [(_ & sc & ->)|[(_ & sc & ->)|[[_ Htorn]|[[=] _]]]].
  - by destruct w.
  - destruct (Hfresh (w_next_ptr w)) as (F1 & _ & _); [lia|].
    unfold same_resources. destruct w. cbn in *. by rewrite delete_id.
  - by apply torn_down_same.
Qed.

(** ** The aggregate of [listen_create] *)

(** X17: the aggregate that [listen_create] returns holds one comm point
    for each port of the list, in the reverse of their order and at
    different addresses; the comm point of a port wraps its descriptor
    with the kind of the port and with [do_not_close] set; the buffer of
    the aggregate has the capacity asked for; one list node was taken for
    each port. *)
Theorem listen_create_wraps_every_port ports bufsize tcp_accept_count w front :
  fst (listen_create ports bufsize tcp_accept_count w) = Some front →
  let w' := snd (listen_create ports bufsize tcp_accept_count w) in
  ∃ l, w_fronts w' !! front = Some l
       ∧ w_bufs w' !! udp_buff l = Some bufsize
       ∧ Forall2 (λ c p, w_cps w' !! c = Some (wrapped tcp_accept_count p))
                 (reverse (cps l)) ports
       ∧ NoDup (cps l)
       ∧ w_nodes w' = (w_nodes w + length ports)%nat.
Proof.
  intros Hsome. cbv zeta.
  destruct (listen_create ports bufsize tcp_accept_count w) as [r w'] eqn:Hrun.
  cbn [fst snd] in *. subst r.
  destruct (listen_create_run _ _ _ _ _ _ Hrun)
    as [[[=] _]|[[[=] _]|[[[=] _]|([= ->] & Hne & Hw')]]].
  destruct Hw' as (Hfd & Hn & Hp & Hfr & Hb & Hc).
  eexists. rewrite Hfr, lookup_insert_eq. split; [done|]. cbn [cps udp_buff].
  rewrite Hb, lookup_insert_eq, reverse_involutive.
  split_and!; [done| | |done].
  - apply Forall2_same_length_lookup. rewrite length_seq. split; [done|].
    intros i c p [-> Hi]%lookup_seq Hport.
    rewrite Hc. unfold cps_with. rewrite bool_decide_eq_true_2 by lia.
    replace (S (S (w_next_ptr w)) + i - S (S (w_next_ptr w)))%nat with i by lia.
    by rewrite Hport.
  - rewrite reverse_Permutation. apply NoDup_seq.
Qed.

Lemma listen_create_wraps_every_port_witness :
  let w' := snd (listen_create ports_udp_tcp 65552 10 (Sample.boot [])) in
  ∃ l, w_fronts w' !! 1%nat = Some l
       ∧ w_bufs w' !! udp_buff l = Some 65552
       ∧ Forall2 (λ c p, w_cps w' !! c = Some (wrapped 10 p))
                 (reverse (cps l)) ports_udp_tcp
       ∧ NoDup (cps l)
       ∧ w_nodes w' = (w_nodes (Sample.boot []) + length ports_udp_tcp)%nat.
Proof.
  apply (listen_create_wraps_every_port ports_udp_tcp 65552 10 (Sample.boot []) 1).
  vm_compute. reflexivity.
Defined.

(** X18: when [listen_create] returns [NULL], for whatever reason (the
    aggregate, the buffer, a comm point or a list node could not be
    allocated, or the port list was empty), it has released all it had
    allocated: descriptors, list nodes, buffers, comm points and
    aggregates are as they were before the call. *)
Theorem listen_create_failure_releases ports bufsize tcp_accept_count w :
  heap_fresh w →
  fst (listen_create ports bufsize tcp_accept_count w) = None →
  same_resources w (snd (listen_create ports bufsize tcp_accept_count w)).
Proof.
  intros Hfresh Hnone.
  destruct (listen_create ports bufsize tcp_accept_count w) as [r w'] eqn:Hrun.
  by apply (listen_create_released ports bufsize tcp_accept_count w r w').
Qed.

Lemma listen_create_failure_releases_witness :
  same_resources (Sample.boot [false; false; false; false; false; true])
    (snd (listen_create ports_udp_tcp 65552 10
            (Sample.boot [false; false; false; false; false; true]))).
Proof.
  apply (listen_create_failure_releases ports_udp_tcp 65552 10
           (Sample.boot [false; false; false; false; false; true])).
  - intros p _. cbn. by rewrite !lookup_empty.
  - vm_compute. reflexivity.
Defined.

(** X19: [listen_create] neither opens nor closes a descriptor, whether
    it returns an aggregate or gives up half way: the comm points it
    deletes on the way out were told not to close their sockets, so the
    ports handed in stay open for the caller to free. *)
Theorem listen_create_keeps_descriptors ports bufsize tcp_accept_count w :
  w_fds (snd (listen_create ports bufsize tcp_accept_count w)) = w_fds w.
Proof.
  destruct (listen_create ports bufsize tcp_accept_count w) as [r w'] eqn:Hrun.
  cbn [snd].
  destruct (listen_create_run _ _ _ _ _ _ Hrun)
    as [(_ & sc & ->)|[(_ & sc & ->)|[[_ Htorn]|(_ & _ & Hw')]]].
  - by destruct w.
  - by destruct w.
  - by destruct Htorn as (-> & _).
  - by destruct Hw' as (-> & _).
Qed.

(** X20: [listen_delete] undoes [listen_create]: deleting the aggregate
    just made leaves descriptors, list nodes, buffers, comm points and
    aggregates as they were before it was made; in particular the
    sockets of the ports are still open. *)
Theorem listen_delete_undoes_create ports bufsize tcp_accept_count w front :
  heap_fresh w →
  fst (listen_create ports bufsize tcp_accept_count w) = Some front →
  same_resources w
    (snd (listen_delete (Some front)
            (snd (listen_create ports bufsize tcp_accept_count w)))).
Proof.
  intros Hfresh Hsome.
  destruct (listen_create ports bufsize tcp_accept_count w) as [r w'] eqn:Hrun.
  cbn [fst snd] in *. subst r.
  destruct (listen_create_run _ _ _ _ _ _ Hrun)
    as [[[=] _]|[[[=] _]|[[[=] _]|([= ->] & _ & Hw')]]].
  apply torn_down_same; [done|].
  by apply (listen_delete_creating w bufsize tcp_accept_count ports),
           creating_is_upto.
Qed.

Lemma listen_delete_undoes_create_witness :
  same_resources (Sample.boot [])
    (snd (listen_delete (Some 1%nat)
            (snd (listen_create ports_udp_tcp 65552 10 (Sample.boot []))))).
Proof.
  apply (listen_delete_undoes_create ports_udp_tcp 65552 10 (Sample.boot []) 1).
  - intros p _. cbn. by rewrite !lookup_empty.
  - vm_compute. reflexivity.
Defined.

(** X21: pausing and then resuming an aggregate that [listen_create]
    has just returned brings the state back to what it was after the
    creation: every comm point of the aggregate delivers readiness
    events again, and nothing else has changed. *)
Theorem pushback_resume_restores_new_aggregate ports bufsize tcp_accept_count
    w front :
  fst (listen_create ports bufsize tcp_accept_count w) = Some front →
  let w1 := snd (listen_create ports bufsize tcp_accept_count w) in
  same_resources w1 (snd (listen_resume front (snd (listen_pushback front w1)))).
Proof.
  intros Hsome. cbv zeta.
  destruct (listen_create ports bufsize tcp_accept_count w) as [r w1] eqn:Hrun.
  cbn [fst snd] in *. subst r.
  destruct (listen_create_run _ _ _ _ _ _ Hrun)
    as [[[=] _]|[[[=] _]|[[[=] _]|([= ->] & _ & Hw1)]]].
  destruct Hw1 as (_ & _ & _ & Hfr & _ & Hc).
  pose proof (listen_pushback_cps_readiness (members w1 (w_next_ptr w)) w1) as Hp.
  change (snd (listen_pushback_cps (members w1 (w_next_ptr w)) w1))
    with (snd (listen_pushback (w_next_ptr w) w1)) in Hp.
  set (w2 := snd (listen_pushback (w_next_ptr w) w1)) in *.
  pose proof (listen_resume_cps_readiness (members w2 (w_next_ptr w)) w2) as Hr.
  change (snd (listen_resume_cps (members w2 (w_next_ptr w)) w2))
    with (snd (listen_resume (w_next_ptr w) w2)) in Hr.
  set (w3 := snd (listen_resume (w_next_ptr w) w2)) in *.
  assert (members w2 (w_next_ptr w) = members w1 (w_next_ptr w)) as Hms.
  { unfold members. by destruct Hp as (-> & _). }
  rewrite Hms in Hr.
  destruct Hp as (Hf1 & Hb1 & Hd1 & Hn1 & Hc1).
  destruct Hr as (Hf2 & Hb2 & Hd2 & Hn2 & Hc2).
  unfold same_resources. split_and!; try congruence.
  apply map_eq. intros c. rewrite Hc2, Hc1.
  destruct (w_cps w1 !! c) as [cp|] eqn:Hcp; [|done].
  cbn [fmap option_fmap option_map]. f_equal.
  rewrite readiness_resume_after_pushback. unfold readiness.
  destruct (listening_kind cp); [|done]. cbn [andb].
  case_bool_decide as Hin; [|done].
  unfold members in Hin. rewrite Hfr, lookup_insert_eq in Hin.
  cbn [default from_option id cps] in Hin.
  apply elem_of_reverse, elem_of_seq in Hin.
  rewrite Hc in Hcp. unfold cps_with in Hcp.
  rewrite bool_decide_eq_true_2 in Hcp by lia.
  destruct (lookup_lt_is_Some_2 ports (c - S (S (w_next_ptr w)))) as [p Hport];
    [lia|].
  rewrite Hport in Hcp. by injection Hcp as <-.
Qed.

Lemma pushback_resume_restores_new_aggregate_witness :
  let w1 := snd (listen_create ports_udp_tcp 65552 10 (Sample.boot [])) in
  same_resources w1 (snd (listen_resume 1 (snd (listen_pushback 1 w1)))).
Proof.
  apply (pushback_resume_restores_new_aggregate ports_udp_tcp 65552 10
           (Sample.boot []) 1).
  vm_compute. reflexivity.
Defined.

(** ** Failures of the TCP factory are logged *)

(** X22: [create_tcp_accept_sock] never fails silently: whenever it
    returns -1 it has written an error line to the log, after the lines
    that were there. *)
Theorem create_tcp_accept_sock_failure_logged plat addr v6only w :
  fst (create_tcp_accept_sock plat addr v6only w) = -1 →
  error_logged w (snd (create_tcp_accept_sock plat addr v6only w)).
Proof.
  destruct w as [fds n script lg vb nodes np bufs cs fronts].
  destruct addr as [fl fam ty sa].
  unfold create_tcp_accept_sock, error_logged.
  unfold_sys. run_code.
  all: intros Hs; try (exfalso; lia).
  all: eexists; rewrite <- ?(assoc_L (++)); (split; [reflexivity|]).
  all: repeat first [by apply Exists_cons_hd | apply Exists_cons_tl].
Qed.

Lemma create_tcp_accept_sock_failure_logged_witness :
  error_logged (Sample.boot [false; false; false; true])
    (snd (create_tcp_accept_sock Sample.linux (Sample.addr6 SOCK_STREAM) 1
            (Sample.boot [false; false; false; true]))).
Proof.
  apply (create_tcp_accept_sock_failure_logged Sample.linux
           (Sample.addr6 SOCK_STREAM) 1 (Sample.boot [false; false; false; true])).
  vm_compute. reflexivity.
Defined.
